(** * A shallow embedding of the [edl] package (CMX3600 edit decision lists)

    The development follows the Python sources module by module:
    [tracks.py], [sources.py], [fcm.py], [comments.py], [sfm.py], [nfm.py],
    [events.py] and [edl.py].

    Conventions of the embedding.
    - A Python [str] is a Rocq [string]; a character stands for the code point
      of the same number (U+0000 to U+00FF).  The character predicates below
      are Python's on those code points.
    - A Python [int] is a [Z].  The interpreter's limit on the number of
      digits accepted by [int(str)] is not modelled.
    - A call that can raise returns a [result]; [Raise e] carries the
      exception and its message, so that [str(e)] can be formed by the
      caller that wraps it.
    - The [timecode] package and the built-in [float] are not part of the
      package; they enter through the class [Externals]. *)

From Stdlib Require Import String Ascii List ZArith Lia Bool.
Import ListNotations.
Local Open Scope string_scope.
Local Open Scope list_scope.

(** ** Exceptions and results *)

Inductive exn : Type :=
| ValueError (msg : string)
| IndexError (msg : string).

(** [str(e)] for an exception built from one message. *)
Definition exn_str (e : exn) : string :=
  match e with
  | ValueError m => m
  | IndexError m => m
  end.

Inductive result (A : Type) : Type :=
| Ok (a : A)
| Raise (e : exn).
Arguments Ok {A} a.
Arguments Raise {A} e.

Definition bind {A B} (r : result A) (f : A -> result B) : result B :=
  match r with
  | Ok a => f a
  | Raise e => Raise e
  end.

Notation "x <- r ;; k" := (bind r (fun x => k))
  (at level 61, r at next level, right associativity).
Notation "' p <- r ;; k" := (bind r (fun p => k))
  (at level 61, p pattern, r at next level, right associativity).

(** ** Python string primitives *)
Module Py.

Definition LF : ascii := "010"%char.
Definition CR : ascii := "013"%char.
Definition FF : ascii := "012"%char.

Definition code (c : ascii) : nat := nat_of_ascii c.

Definition between (lo hi : nat) (c : ascii) : bool :=
  (lo <=? code c)%nat && (code c <=? hi)%nat.

(** [str.isspace] on one character, which is also the class [\s] of [re]
    on a [str] pattern: TAB..CR, FS..US, SPACE, NEL and NBSP. *)
Definition isspace (c : ascii) : bool :=
  between 9 13 c || between 28 32 c || (code c =? 133)%nat || (code c =? 160)%nat.

(** The class [\d] of [re], and the characters [int] accepts as digits. *)
Definition isdecimal (c : ascii) : bool := between 48 57 c.

(** [str.isnumeric] on one character: the decimal digits, the superscripts
    two, three and one, and the three vulgar fractions. *)
Definition isnumeric_ch (c : ascii) : bool :=
  isdecimal c || (code c =? 178)%nat || (code c =? 179)%nat
  || (code c =? 185)%nat || between 188 190 c.

(** The characters at which [str.splitlines] breaks a line. *)
Definition islinebreak (c : ascii) : bool :=
  between 10 13 c || between 28 30 c || (code c =? 133)%nat.

(** Case mapping on the ASCII letters.  The sources only compare the result
    of [upper] and [lower] with ASCII literals, which no other character
    maps to. *)
Definition lower_ch (c : ascii) : ascii :=
  if between 65 90 c then ascii_of_nat (code c + 32) else c.
Definition upper_ch (c : ascii) : ascii :=
  if between 97 122 c then ascii_of_nat (code c - 32) else c.

Fixpoint smap (f : ascii -> ascii) (s : string) : string :=
  match s with
  | EmptyString => EmptyString
  | String c s' => String (f c) (smap f s')
  end.

Definition lower : string -> string := smap lower_ch.
Definition upper : string -> string := smap upper_ch.

Fixpoint forallb_s (p : ascii -> bool) (s : string) : bool :=
  match s with
  | EmptyString => true
  | String c s' => p c && forallb_s p s'
  end.

Fixpoint existsb_s (p : ascii -> bool) (s : string) : bool :=
  match s with
  | EmptyString => false
  | String c s' => p c || existsb_s p s'
  end.

Definition nonempty (s : string) : bool :=
  match s with EmptyString => false | _ => true end.

(** [s.isnumeric()]: at least one character and all of them numeric. *)
Definition isnumeric (s : string) : bool :=
  nonempty s && forallb_s isnumeric_ch s.

Fixpoint startswith (s p : string) : bool :=
  match p, s with
  | EmptyString, _ => true
  | String a p', String b s' => Ascii.eqb a b && startswith s' p'
  | String _ _, EmptyString => false
  end.

(** [s[n:]] *)
Fixpoint drop (n : nat) (s : string) : string :=
  match n, s with
  | O, _ => s
  | S n', String _ s' => drop n' s'
  | S _, EmptyString => EmptyString
  end.

Fixpoint lstrip (s : string) : string :=
  match s with
  | String c s' => if isspace c then lstrip s' else s
  | EmptyString => EmptyString
  end.

(** [rstrip]: a character is kept when it is not a space or when something
    that is kept follows it. *)
Fixpoint rstrip (s : string) : string :=
  match s with
  | EmptyString => EmptyString
  | String c s' =>
      match rstrip s' with
      | EmptyString => if isspace c then EmptyString else String c EmptyString
      | r => String c r
      end
  end.

Definition strip (s : string) : string := rstrip (lstrip s).

(** [l.rstrip('\n')] *)
Fixpoint rstrip_nl (s : string) : string :=
  match s with
  | EmptyString => EmptyString
  | String c s' =>
      match rstrip_nl s' with
      | EmptyString => if Ascii.eqb c LF then EmptyString else String c EmptyString
      | r => String c r
      end
  end.

(** The longest prefix of characters outside [p], and what follows it. *)
Fixpoint span_not (p : ascii -> bool) (s : string) : string * string :=
  match s with
  | EmptyString => (EmptyString, EmptyString)
  | String c s' =>
      if p c then (EmptyString, s)
      else let '(t, r) := span_not p s' in (String c t, r)
  end.

(** [s.split()[0]] and [s.split(maxsplit=1)[0]]: the first maximal run of
    characters that are not spaces; [IndexError] on a string without one. *)
Definition first_token (s : string) : result string :=
  match lstrip s with
  | EmptyString => Raise (IndexError "list index out of range")
  | s1 => Ok (fst (span_not isspace s1))
  end.

(** [s.split(sep, maxsplit=1)] for a separator of one character. *)
Fixpoint split1 (sep : ascii) (s : string) : list string :=
  match s with
  | EmptyString => [EmptyString]
  | String c s' =>
      if Ascii.eqb c sep then [EmptyString; s']
      else match split1 sep s' with
           | h :: t => String c h :: t
           | [] => [String c EmptyString]
           end
  end.

(** [s.splitlines()]: no line break is kept, CR LF counts once, and
    nothing follows a final line break. *)
Fixpoint splitlines_go (cur : string) (s : string) : list string :=
  match s with
  | EmptyString => match cur with EmptyString => [] | _ => [cur] end
  | String c s' =>
      if islinebreak c then
        match s' with
        | String d s'' =>
            if Ascii.eqb c CR && Ascii.eqb d LF
            then cur :: splitlines_go EmptyString s''
            else cur :: splitlines_go EmptyString s'
        | EmptyString => [cur]
        end
      else splitlines_go (cur ++ String c EmptyString) s'
  end.

Definition splitlines (s : string) : list string := splitlines_go EmptyString s.

(** [sep.join(l)] *)
Fixpoint join (sep : string) (l : list string) : string :=
  match l with
  | [] => EmptyString
  | [x] => x
  | x :: l' => x ++ sep ++ join sep l'
  end.

Fixpoint replicate (n : nat) (c : ascii) : string :=
  match n with
  | O => EmptyString
  | S n' => String c (replicate n' c)
  end.

Definition ljust (w : nat) (s : string) : string :=
  s ++ replicate (w - String.length s) " ".
Definition rjust (w : nat) (s : string) : string :=
  replicate (w - String.length s) " " ++ s.

(** [s.zfill(w)]: zeros go between a leading sign and the rest. *)
Definition zfill (w : nat) (s : string) : string :=
  match s with
  | String c s' =>
      if Ascii.eqb c "+" || Ascii.eqb c "-"
      then String c (replicate (w - String.length s) "0" ++ s')
      else replicate (w - String.length s) "0" ++ s
  | EmptyString => replicate w "0"
  end.

Definition digit_of (c : ascii) : Z := Z.of_nat (code c - 48).
Definition ch_of_digit (d : Z) : ascii := ascii_of_nat (48 + Z.to_nat d).

Fixpoint digits_val (acc : Z) (s : string) : Z :=
  match s with
  | EmptyString => acc
  | String c s' => digits_val (10 * acc + digit_of c) s'
  end.

(** [int(s)] on a string of decimal digits.  The patterns and the test
    [isnumeric] let no other text reach [int] that it would read; only a
    direct call of [Track] can hand it a sign, underscores between digits or
    whitespace around them, which [int] reads and this function refuses. *)
Definition int (s : string) : result Z :=
  if nonempty s && forallb_s isdecimal s then Ok (digits_val 0 s)
  else Raise (ValueError ("invalid literal for int() with base 10: '" ++ s ++ "'")).

Fixpoint nat_digits (fuel : nat) (n : Z) (acc : string) : string :=
  match fuel with
  | O => acc
  | S fuel' =>
      let acc' := String (ch_of_digit (n mod 10)) acc in
      if (n / 10 =? 0)%Z then acc' else nat_digits fuel' (n / 10) acc'
  end.

(** [str(n)] for an [int]. *)
Definition str_int (n : Z) : string :=
  if (n <? 0)%Z
  then String "-" (nat_digits (S (Z.to_nat (- n))) (- n) EmptyString)
  else nat_digits (S (Z.to_nat n)) n EmptyString.

(** The interpreter's default limit on the conversions between [int] and
    [str]: [int(s)] raises ValueError when [s] holds more than 4300 digits,
    leading zeros counted, and [str(n)] when [n] has more than 4300 digits.
    [int] and [str_int] above are the two conversions within the limit. *)
Definition max_str_digits : Z := 4300.

(** A number that [str] prints: the sign does not count. *)
Definition printable (n : Z) : bool :=
  (Z.of_nat (String.length (str_int (Z.abs n))) <=? max_str_digits)%Z.

(** A text too short to hold more digits than [int] reads. *)
Definition readable (s : string) : bool :=
  (Z.of_nat (String.length s) <=? max_str_digits)%Z.

End Py.

(** ** The fragment of [re] that the patterns of the package use

    [run] lists the ways a pattern can consume a prefix of the subject, in
    the order in which a backtracking matcher tries them (greedy repetition,
    left alternative first); each way comes with the text of the named groups
    that took part.  [match_] is the first of them, as [Pattern.match]. *)
Module Re.

Inductive re : Type :=
| Eps
| Lit (c : ascii)
| Cls (p : ascii -> bool)
| Seq (a b : re)
| Alt (a b : re)
| Opt (a : re)
| Star (p : ascii -> bool)
| Grp (name : string) (a : re)
| Eol.

Definition Plus (p : ascii -> bool) : re := Seq (Cls p) (Star p).
Definition seqs (l : list re) : re := fold_right Seq Eps l.

Definition captures : Type := list (string * string).

(** What is left after a greedy run of [p], longest run first. *)
Fixpoint star_rests (p : ascii -> bool) (s : string) : list string :=
  match s with
  | String c s' => if p c then star_rests p s' ++ [s] else [s]
  | EmptyString => [EmptyString]
  end.

Fixpoint take (n : nat) (s : string) : string :=
  match n, s with
  | S n', String c s' => String c (take n' s')
  | _, _ => EmptyString
  end.

(** The text consumed between the subject [s] and what is left of it. *)
Definition consumed (s rest : string) : string :=
  take (String.length s - String.length rest) s.

Definition lit_eqb (ignorecase : bool) (c d : ascii) : bool :=
  if ignorecase then Ascii.eqb (Py.lower_ch c) (Py.lower_ch d) else Ascii.eqb c d.

(** [$] without [re.M]: at the end, or before a final newline. *)
Definition at_end (s : string) : bool :=
  match s with
  | EmptyString => true
  | String c EmptyString => Ascii.eqb c Py.LF
  | _ => false
  end.

Fixpoint run (ignorecase : bool) (r : re) (s : string) (g : captures)
  : list (string * captures) :=
  match r with
  | Eps => [(s, g)]
  | Lit c =>
      match s with
      | String d s' => if lit_eqb ignorecase c d then [(s', g)] else []
      | EmptyString => []
      end
  | Cls p =>
      match s with
      | String d s' => if p d then [(s', g)] else []
      | EmptyString => []
      end
  | Seq a b =>
      flat_map (fun x => run ignorecase b (fst x) (snd x)) (run ignorecase a s g)
  | Alt a b => run ignorecase a s g ++ run ignorecase b s g
  | Opt a => run ignorecase a s g ++ [(s, g)]
  | Star p => map (fun s' => (s', g)) (star_rests p s)
  | Grp name a =>
      map (fun x => (fst x, (name, consumed s (fst x)) :: snd x)) (run ignorecase a s g)
  | Eol => if at_end s then [(s, g)] else []
  end.

Definition match_ (ignorecase : bool) (r : re) (s : string) : option captures :=
  option_map snd (hd_error (run ignorecase r s [])).

(** [m.group(name)] of a group that took part in the match. *)
Fixpoint group (m : captures) (name : string) : option string :=
  match m with
  | [] => None
  | (n, v) :: m' => if String.eqb n name then Some v else group m' name
  end.

(** Shorthands for the classes that occur in the patterns. *)
Definition d : re := Cls Py.isdecimal.
Definition notspace (c : ascii) : bool := negb (Py.isspace c).
Definition dot (c : ascii) : bool := negb (Ascii.eqb c Py.LF).
Definition ws1 : re := Plus Py.isspace.

End Re.

(** ** tracks.py *)

Inductive Track_Type : Type := VIDEO | AUDIO.

Definition Track_Type_value (t : Track_Type) : string :=
  match t with VIDEO => "V" | AUDIO => "A" end.

(** [Track.Type(value)], the lookup of an enumeration member by value. *)
Definition Track_Type_of_value (v : string) : result Track_Type :=
  if String.eqb v "V" then Ok VIDEO
  else if String.eqb v "A" then Ok AUDIO
  else Raise (ValueError ("'" ++ v ++ "' is not a valid Track.Type")).

Record Track : Type := mkTrack { _type : Track_Type; _index : Z }.

Definition Track_init (name : string) : result Track :=
  match name with
  | EmptyString => Raise (IndexError "string index out of range")
  | String c rest =>
      ty <- Track_Type_of_value (String (Py.upper_ch c) EmptyString) ;;
      idx <- (if (1 <? String.length name)%nat then Py.int rest else Ok 1%Z) ;;
      Ok (mkTrack ty idx)
  end.

Definition Track_name (t : Track) : string :=
  if (1 <? _index t)%Z then Track_Type_value (_type t) ++ Py.str_int (_index t)
  else Track_Type_value (_type t).

(** [Track.__eq__]: by name. *)
Definition Track_eqb (a b : Track) : bool := String.eqb (Track_name a) (Track_name b).

(** ** sources.py *)

Inductive SourceReel : Type :=
| BlackSource
| AuxSource
| TapeSource (_NAME : string).

Definition SourceReel_name (s : SourceReel) : string :=
  match s with
  | BlackSource => "BL"
  | AuxSource => "AX"
  | TapeSource n => n
  end.

(** [SourceReel.__eq__]: by name. *)
Definition SourceReel_eqb (a b : SourceReel) : bool :=
  String.eqb (SourceReel_name a) (SourceReel_name b).

Definition BlackSource_validate (reel_name : string) : bool :=
  String.eqb (Py.upper reel_name) "BL".

Definition AuxSource_validate (reel_name : string) : bool :=
  String.eqb (Py.upper reel_name) "AX".

(** [len(reel_name.strip()) and not re.search("[\s]", reel_name)] *)
Definition TapeSource_validate (reel_name : string) : bool :=
  Py.nonempty (Py.strip reel_name) && negb (Py.existsb_s Py.isspace reel_name).

Definition TapeSource_init (reel_name : string) : result SourceReel :=
  if negb (TapeSource_validate reel_name)
  then Raise (ValueError "Reel name contains invalid characters for this source type")
  else Ok (TapeSource reel_name).

Definition SourceReel_from_string (reel_name : string) : result SourceReel :=
  if BlackSource_validate reel_name then Ok BlackSource
  else if AuxSource_validate reel_name then Ok AuxSource
  else if TapeSource_validate reel_name then TapeSource_init reel_name
  else Raise (ValueError "Reel name format is not recognized").

(** ** fcm.py *)

Inductive Fcm : Type := NON_DROP_FRAME | DROP_FRAME | PAL.

Definition Fcm_value (f : Fcm) : string :=
  match f with
  | NON_DROP_FRAME => "NON-DROP FRAME"
  | DROP_FRAME => "DROP FRAME"
  | PAL => "PAL"
  end.

(** [Fcm(value)] *)
Definition Fcm_of_value (v : string) : result Fcm :=
  if String.eqb v "NON-DROP FRAME" then Ok NON_DROP_FRAME
  else if String.eqb v "DROP FRAME" then Ok DROP_FRAME
  else if String.eqb v "PAL" then Ok PAL
  else Raise (ValueError ("'" ++ v ++ "' is not a valid Fcm")).

Definition Fcm_eqb (a b : Fcm) : bool :=
  match a, b with
  | NON_DROP_FRAME, NON_DROP_FRAME | DROP_FRAME, DROP_FRAME | PAL, PAL => true
  | _, _ => false
  end.

(** ** comments.py *)

Inductive BaseComment : Type :=
| FieldComment (_field _value : string)
| StandardComment (_comment : string).

(** [BaseComment.validate].  The three conditions are the items of a tuple,
    which is built before [all] looks at it: indexing the first token raises
    on a line without a token whatever the other two are. *)
Definition BaseComment_validate (line : string) : result bool :=
  let c1 := Py.nonempty (Py.strip line) in
  let c2 := negb (Py.existsb_s (Ascii.eqb Py.LF) line) in
  tok <- Py.first_token line ;;
  c3 <- match tok with
        | String ch _ => Ok (negb (Py.isnumeric_ch ch))
        | EmptyString => Raise (IndexError "string index out of range")
        end ;;
  Ok (c1 && c2 && c3).

(** [r"^\*\s*[^\s]+.*\:\s*[^\s]+.*$"]; [search] with a leading [^] looks at
    the start of the line only. *)
Definition FieldComment_PAT_MATCH : Re.re :=
  Re.seqs [ Re.Lit "*"; Re.Star Py.isspace; Re.Plus Re.notspace; Re.Star Re.dot;
            Re.Lit ":"; Re.Star Py.isspace; Re.Plus Re.notspace; Re.Star Re.dot;
            Re.Eol ].

Definition is_some {A} (o : option A) : bool :=
  match o with Some _ => true | None => false end.

Definition FieldComment_validate (line : string) : result bool :=
  c1 <- BaseComment_validate line ;;
  Ok (c1 && is_some (Re.match_ false FieldComment_PAT_MATCH line)).

Definition StandardComment_validate (line : string) : result bool :=
  BaseComment_validate line.

Definition FieldComment_from_string (line : string) : result BaseComment :=
  match Py.split1 ":" (Py.drop 1 line) with
  | p0 :: p1 :: _ => Ok (FieldComment (Py.strip p0) (Py.strip p1))
  | _ => Raise (IndexError "list index out of range")
  end.

Definition StandardComment_init (comment : string) : result BaseComment :=
  ok <- StandardComment_validate comment ;;
  if negb ok then Raise (ValueError "This is not a valid comment")
  else Ok (StandardComment comment).

Definition StandardComment_from_string (line : string) : result BaseComment :=
  StandardComment_init line.

Definition BaseComment_str (c : BaseComment) : string :=
  match c with
  | FieldComment f v => "* " ++ f ++ ": " ++ v
  | StandardComment c => c
  end.

(** ** What the package imports from outside

    [Timecode] and [TimecodeRange] come from the [timecode] package, [float]
    from the language.  The package constructs them from text, prints them,
    compares timecodes and reads the ends and the duration of a range. *)
Class Externals : Type := {
  Timecode : Type;
  Timecode_init : string -> result Timecode;
  Timecode_str : Timecode -> string;
  Timecode_ltb : Timecode -> Timecode -> bool;
  TimecodeRange : Type;
  TimecodeRange_init : Timecode -> Timecode -> result TimecodeRange;
  TimecodeRange_start : TimecodeRange -> Timecode;
  TimecodeRange_end : TimecodeRange -> Timecode;
  TimecodeRange_duration : TimecodeRange -> Timecode;
  float : Type;
  (** [float(text)] *)
  float_init : string -> result float;
  (** [str(round(x, 1))] *)
  float_round1_str : float -> string;
  (** [x < 0] *)
  float_ltb0 : float -> bool
}.

(** ** sfm.py *)
Section Statements.
Context {X : Externals}.

(** The fields of the subclasses of [StandardFormStatement]. *)
Inductive sfs_class : Type :=
| CutStatement
| DissolveStatement (_dissolve_length : Z)
| WipeStatement (_wipe_length _wipe_id : Z)
| KeyForegroundStatement (_dissolve_length : Z)
| KeyBackgroundStatement (_fade_condition : bool).

Record StandardFormStatement : Type := mkSFS {
  _reel : SourceReel;
  _tracks : list Track;
  _timecode_source : TimecodeRange;
  _timecode_record : TimecodeRange;
  _event_number : option Z;
  _class : sfs_class
}.

(** [StandardFormStatement.__init__] *)
Definition StandardFormStatement_init (reel_name : string) (tracks : list Track)
    (timecode_source timecode_record : TimecodeRange) (event_number : option Z)
    (c : sfs_class) : result StandardFormStatement :=
  reel <- SourceReel_from_string reel_name ;;
  Ok (mkSFS reel tracks timecode_source timecode_record event_number c).

(** The statement's frame counting mode, which the source fixes. *)
Definition StandardFormStatement_fcm (s : StandardFormStatement) : Fcm := NON_DROP_FRAME.

Definition reel_name (s : StandardFormStatement) : string := SourceReel_name (_reel s).

(** [statement.group(name)] for a group of the matched pattern. *)
Definition group (m : Re.captures) (name : string) : result string :=
  match Re.group m name with
  | Some v => Ok v
  | None => Raise (IndexError "no such group")
  end.

Definition _parse_shared_elements (statement : Re.captures)
  : result (Z * string * list Track * TimecodeRange * TimecodeRange) :=
  event_number <- (g <- group statement "event_number" ;; Py.int g) ;;
  reel_name <- group statement "reel_name" ;;
  track <- (g <- group statement "track_type" ;; Track_init g) ;;
  src_in <- (g <- group statement "tc_src_in" ;; Timecode_init g) ;;
  src_out <- (g <- group statement "tc_src_out" ;; Timecode_init g) ;;
  timecode_source <- TimecodeRange_init src_in src_out ;;
  rec_in <- (g <- group statement "tc_rec_in" ;; Timecode_init g) ;;
  rec_out <- (g <- group statement "tc_rec_out" ;; Timecode_init g) ;;
  timecode_record <- TimecodeRange_init rec_in rec_out ;;
  Ok (event_number, reel_name, [track], timecode_source, timecode_record).

(** [\d{2}:\d{2}:\d{2}:\d{2}] *)
Definition TC : Re.re :=
  Re.seqs [ Re.d; Re.d; Re.Lit ":"; Re.d; Re.d; Re.Lit ":";
            Re.d; Re.d; Re.Lit ":"; Re.d; Re.d ].

(** The fields every [PAT_EVENT] starts with, up to the track. *)
Definition pat_head : list Re.re :=
  [ Re.Grp "event_number" (Re.Plus Py.isdecimal); Re.ws1;
    Re.Grp "reel_name" (Re.Plus Re.notspace); Re.ws1;
    Re.Grp "track_type"
      (Re.Alt (Re.Seq (Re.Lit "A") (Re.Star Py.isdecimal)) (Re.Alt (Re.Lit "B") (Re.Lit "V")));
    Re.ws1 ].

(** The four timecodes every [PAT_EVENT] ends with. *)
Definition pat_tail : list Re.re :=
  [ Re.Grp "tc_src_in" TC; Re.ws1; Re.Grp "tc_src_out" TC; Re.ws1;
    Re.Grp "tc_rec_in" TC; Re.ws1; Re.Grp "tc_rec_out" TC;
    Re.Star Py.isspace; Re.Eol ].

Definition CutStatement_PAT_EVENT : Re.re :=
  Re.seqs (pat_head ++ [ Re.Grp "event_type" (Re.Lit "C"); Re.ws1 ] ++ pat_tail).

Definition DissolveStatement_PAT_EVENT : Re.re :=
  Re.seqs (pat_head ++ [ Re.Grp "event_type" (Re.Lit "D"); Re.ws1;
                         Re.Grp "event_duration" (Re.Plus Py.isdecimal); Re.ws1 ] ++ pat_tail).

Definition WipeStatement_PAT_EVENT : Re.re :=
  Re.seqs (pat_head ++ [ Re.Grp "event_type" (Re.Seq (Re.Lit "W") (Re.Plus Py.isdecimal)); Re.ws1;
                         Re.Grp "event_duration" (Re.Plus Py.isdecimal); Re.ws1 ] ++ pat_tail).

Definition KeyForegroundStatement_PAT_EVENT : Re.re :=
  Re.seqs (pat_head ++ [ Re.Grp "event_type" (Re.Lit "K"); Re.ws1;
                         Re.Grp "event_duration" (Re.Plus Py.isdecimal); Re.ws1 ] ++ pat_tail).

Definition KeyBackgroundStatement_PAT_EVENT : Re.re :=
  Re.seqs (pat_head ++
           [ Re.Grp "event_type" (Re.seqs [Re.Lit "K"; Re.Opt (Re.Cls Py.isspace); Re.Lit "B"]);
             Re.ws1;
             Re.Opt (Re.Grp "fade_condition" (Re.seqs [Re.Lit "("; Re.Lit "F"; Re.Lit ")"]));
             Re.ws1 ] ++ pat_tail).

(** [parse_from_pattern] of the five subclasses.  The arguments of the
    constructor are evaluated before [__init__] looks the reel up. *)
Definition CutStatement_parse_from_pattern (statement : Re.captures)
  : result StandardFormStatement :=
  '(event_number, reel_name, tracks, timecode_source, timecode_record)
     <- _parse_shared_elements statement ;;
  StandardFormStatement_init reel_name tracks timecode_source timecode_record
    (Some event_number) CutStatement.

Definition DissolveStatement_parse_from_pattern (statement : Re.captures)
  : result StandardFormStatement :=
  '(event_number, reel_name, tracks, timecode_source, timecode_record)
     <- _parse_shared_elements statement ;;
  dissolve_length <- (g <- group statement "event_duration" ;; Py.int g) ;;
  StandardFormStatement_init reel_name tracks timecode_source timecode_record
    (Some event_number) (DissolveStatement dissolve_length).

Definition WipeStatement_parse_from_pattern (statement : Re.captures)
  : result StandardFormStatement :=
  '(event_number, reel_name, tracks, timecode_source, timecode_record)
     <- _parse_shared_elements statement ;;
  wipe_length <- (g <- group statement "event_duration" ;; Py.int g) ;;
  wipe_id <- (g <- group statement "event_type" ;; Py.int (Py.drop 1 g)) ;;
  StandardFormStatement_init reel_name tracks timecode_source timecode_record
    (Some event_number) (WipeStatement wipe_length wipe_id).

Definition KeyForegroundStatement_parse_from_pattern (statement : Re.captures)
  : result StandardFormStatement :=
  '(event_number, reel_name, tracks, timecode_source, timecode_record)
     <- _parse_shared_elements statement ;;
  dissolve_length <- (g <- group statement "event_duration" ;; Py.int g) ;;
  StandardFormStatement_init reel_name tracks timecode_source timecode_record
    (Some event_number) (KeyForegroundStatement dissolve_length).

Definition KeyBackgroundStatement_parse_from_pattern (statement : Re.captures)
  : result StandardFormStatement :=
  '(event_number, reel_name, tracks, timecode_source, timecode_record)
     <- _parse_shared_elements statement ;;
  let fade_condition :=
    match Re.group statement "fade_condition" with
    | Some v => Py.nonempty v
    | None => false
    end in
  StandardFormStatement_init reel_name tracks timecode_source timecode_record
    (Some event_number) (KeyBackgroundStatement fade_condition).

(** [StandardFormStatement.all_statement_types()]: the subclasses in the
    order of their definition, each with its pattern and its parser. *)
Definition StandardFormStatement_all_statement_types
  : list (Re.re * (Re.captures -> result StandardFormStatement)) :=
  [ (CutStatement_PAT_EVENT, CutStatement_parse_from_pattern);
    (DissolveStatement_PAT_EVENT, DissolveStatement_parse_from_pattern);
    (WipeStatement_PAT_EVENT, WipeStatement_parse_from_pattern);
    (KeyForegroundStatement_PAT_EVENT, KeyForegroundStatement_parse_from_pattern);
    (KeyBackgroundStatement_PAT_EVENT, KeyBackgroundStatement_parse_from_pattern) ].

(** The columns every [__str__] starts with and ends with. *)
Definition str_head (s : StandardFormStatement) : string :=
  Py.zfill 3 (Py.str_int (match _event_number s with Some n => n | None => 1%Z end))
  ++ "  " ++ Py.ljust 128 (reel_name s)
  ++ "  " ++ Py.ljust 3 (Py.join "" (map Track_name (_tracks s))).

Definition str_tail (s : StandardFormStatement) : string :=
  Timecode_str (TimecodeRange_start (_timecode_source s)) ++ " "
  ++ Timecode_str (TimecodeRange_end (_timecode_source s)) ++ " "
  ++ Timecode_str (TimecodeRange_start (_timecode_record s)) ++ " "
  ++ Timecode_str (TimecodeRange_end (_timecode_record s)).

Definition StandardFormStatement_str (s : StandardFormStatement) : string :=
  match _class s with
  | CutStatement =>
      str_head s ++ "  C       " ++ str_tail s
  | DissolveStatement len =>
      str_head s ++ "  D  " ++ Py.zfill 3 (Py.str_int len) ++ "  " ++ str_tail s
  | WipeStatement len id =>
      str_head s ++ "  W" ++ Py.zfill 3 (Py.str_int id) ++ "  "
      ++ Py.zfill 3 (Py.str_int len) ++ "  " ++ str_tail s
  | KeyForegroundStatement len =>
      str_head s ++ "  K  " ++ Py.zfill 3 (Py.str_int len) ++ "  " ++ str_tail s
  | KeyBackgroundStatement fade =>
      str_head s ++ "  K B  " ++ (if fade then "(F)" else "   ") ++ "  " ++ str_tail s
  end.

(** ** nfm.py *)

Record NoteFormStatement : Type := mkM2 {
  nfs_reel : SourceReel;
  _speed : float;
  _tc_start : Timecode
}.

(** [MotionMemoryNoteFormStatement.PAT_NOTE].  The pattern ends with
    [\s+] and has no [$]. *)
Definition MotionMemoryNoteFormStatement_PAT_NOTE : Re.re :=
  Re.seqs [ Re.Grp "note_type" (Re.Seq (Re.Lit "M") (Re.Lit "2"));
            Re.ws1;
            Re.Grp "reel_name" (Re.Plus Re.notspace);
            Re.ws1;
            Re.Grp "speed"
              (Re.Plus (fun c => Ascii.eqb c "+" || Ascii.eqb c "-" || Ascii.eqb c "."
                                 || Py.isdecimal c));
            Re.ws1;
            Re.Grp "tc_src_start" TC; Re.ws1 ].

Definition MotionMemoryNoteFormStatement_parse_from_pattern (statement : Re.captures)
  : result NoteFormStatement :=
  reel_name <- group statement "reel_name" ;;
  speed <- (g <- group statement "speed" ;; float_init g) ;;
  tc_start <- (g <- group statement "tc_src_start" ;; Timecode_init g) ;;
  reel <- SourceReel_from_string reel_name ;;
  Ok (mkM2 reel speed tc_start).

Definition NoteFormStatement_all_statement_types
  : list (Re.re * (Re.captures -> result NoteFormStatement)) :=
  [ (MotionMemoryNoteFormStatement_PAT_NOTE, MotionMemoryNoteFormStatement_parse_from_pattern) ].

Definition NoteFormStatement_str (n : NoteFormStatement) : string :=
  "M2     " ++ Py.ljust 129 (SourceReel_name (nfs_reel n)) ++ "  "
  ++ Py.rjust 6 (Py.zfill (if float_ltb0 (_speed n) then 6 else 5)
                          (float_round1_str (_speed n)))
  ++ "  " ++ Timecode_str (_tc_start n).

(** [BaseComment.all_statement_types()] *)
Definition BaseComment_all_statement_types
  : list ((string -> result bool) * (string -> result BaseComment)) :=
  [ (FieldComment_validate, FieldComment_from_string);
    (StandardComment_validate, StandardComment_from_string) ].

(** ** events.py *)

Record Event : Type := mkEvent {
  _sfs : list StandardFormStatement;
  _nfs : list NoteFormStatement;
  _fcm : Fcm;
  _comments : list BaseComment
}.

(** Adding to a Python set whose members compare by [eqb]. *)
Definition set_add {A} (eqb : A -> A -> bool) (x : A) (s : list A) : list A :=
  if existsb (eqb x) s then s else s ++ [x].

Definition set_of {A} (eqb : A -> A -> bool) (l : list A) : list A :=
  fold_left (fun s x => set_add eqb x s) l [].

Definition Event_init (standard_statements : list StandardFormStatement)
    (note_statements : list NoteFormStatement) (comments : list BaseComment)
  : result Event :=
  match standard_statements with
  | [] => Raise (ValueError
            "An event must contain at least one standard form statement (zero were given)")
  | _ =>
      match set_of Fcm_eqb (map StandardFormStatement_fcm standard_statements) with
      | [fcm] => Ok (mkEvent standard_statements note_statements fcm comments)
      | _ => Raise (ValueError "Standard Form Statements must have matching FCMs")
      end
  end.

(** What [_identify_line] returns. *)
Inductive parsed_line : Type :=
| IsStandard (s : StandardFormStatement)
| IsNote (n : NoteFormStatement)
| IsComment (c : BaseComment).

(** [for s in types: match = s.PAT.match(line); if match: return s.parse_from_pattern(match)] *)
Fixpoint first_match {A} (types : list (Re.re * (Re.captures -> result A))) (line : string)
  : option (result A) :=
  match types with
  | [] => None
  | (pat, parse_from_pattern) :: types' =>
      match Re.match_ true pat line with
      | Some m => Some (parse_from_pattern m)
      | None => first_match types' line
      end
  end.

(** [for c in BaseComment.all_statement_types(): if c.validate(line): return c.from_string(line)]
    and the [raise] that follows the loop. *)
Fixpoint identify_comment
    (types : list ((string -> result bool) * (string -> result BaseComment)))
    (line : string) : result parsed_line :=
  match types with
  | [] => Raise (ValueError "Unrecognized line")
  | (validate, from_string) :: types' =>
      ok <- validate line ;;
      if ok then (c <- from_string line ;; Ok (IsComment c))
      else identify_comment types' line
  end.

(** The part of [_identify_line] after the test on the first character. *)
Definition identify_note_or_comment (line : string) : result parsed_line :=
  match first_match NoteFormStatement_all_statement_types line with
  | Some r => n <- r ;; Ok (IsNote n)
  | None => identify_comment BaseComment_all_statement_types line
  end.

(** [line and line[0].isnumeric()] *)
Definition first_char_isnumeric (line : string) : bool :=
  match line with
  | String c _ => Py.isnumeric_ch c
  | EmptyString => false
  end.

Definition Event__identify_line (line : string) : result parsed_line :=
  match first_match StandardFormStatement_all_statement_types line with
  | Some r => s <- r ;; Ok (IsStandard s)
  | None =>
      if first_char_isnumeric line
      then Raise (ValueError "Unrecognized standard form statement")
      else identify_note_or_comment line
  end.

(** The loop of [Event.from_string] over the lines of the event. *)
Fixpoint from_string_loop (lines : list string)
    (sfs : list StandardFormStatement) (nfs : list NoteFormStatement)
    (comments : list BaseComment) : result Event :=
  match lines with
  | [] => Event_init sfs nfs comments
  | line :: lines' =>
      if negb (Py.nonempty (Py.strip line)) then from_string_loop lines' sfs nfs comments
      else
        parsed <- Event__identify_line line ;;
        match parsed with
        | IsStandard s => from_string_loop lines' (sfs ++ [s]) nfs comments
        | IsNote n => from_string_loop lines' sfs (nfs ++ [n]) comments
        | IsComment c => from_string_loop lines' sfs nfs (comments ++ [c])
        end
  end.

Definition Event_from_string (event : string) : result Event :=
  from_string_loop (Py.splitlines event) [] [] [].

Definition Event_tracks (e : Event) : list Track :=
  set_of Track_eqb (flat_map _tracks (_sfs e)).

Definition Event_sources (e : Event) : list SourceReel :=
  set_of SourceReel_eqb (map _reel (_sfs e)).

(** [min] and [max] keep the first of several least or greatest items;
    [a > b] is read as [b < a]. *)
Definition py_min (l : list Timecode) : result Timecode :=
  match l with
  | [] => Raise (ValueError "min() arg is an empty sequence")
  | x :: l' => Ok (fold_left (fun best item => if Timecode_ltb item best then item else best) l' x)
  end.

Definition py_max (l : list Timecode) : result Timecode :=
  match l with
  | [] => Raise (ValueError "max() arg is an empty sequence")
  | x :: l' => Ok (fold_left (fun best item => if Timecode_ltb best item then item else best) l' x)
  end.

Definition Event_timecode_extents (e : Event) : result TimecodeRange :=
  start <- py_min (map (fun s => TimecodeRange_start (_timecode_record s)) (_sfs e)) ;;
  end_ <- py_max (map (fun s => TimecodeRange_end (_timecode_record s)) (_sfs e)) ;;
  TimecodeRange_init start end_.

Definition Event_duration (e : Event) : result Timecode :=
  r <- Event_timecode_extents e ;; Ok (TimecodeRange_duration r).

Definition Event_str (e : Event) : string :=
  Py.join (String Py.LF EmptyString)
    [ Py.join (String Py.LF EmptyString) (map StandardFormStatement_str (_sfs e));
      Py.join (String Py.LF EmptyString) (map NoteFormStatement_str (_nfs e));
      Py.join (String Py.LF EmptyString) (map BaseComment_str (_comments e)) ].

(** ** edl.py *)

Record Edl : Type := mkEdl {
  _title : string;
  edl_fcm : Fcm;
  _events : list Event
}.

(** [Edl.__init__] with the setter of [title]; the setter of [fcm] accepts
    every member of [Fcm]. *)
Definition Edl_init (title : string) (fcm : Fcm) (events : list Event) : result Edl :=
  let title := Py.strip title in
  if negb (Py.nonempty title)
  then Raise (ValueError "The title cannot be an empty string")
  else if (1 <? List.length (Py.splitlines title))%nat
  then Raise (ValueError "The title must not contain line breaks")
  else Ok (mkEdl title fcm events).

Definition Edl__parse_title_from_line (line : string) : result string :=
  let START := "title:" in
  if negb (Py.startswith (Py.lower line) START)
  then Raise (ValueError "Title was expected, but not found")
  else
    let title := Py.strip (Py.drop (String.length START) line) in
    if negb (Py.nonempty title) then Raise (ValueError "Title is empty")
    else Ok title.

Definition Edl__parse_fcm_from_line (line : string) : result Fcm :=
  let START := "fcm:" in
  if negb (Py.startswith (Py.lower line) START)
  then Raise (ValueError "FCM was expected, but not found")
  else
    match Fcm_of_value (Py.strip (Py.drop (String.length START) line)) with
    | Ok fcm => Ok fcm
    | Raise _ => Raise (ValueError "Invalid FCM specified")
    end.

Definition Edl__is_begin_new_event (line : string) (current_index : Z) : result bool :=
  if (current_index =? 0)%Z then Ok false
  else
    first_token <- Py.first_token line ;;
    if existsb (String.eqb (Py.lower first_token)) ["FCM:"; "SPLIT:"] then Ok true
    else if Py.isnumeric first_token then
      n <- Py.int first_token ;;
      if negb (n =? current_index)%Z then Ok true else Ok false
    else Ok false.

(** The text stream, as the reader hands it over (after the translation of
    line ends, if the stream does one): [readlines] cuts after every newline
    and keeps it. *)
Fixpoint readlines_go (cur : string) (s : string) : list string :=
  match s with
  | EmptyString => match cur with EmptyString => [] | _ => [cur] end
  | String c s' =>
      if Ascii.eqb c Py.LF
      then (cur ++ String c EmptyString)%string :: readlines_go EmptyString s'
      else readlines_go (cur ++ String c EmptyString) s'
  end.

Definition readlines (text : string) : list string := readlines_go EmptyString text.

(** The local variables of [from_file] that its loop updates. *)
Record parser_state : Type := mkState {
  events : list Event;
  event_buffer : list string;
  current_index : Z
}.

(** The body of the [try] statement, for one line that is not empty. *)
Definition try_body (st : parser_state) (line_edl : string) : result parser_state :=
  st1 <- match event_buffer st with
         | [] => Ok st
         | _ =>
             begin_new <- Edl__is_begin_new_event line_edl (current_index st) ;;
             if begin_new then
               ev <- Event_from_string (Py.join (String Py.LF EmptyString) (event_buffer st)) ;;
               Ok (mkState (events st ++ [ev]) [] 0%Z)
             else Ok st
         end ;;
  tok <- Py.first_token line_edl ;;
  idx <- (if Py.isnumeric tok then Py.int tok else Ok (current_index st1)) ;;
  Ok (mkState (events st1) (event_buffer st1 ++ [line_edl]) idx).

(** One turn of the loop: an empty line is skipped, and whatever the body
    raises is raised again behind the number the loop gives the line. *)
Definition loop_step (st : parser_state) (line_num : Z) (line_edl : string)
  : result parser_state :=
  if negb (Py.nonempty line_edl) then Ok st
  else
    match try_body st line_edl with
    | Ok st' => Ok st'
    | Raise e =>
        Raise (ValueError ("Line " ++ Py.str_int (line_num + 2) ++ ": " ++ exn_str e))
    end.

Fixpoint loop (st : parser_state) (line_num : Z) (lines : list string)
  : result parser_state :=
  match lines with
  | [] => Ok st
  | l :: lines' =>
      st' <- loop_step st line_num (Py.rstrip_nl l) ;;
      loop st' (line_num + 1) lines'
  end.

Definition Edl_from_file (file_edl : string) : result Edl :=
  let lines := readlines file_edl in
  title <- Edl__parse_title_from_line (nth 0 lines EmptyString) ;;
  let line_fcm := nth 1 lines EmptyString in
  '(global_fcm, body) <-
     (if Py.startswith (Py.upper line_fcm) "FCM:"
      then fcm <- Edl__parse_fcm_from_line line_fcm ;; Ok (fcm, skipn 2 lines)
      else Ok (PAL, skipn 1 lines)) ;;
  st <- loop (mkState [] [] 0%Z) 0%Z body ;;
  all_events <- match event_buffer st with
                | [] => Ok (events st)
                | _ =>
                    ev <- Event_from_string
                            (Py.join (String Py.LF EmptyString) (event_buffer st)) ;;
                    Ok (events st ++ [ev])
                end ;;
  Edl_init title global_fcm all_events.

Definition Edl_header (e : Edl) : string :=
  let header := ("TITLE: " ++ _title e)%string in
  if negb (Fcm_eqb (edl_fcm e) PAL)
  then (header ++ String Py.LF EmptyString ++ "FCM: " ++ Fcm_value (edl_fcm e))%string
  else header.

(** [Edl.write] and [Edl.__str__]: [print] ends every item with a newline. *)
Definition Edl_str (e : Edl) : string :=
  (Edl_header e ++ String Py.LF EmptyString
   ++ String.concat EmptyString
        (map (fun ev => Event_str ev ++ String Py.LF EmptyString) (_events e)))%string.

Definition Edl_tracks (e : Edl) : list Track :=
  set_of Track_eqb (flat_map Event_tracks (_events e)).

Definition Edl_sources (e : Edl) : list SourceReel :=
  set_of SourceReel_eqb (flat_map Event_sources (_events e)).

End Statements.

(** ** A reference instance of the externals

    Timecodes count frames at 24 frames per second, a range needs its start
    not after its end, and a float is an exact decimal.  The closed examples
    below are evaluated with it. *)
Module Reference.

Definition rate : Z := 24.

Definition fields (s : string) : list string :=
  match Py.split1 ":" s with
  | [h; r1] =>
      match Py.split1 ":" r1 with
      | [m; r2] =>
          match Py.split1 ":" r2 with
          | [sec; f] => [h; m; sec; f]
          | _ => []
          end
      | _ => []
      end
  | _ => []
  end.

Definition timecode_init (s : string) : result Z :=
  match fields s with
  | [h; m; sec; f] =>
      h <- Py.int h ;; m <- Py.int m ;; sec <- Py.int sec ;; f <- Py.int f ;;
      Ok (((h * 60 + m) * 60 + sec) * rate + f)%Z
  | _ => Raise (ValueError "Invalid timecode")
  end.

Definition two (n : Z) : string := Py.zfill 2 (Py.str_int n).

Definition timecode_str (t : Z) : string :=
  let a := Z.abs t in
  ((if (t <? 0)%Z then "-" else "")
   ++ two (a / (rate * 3600)) ++ ":" ++ two (a / (rate * 60) mod 60) ++ ":"
   ++ two (a / rate mod 60) ++ ":" ++ two (a mod rate))%string.

Definition range_init (a b : Z) : result (Z * Z) :=
  if (b <? a)%Z then Raise (ValueError "start must not be after end") else Ok (a, b).

Record dec : Type := mkDec { neg : bool; mant : Z; scale : nat }.

Definition unsigned_init (neg : bool) (s : string) : result dec :=
  match Py.split1 "." s with
  | [i] =>
      if Py.nonempty i && Py.forallb_s Py.isdecimal i
      then Ok (mkDec neg (Py.digits_val 0 i) 0)
      else Raise (ValueError "could not convert string to float")
  | [i; f] =>
      if Py.nonempty (i ++ f) && Py.forallb_s Py.isdecimal (i ++ f)
      then Ok (mkDec neg (Py.digits_val 0 (i ++ f)) (String.length f))
      else Raise (ValueError "could not convert string to float")
  | _ => Raise (ValueError "could not convert string to float")
  end.

Definition dec_init (s : string) : result dec :=
  match s with
  | String "+" s' => unsigned_init false s'
  | String "-" s' => unsigned_init true s'
  | _ => unsigned_init false s
  end.

(** The number of tenths nearest to the value, ties to even. *)
Definition tenths (x : dec) : Z :=
  let den := (10 ^ Z.of_nat (scale x))%Z in
  let num := (mant x * 10)%Z in
  let q := (num / den)%Z in
  let r := (num mod den)%Z in
  if (2 * r <? den)%Z then q
  else if (den <? 2 * r)%Z then (q + 1)%Z
  else if Z.even q then q else (q + 1)%Z.

Definition round1_str (x : dec) : string :=
  ((if neg x then "-" else "") ++ Py.str_int (tenths x / 10) ++ "."
   ++ Py.str_int (tenths x mod 10))%string.

#[export] Instance externals : Externals := {|
  Timecode := Z;
  Timecode_init := timecode_init;
  Timecode_str := timecode_str;
  Timecode_ltb := Z.ltb;
  TimecodeRange := Z * Z;
  TimecodeRange_init := range_init;
  TimecodeRange_start := fst;
  TimecodeRange_end := snd;
  TimecodeRange_duration := fun r => (snd r - fst r)%Z;
  float := dec;
  float_init := dec_init;
  float_round1_str := round1_str;
  float_ltb0 := fun x => neg x && negb (mant x =? 0)%Z
|}.

End Reference.

Definition nl : string := String Py.LF EmptyString.

(** ** Sample lines and documents, and what is observed of a parsed document *)

Definition cut_000 : string :=
  "000  TAPE000   V     C        01:00:00:00 01:00:05:00 01:00:10:00 01:00:15:00".

Definition cut_001 : string :=
  "001  TAPE001   V     C        01:00:00:00 01:00:05:00 01:00:10:00 01:00:15:00".
Definition cut_002 : string :=
  "002  TAPE002   V     C        01:00:05:00 01:00:10:00 01:00:15:00 01:00:20:00".

(** A document whose first event is followed by a line that opens with
    [FCM:]. *)
Definition doc_fcm_inside : string :=
  "TITLE: X" ++ nl ++ cut_001 ++ nl ++ "FCM: DROP FRAME" ++ nl ++ cut_002 ++ nl.

(** The statements and the comments of every event of a parsed document. *)
Definition shape {X : Externals} (r : result Edl) : result (list (nat * list string)) :=
  e <- r ;;
  Ok (map (fun ev => (List.length (_sfs ev), map BaseComment_str (_comments ev))) (_events e)).

Definition doc_test_edl : string := "TITLE: TEST EDL" ++ nl ++ cut_001.

(** A document whose third line holds a comment, a form feed and a second
    cut.  [from_file] cuts the stream at newlines only, [Event.from_string]
    cuts the text of an event with [splitlines], which also breaks at the
    form feed. *)
Definition doc_form_feed : string :=
  "TITLE: X" ++ nl ++ cut_001 ++ nl ++ "NOTE" ++ String Py.FF cut_002 ++ nl.

(** The title, the mode and the event numbers of the statements of every
    event of a parsed document. *)
Definition summary {X : Externals} (r : result Edl)
  : result (string * Fcm * list (list (option Z))) :=
  e <- r ;;
  Ok (_title e, edl_fcm e, map (fun ev => map _event_number (_sfs ev)) (_events e)).


(** ** Further parts of the package *)

(** [Track.__lt__] compares the indices; [functools.total_ordering] derives
    the other comparisons from it and from [__eq__]. *)
Definition Track_ltb (a b : Track) : bool := (_index a <? _index b)%Z.
Definition Track_gtb (a b : Track) : bool := negb (Track_ltb a b) && negb (Track_eqb a b).
Definition Track_leb (a b : Track) : bool := Track_ltb a b || Track_eqb a b.
Definition Track_geb (a b : Track) : bool := negb (Track_ltb a b).

Section Accessors.
Context {X : Externals}.

(** [Event.reel_names] *)
Definition Event_reel_names (e : Event) : list string :=
  set_of String.eqb (map reel_name (_sfs e)).

(** [Event.uses_source]: membership in the set of sources, by name. *)
Definition Event_uses_source (e : Event) (source : SourceReel) : bool :=
  existsb (SourceReel_eqb source) (Event_sources e).

(** [StandardFormStatement.parse_from_string], for the class of the given
    name, pattern and parser. *)
Definition parse_from_string (cls_name : string) (PAT_EVENT : Re.re)
    (parse_from_pattern : Re.captures -> result StandardFormStatement) (line : string)
  : result StandardFormStatement :=
  match Re.match_ true PAT_EVENT line with
  | None => Raise (ValueError ("This line is not a valid " ++ cls_name))
  | Some pat => parse_from_pattern pat
  end.

Definition CutStatement_parse_from_string : string -> result StandardFormStatement :=
  parse_from_string "CutStatement" CutStatement_PAT_EVENT CutStatement_parse_from_pattern.

End Accessors.

(** The names of the groups of a pattern. *)
Fixpoint group_names (r : Re.re) : list string :=
  match r with
  | Re.Seq a b | Re.Alt a b => group_names a ++ group_names b
  | Re.Opt a => group_names a
  | Re.Grp name a => name :: group_names a
  | _ => []
  end.

(** ** Predicates used in the statements *)

(** A string that does not start with whitespace. *)
Definition starts_nonspace (s : string) : Prop :=
  match s with
  | String c _ => Py.isspace c = false
  | EmptyString => True
  end.

(** The test for one given character. *)
Definition is_ch (sep : ascii) (c : ascii) : bool := Ascii.eqb c sep.

(** The test of [Event.from_string] for a line it does not skip. *)
Definition nonblank (line : string) : bool := Py.nonempty (Py.strip line).

(** A string that does not start with a character of the class [p]. *)
Definition starts_not (p : ascii -> bool) (s : string) : Prop :=
  match s with
  | String c _ => p c = false
  | EmptyString => True
  end.

(** A text of the form [\d{2}:\d{2}:\d{2}:\d{2}]. *)
Definition timecode_shaped (s : string) : bool :=
  match s with
  | String a (String b (String p (String c (String d (String q
      (String e (String f (String r (String g (String h EmptyString)))))))))) =>
      forallb Py.isdecimal [a; b; c; d; e; f; g; h] && forallb (Ascii.eqb ":") [p; q; r]
  | _ => false
  end.

Section ReadsBack.
Context {X : Externals}.

(** A timecode that prints in the form of the patterns and reads back. *)
Definition Timecode_reads_back (t : Timecode) : Prop :=
  timecode_shaped (Timecode_str t) = true /\ Timecode_init (Timecode_str t) = Ok t.

(** A range that its two ends build again, each of them reading back. *)
Definition TimecodeRange_reads_back (r : TimecodeRange) : Prop :=
  Timecode_reads_back (TimecodeRange_start r)
  /\ Timecode_reads_back (TimecodeRange_end r)
  /\ TimecodeRange_init (TimecodeRange_start r) (TimecodeRange_end r) = Ok r.

(** The numbers on the line of a statement are numbers that [str] prints:
    the event number (1 for a statement without one), the indices of the
    tracks and the lengths and the number of the subclass. *)
Definition StandardFormStatement_printable (s : StandardFormStatement) : bool :=
  Py.printable (match _event_number s with Some n => n | None => 1%Z end)
  && forallb (fun t => Py.printable (_index t)) (_tracks s)
  && match _class s with
     | CutStatement => true
     | DissolveStatement len => Py.printable len
     | WipeStatement len id => Py.printable len && Py.printable id
     | KeyForegroundStatement len => Py.printable len
     | KeyBackgroundStatement _ => true
     end.

(** A cut with the event number [n] that prints to a line the patterns
    take: the number is not negative, [str] prints the numbers of the line,
    the reel is the one its name stands for, there is one track, with an
    index of at least 1 and, for a video track, exactly 1, and the timecodes
    read back. *)
Definition plain_cut (n : Z) (s : StandardFormStatement) : Prop :=
  _class s = CutStatement
  /\ _event_number s = Some n /\ (0 <= n)%Z
  /\ StandardFormStatement_printable s = true
  /\ SourceReel_from_string (reel_name s) = Ok (_reel s)
  /\ (exists t, _tracks s = [t] /\ (1 <= _index t)%Z /\ (_type t = VIDEO -> _index t = 1%Z))
  /\ TimecodeRange_reads_back (_timecode_source s)
  /\ TimecodeRange_reads_back (_timecode_record s).

(** An event of such cuts, all with the number [n], without notes and
    comments. *)
Definition plain_event (n : Z) (ev : Event) : Prop :=
  _sfs ev <> [] /\ Forall (plain_cut n) (_sfs ev)
  /\ _nfs ev = [] /\ _comments ev = [] /\ _fcm ev = NON_DROP_FRAME.

(** Events of such cuts with the numbers [ns]: every number is positive and
    no two events in a row have the same number. *)
Fixpoint plain_events (ns : list Z) (evs : list Event) : Prop :=
  match ns, evs with
  | [], [] => True
  | n :: ns', ev :: evs' =>
      (0 < n)%Z /\ plain_event n ev
      /\ match ns' with m :: _ => n <> m | [] => True end
      /\ plain_events ns' evs'
  | _, _ => False
  end.

(** The lines [Edl.write] gives an event without notes and comments: one
    for each statement and two empty ones. *)
Definition event_lines (ev : Event) : list string :=
  map (fun s => StandardFormStatement_str s ++ String Py.LF EmptyString)%string (_sfs ev)
  ++ [String Py.LF EmptyString; String Py.LF EmptyString].

(** The state of the loop of [from_file] between two events: the events
    done, and the lines and the number of the event being collected. *)
Definition between (done : list Event) (pending : option (Z * Event)) : parser_state :=
  match pending with
  | None => mkState done [] 0%Z
  | Some (n, ev) => mkState done (map StandardFormStatement_str (_sfs ev)) n
  end.

End ReadsBack.

(** * Properties *)

(** ** Characters and strings *)

Ltac by_cases_on_char c :=
  destruct c as [[] [] [] [] [] [] [] []]; vm_compute; intros;
  try discriminate; try congruence; auto.

Lemma upper_ch_B c : Py.upper_ch c = "B"%char -> c = "B"%char \/ c = "b"%char.
Proof. by_cases_on_char c. Qed.

Lemma upper_ch_L c : Py.upper_ch c = "L"%char -> c = "L"%char \/ c = "l"%char.
Proof. by_cases_on_char c. Qed.

Lemma upper_ch_A c : Py.upper_ch c = "A"%char -> c = "A"%char \/ c = "a"%char.
Proof. by_cases_on_char c. Qed.

Lemma upper_ch_X c : Py.upper_ch c = "X"%char -> c = "X"%char \/ c = "x"%char.
Proof. by_cases_on_char c. Qed.

Lemma lower_ch_not_F c : Ascii.eqb (Py.lower_ch c) "F" = false.
Proof. by_cases_on_char c. Qed.

Lemma lower_ch_not_S c : Ascii.eqb (Py.lower_ch c) "S" = false.
Proof. by_cases_on_char c. Qed.

Lemma isdecimal_isnumeric c : Py.isdecimal c = true -> Py.isnumeric_ch c = true.
Proof. unfold Py.isnumeric_ch. intros ->. reflexivity. Qed.

Lemma forallb_s_impl (p q : ascii -> bool) s :
  (forall c, p c = true -> q c = true) ->
  Py.forallb_s p s = true -> Py.forallb_s q s = true.
Proof.
  intros Hpq. induction s as [|c s IH]; simpl; auto.
  intros H. apply andb_true_iff in H as [Hc Hs].
  rewrite (Hpq _ Hc), (IH Hs). reflexivity.
Qed.

(** A string that [int] reads is numeric. *)
Lemma int_ok_isnumeric s n : Py.int s = Ok n -> Py.isnumeric s = true.
Proof.
  unfold Py.int, Py.isnumeric.
  destruct (Py.nonempty s) eqn:Hn; simpl; [|discriminate].
  destruct (Py.forallb_s Py.isdecimal s) eqn:Hd; [|discriminate].
  intros _. apply (forallb_s_impl _ _ _ isdecimal_isnumeric Hd).
Qed.

Lemma upper_BL s : Py.upper s = "BL" -> In s ["BL"; "Bl"; "bL"; "bl"].
Proof.
  destruct s as [|c1 [|c2 [|c3 s]]]; simpl; try discriminate.
  intros H. injection H as H1 H2.
  destruct (upper_ch_B _ H1), (upper_ch_L _ H2); subst; simpl; auto.
Qed.

Lemma upper_AX s : Py.upper s = "AX" -> In s ["AX"; "Ax"; "aX"; "ax"].
Proof.
  destruct s as [|c1 [|c2 [|c3 s]]]; simpl; try discriminate.
  intros H. injection H as H1 H2.
  destruct (upper_ch_A _ H1), (upper_ch_X _ H2); subst; simpl; auto.
Qed.

Lemma lstrip_no_space s : Py.existsb_s Py.isspace s = false -> Py.lstrip s = s.
Proof.
  destruct s as [|c s]; simpl; auto.
  intros H. apply orb_false_iff in H as [-> _]. reflexivity.
Qed.

Lemma rstrip_no_space s : Py.existsb_s Py.isspace s = false -> Py.rstrip s = s.
Proof.
  induction s as [|c s IH]; simpl; auto.
  intros H. apply orb_false_iff in H as [Hc Hs].
  rewrite (IH Hs), Hc. destruct s; reflexivity.
Qed.

Lemma strip_no_space s : Py.existsb_s Py.isspace s = false -> Py.strip s = s.
Proof.
  intros H. unfold Py.strip. rewrite (lstrip_no_space _ H). apply rstrip_no_space, H.
Qed.

(** ** sources.py: the dispatch of [SourceReel.from_string] *)

Lemma validate_BL_iff s : BlackSource_validate s = true <-> In s ["BL"; "Bl"; "bL"; "bl"].
Proof.
  unfold BlackSource_validate. rewrite String.eqb_eq. split.
  - apply upper_BL.
  - simpl. intros [<-|[<-|[<-|[<-|[]]]]]; reflexivity.
Qed.

Lemma validate_AX_iff s : AuxSource_validate s = true <-> In s ["AX"; "Ax"; "aX"; "ax"].
Proof.
  unfold AuxSource_validate. rewrite String.eqb_eq. split.
  - apply upper_AX.
  - simpl. intros [<-|[<-|[<-|[<-|[]]]]]; reflexivity.
Qed.

Lemma validate_Tape_iff s :
  TapeSource_validate s = true <-> s <> "" /\ Py.existsb_s Py.isspace s = false.
Proof.
  unfold TapeSource_validate. rewrite andb_true_iff, negb_true_iff. split.
  - intros [Hn Hs]. split; auto. intros ->. discriminate.
  - intros [Hn Hs]. split; auto. rewrite (strip_no_space _ Hs).
    destruct s; [contradiction | reflexivity].
Qed.

(** C9. [SourceReel.from_string] tries Black, Aux and Tape in that order:
    "BL" in any letter case gives the Black source, whose name is "BL", and
    "AX" in any letter case gives the Aux source, whose name is "AX", although
    the validator of Tape accepts these tokens too; every other token that is
    not empty and has no whitespace gives a Tape source of that name; a token
    that is empty or has whitespace raises. *)
Theorem SourceReel_from_string_dispatch (tok : string) :
  (In tok ["BL"; "Bl"; "bL"; "bl"] ->
     SourceReel_from_string tok = Ok BlackSource /\ SourceReel_name BlackSource = "BL"
     /\ TapeSource_validate tok = true)
  /\ (In tok ["AX"; "Ax"; "aX"; "ax"] ->
     SourceReel_from_string tok = Ok AuxSource /\ SourceReel_name AuxSource = "AX"
     /\ TapeSource_validate tok = true)
  /\ (~ In tok ["BL"; "Bl"; "bL"; "bl"; "AX"; "Ax"; "aX"; "ax"] ->
      tok <> "" -> Py.existsb_s Py.isspace tok = false ->
     SourceReel_from_string tok = Ok (TapeSource tok)
     /\ SourceReel_name (TapeSource tok) = tok)
  /\ (tok = "" \/ Py.existsb_s Py.isspace tok = true ->
     SourceReel_from_string tok = Raise (ValueError "Reel name format is not recognized")).
Proof.
  assert (Hsplit : forall a b : list string, forall x, In x (a ++ b) <-> In x a \/ In x b)
    by (intros; apply in_app_iff).
  unfold SourceReel_from_string, TapeSource_init.
  split; [|split; [|split]].
  - intros H.
    assert (HT : TapeSource_validate tok = true)
      by (simpl in H; intuition (subst; reflexivity)).
    apply validate_BL_iff in H. rewrite H. repeat split; auto.
  - intros H.
    assert (HT : TapeSource_validate tok = true)
      by (simpl in H; intuition (subst; reflexivity)).
    split; [|split; [reflexivity | exact HT]].
    destruct (BlackSource_validate tok) eqn:HB.
    + apply validate_BL_iff in HB. exfalso.
      simpl in H, HB. intuition (subst; discriminate).
    + apply validate_AX_iff in H. rewrite H. reflexivity.
  - intros Hnot Hne Hsp. split; [|reflexivity].
    destruct (BlackSource_validate tok) eqn:HB.
    { apply validate_BL_iff in HB. exfalso. apply Hnot.
      apply (Hsplit ["BL"; "Bl"; "bL"; "bl"] ["AX"; "Ax"; "aX"; "ax"]). auto. }
    destruct (AuxSource_validate tok) eqn:HA.
    { apply validate_AX_iff in HA. exfalso. apply Hnot.
      apply (Hsplit ["BL"; "Bl"; "bL"; "bl"] ["AX"; "Ax"; "aX"; "ax"]). auto. }
    assert (HT : TapeSource_validate tok = true) by (apply validate_Tape_iff; auto).
    rewrite HT. reflexivity.
  - intros H.
    assert (HT : TapeSource_validate tok = false).
    { destruct (TapeSource_validate tok) eqn:HT; auto.
      apply validate_Tape_iff in HT as [HT1 HT2]. destruct H; congruence. }
    destruct (BlackSource_validate tok) eqn:HB.
    { apply validate_BL_iff in HB. exfalso.
      simpl in HB. destruct H as [H0|H0];
        intuition (subst; try discriminate). }
    destruct (AuxSource_validate tok) eqn:HA.
    { apply validate_AX_iff in HA. exfalso.
      simpl in HA. destruct H as [H0|H0];
        intuition (subst; try discriminate). }
    rewrite HT. reflexivity.
Qed.

(** ** edl.py: the header *)

(** C8. The header of an Edl is the title line alone when the frame counting
    mode is PAL, and the title line followed by the line of the mode's token
    when the mode is NON_DROP_FRAME or DROP_FRAME. *)
Theorem Edl_header_by_fcm {X : Externals} (title : string) (evs : list Event) :
  Edl_header (mkEdl title PAL evs) = ("TITLE: " ++ title)%string
  /\ Edl_header (mkEdl title NON_DROP_FRAME evs)
     = ("TITLE: " ++ title ++ nl ++ "FCM: NON-DROP FRAME")%string
  /\ Edl_header (mkEdl title DROP_FRAME evs)
     = ("TITLE: " ++ title ++ nl ++ "FCM: DROP FRAME")%string.
Proof.
  unfold Edl_header; simpl. repeat split.
Qed.

(** ** comments.py: the generic validator *)

Lemma nonempty_true_iff s : Py.nonempty s = true <-> s <> "".
Proof. destruct s; simpl; split; congruence. Qed.

Lemma first_token_nonempty line tok : Py.first_token line = Ok tok -> tok <> "".
Proof.
  unfold Py.first_token. destruct (Py.lstrip line) as [|c s] eqn:E; [discriminate|].
  intros H. injection H as <-. simpl.
  assert (Hc : Py.isspace c = false).
  { clear - E. induction line as [|d l IH]; simpl in E; [discriminate|].
    destruct (Py.isspace d) eqn:Hd; [auto|]. injection E as -> _. exact Hd. }
  rewrite Hc. destruct (Py.span_not Py.isspace s). simpl. discriminate.
Qed.

(** C6, as the code has it.  [StandardComment.validate] accepts exactly the
    lines that are not empty after stripping, contain no newline, and whose
    first token does not begin with a numeric character (a line without a
    token makes it raise). *)
Theorem StandardComment_validate_accepts (line : string) :
  StandardComment_validate line = Ok true <->
  Py.strip line <> ""
  /\ Py.existsb_s (Ascii.eqb Py.LF) line = false
  /\ exists c rest, Py.first_token line = Ok (String c rest) /\ Py.isnumeric_ch c = false.
Proof.
  unfold StandardComment_validate, BaseComment_validate, bind.
  rewrite <- nonempty_true_iff.
  destruct (Py.first_token line) as [tok|e] eqn:Htok.
  - destruct tok as [|c rest].
    { exfalso. apply (first_token_nonempty _ _ Htok). reflexivity. }
    split.
    + intros H. injection H as H.
      apply andb_true_iff in H as [H H3]. apply andb_true_iff in H as [H1 H2].
      apply negb_true_iff in H2, H3. repeat split; auto. exists c, rest. auto.
    + intros (H1 & H2 & c' & rest' & Heq & H3). injection Heq as -> ->.
      rewrite H1, H2, H3. reflexivity.
  - split; [discriminate|]. intros (_ & _ & c & rest & Heq & _). discriminate.
Qed.

(** C6, as the claim has it, fails: the first token of "2nd PASS NOTES" is
    not numeric, the line is not empty and has no newline, and the validator
    rejects it. *)
Lemma StandardComment_validate_rejects_2nd_PASS_NOTES :
  Py.strip "2nd PASS NOTES" <> ""
  /\ Py.existsb_s (Ascii.eqb Py.LF) "2nd PASS NOTES" = false
  /\ Py.first_token "2nd PASS NOTES" = Ok "2nd"
  /\ Py.isnumeric "2nd" = false
  /\ StandardComment_validate "2nd PASS NOTES" = Ok false.
Proof.
  split; [discriminate|]. repeat split; vm_compute; reflexivity.
Qed.

(** ** edl.py: the test for the beginning of an event *)

Lemma prefixed_form_test_never_holds tok :
  existsb (String.eqb (Py.lower tok)) ["FCM:"; "SPLIT:"] = false.
Proof.
  destruct tok as [|c tok]; [reflexivity|].
  cbn [existsb Py.lower Py.smap String.eqb].
  rewrite lower_ch_not_F, lower_ch_not_S. reflexivity.
Qed.

Lemma is_begin_new_event_true_inv line idx :
  Edl__is_begin_new_event line idx = Ok true ->
  exists tok n, Py.first_token line = Ok tok /\ Py.isnumeric tok = true
                /\ Py.int tok = Ok n /\ n <> idx.
Proof.
  unfold Edl__is_begin_new_event, bind.
  destruct (idx =? 0)%Z; [discriminate|].
  destruct (Py.first_token line) as [tok|e] eqn:Htok; [|discriminate].
  rewrite prefixed_form_test_never_holds.
  destruct (Py.isnumeric tok) eqn:Hnum; [|discriminate].
  destruct (Py.int tok) as [n|e] eqn:Hint; [|discriminate].
  destruct (n =? idx)%Z eqn:Hn; simpl; [discriminate|].
  intros _. exists tok, n. repeat split; auto. apply Z.eqb_neq, Hn.
Qed.

(** C2, on the code.  The test compares the lower-cased first token with the
    upper-case words "FCM:" and "SPLIT:", so it never holds: only a numeric
    first token begins an event, and only while an index is tracked.  With "001 ..." buffered, the line
    "FCM: DROP FRAME" does not flush the buffer and ends up as a comment of
    the first event. *)
Theorem is_begin_new_event_misses_prefixed_forms :
  (forall line idx, Edl__is_begin_new_event line idx = Ok true ->
     idx <> 0%Z /\ exists tok, Py.first_token line = Ok tok /\ Py.isnumeric tok = true)
  /\ Edl__is_begin_new_event "FCM: DROP FRAME" 1 = Ok false
  /\ Edl__is_begin_new_event "fcm: DROP FRAME" 1 = Ok false
  /\ Edl__is_begin_new_event "SPLIT:    AUDIO DELAY=  00:00:00:05" 1 = Ok false
  /\ shape (Edl_from_file (X:=Reference.externals) doc_fcm_inside)
     = Ok [(1%nat, ["FCM: DROP FRAME"]); (1%nat, [])].
Proof.
  split.
  - intros line idx H. split.
    + intros ->. discriminate H.
    + destruct (is_begin_new_event_true_inv _ _ H) as (tok & n & H1 & H2 & _).
      exists tok. auto.
  - repeat split; vm_compute; reflexivity.
Qed.

(** ** edl.py: the number 0 and the tracked index *)

Lemma first_token_line_nonempty line tok : Py.first_token line = Ok tok -> Py.nonempty line = true.
Proof. destruct line; [discriminate | reflexivity]. Qed.



(** ** events.py: the classification of a line *)

Lemma run_event_number_fails i rest line g :
  match line with String c _ => Py.isdecimal c = false | EmptyString => True end ->
  Re.run i (Re.Seq (Re.Grp "event_number" (Re.Plus Py.isdecimal)) rest) line g = [].
Proof.
  destruct line as [|c l]; simpl; [reflexivity|]. intros ->. reflexivity.
Qed.

Lemma isnumeric_ch_false_isdecimal c : Py.isnumeric_ch c = false -> Py.isdecimal c = false.
Proof.
  unfold Py.isnumeric_ch. destruct (Py.isdecimal c); [discriminate | reflexivity].
Qed.

(** No pattern of a standard form statement matches a line that does not
    start with a decimal digit. *)
Lemma no_standard_form_without_digit {X : Externals} line :
  match line with String c _ => Py.isdecimal c = false | EmptyString => True end ->
  first_match StandardFormStatement_all_statement_types line = None.
Proof.
  intros H.
  unfold StandardFormStatement_all_statement_types, first_match, Re.match_.
  unfold CutStatement_PAT_EVENT, DissolveStatement_PAT_EVENT, WipeStatement_PAT_EVENT,
    KeyForegroundStatement_PAT_EVENT, KeyBackgroundStatement_PAT_EVENT, pat_head.
  cbn [app Re.seqs fold_right].
  rewrite !(run_event_number_fails _ _ _ _ H). reflexivity.
Qed.

Lemma identify_line_1abc (X : Externals) :
  Event__identify_line "1abc" = Raise (ValueError "Unrecognized standard form statement")
  /\ identify_note_or_comment "1abc" = Raise (ValueError "Unrecognized line").
Proof. split; vm_compute; reflexivity. Qed.

(** C4, on the code.  The pattern of the motion memory note ends with [\s+]:
    a line that stops after its timecode is not a note and is taken for a
    comment.  The text the package prints for a note stops after the
    timecode, so a note that is printed is read back as a comment. *)
Theorem motion_memory_needs_trailing_space :
  (forall X : Externals,
     Event__identify_line (X:=X) "M2 TAPE001 024.0 01:00:00:00"
     = Ok (IsComment (StandardComment "M2 TAPE001 024.0 01:00:00:00")))
  /\ match Event__identify_line (X:=Reference.externals) "M2 TAPE001 024.0 01:00:00:00 " with
     | Ok (IsNote n) =>
         match Event__identify_line (X:=Reference.externals) (NoteFormStatement_str n) with
         | Ok (IsComment (StandardComment c)) => Some (SourceReel_name (nfs_reel n), c)
         | _ => None
         end
     | _ => None
     end
     = Some ("TAPE001", "M2     " ++ Py.ljust 129 "TAPE001" ++ "  " ++ " 024.0" ++ "  "
                        ++ "01:00:00:00")%string.
Proof.
  split.
  - intros X. vm_compute. reflexivity.
  - vm_compute. reflexivity.
Qed.

(** ** edl.py: the line numbers of errors *)

(** C3, on the code.  A malformed line in the last event is classified after
    the loop, outside the [try] statement, and its error reaches the caller
    without a line number.  A malformed line in an earlier event is
    classified when the first line of the next event is read, and its error
    carries the number of that later line: here line 2 is malformed and the
    error names line 4. *)
Theorem from_file_error_line_numbers (X : Externals) :
  Edl_from_file ("TITLE: X" ++ nl ++ "001 garbage" ++ nl)
  = Raise (ValueError "Unrecognized standard form statement")
  /\ Edl_from_file ("TITLE: X" ++ nl ++ "001 garbage" ++ nl ++ "* NOTE: A" ++ nl
                    ++ cut_002 ++ nl)
     = Raise (ValueError "Line 4: Unrecognized standard form statement").
Proof. split; vm_compute; reflexivity. Qed.

(** ** edl.py: a document of two lines *)

(** C7. The document of the title line "TITLE: TEST EDL" and one cut parses
    to an Edl titled "TEST EDL" in PAL mode (the second line is no FCM line
    and is read as the first line of the body), with one event of one cut
    from the tape "TAPE001" on the track V, whose source range is
    01:00:00:00 to 01:00:05:00 and whose record range is 01:00:10:00 to
    01:00:15:00, for every timecode package that reads the four timecodes
    and builds the two ranges.  A newline after the cut changes nothing. *)
Theorem from_file_test_edl {X : Externals}
    (src_in src_out rec_in rec_out : Timecode) (src rec : TimecodeRange) :
  Timecode_init "01:00:00:00" = Ok src_in ->
  Timecode_init "01:00:05:00" = Ok src_out ->
  Timecode_init "01:00:10:00" = Ok rec_in ->
  Timecode_init "01:00:15:00" = Ok rec_out ->
  TimecodeRange_init src_in src_out = Ok src ->
  TimecodeRange_init rec_in rec_out = Ok rec ->
  let cut := mkSFS (TapeSource "TAPE001") [mkTrack VIDEO 1] src rec (Some 1%Z) CutStatement in
  let event := mkEvent [cut] [] NON_DROP_FRAME [] in
  Edl_from_file doc_test_edl = Ok (mkEdl "TEST EDL" PAL [event])
  /\ Edl_from_file (doc_test_edl ++ nl) = Edl_from_file doc_test_edl
  /\ map Track_name (Event_tracks event) = ["V"]
  /\ map SourceReel_name (Event_sources event) = ["TAPE001"].
Proof.
  cbv zeta.
  intros H1 H2 H3 H4 H5 H6.
  assert (Hm : Re.match_ true CutStatement_PAT_EVENT cut_001
               = Some [ ("tc_rec_out", "01:00:15:00"); ("tc_rec_in", "01:00:10:00");
                        ("tc_src_out", "01:00:05:00"); ("tc_src_in", "01:00:00:00");
                        ("event_type", "C"); ("track_type", "V");
                        ("reel_name", "TAPE001"); ("event_number", "001") ]).
  { vm_compute. reflexivity. }
  assert (Hid : Event__identify_line cut_001
                = Ok (IsStandard (mkSFS (TapeSource "TAPE001") [mkTrack VIDEO 1] src rec
                                    (Some 1%Z) CutStatement))).
  { unfold Event__identify_line, StandardFormStatement_all_statement_types, first_match.
    rewrite Hm. unfold CutStatement_parse_from_pattern, _parse_shared_elements, group.
    cbn [Re.group String.eqb Ascii.eqb Bool.eqb bind].
    rewrite H1, H2. cbn [bind]. rewrite H5. cbn [bind]. rewrite H3, H4. cbn [bind].
    rewrite H6. reflexivity. }
  assert (Hev : Event_from_string cut_001
                = Ok (mkEvent
                        [ mkSFS (TapeSource "TAPE001") [mkTrack VIDEO 1] src rec
                            (Some 1%Z) CutStatement ] [] NON_DROP_FRAME [])).
  { unfold Event_from_string.
    replace (Py.splitlines cut_001) with [cut_001] by (vm_compute; reflexivity).
    unfold from_string_loop.
    replace (negb (Py.nonempty (Py.strip cut_001))) with false by (vm_compute; reflexivity).
    rewrite Hid. reflexivity. }
  assert (Hdoc : forall text, readlines text = ["TITLE: TEST EDL" ++ nl; cut_001]%string
                              \/ readlines text = ["TITLE: TEST EDL" ++ nl; cut_001 ++ nl]%string ->
            Edl_from_file text
            = Ok (mkEdl "TEST EDL" PAL
                    [ mkEvent
                        [ mkSFS (TapeSource "TAPE001") [mkTrack VIDEO 1] src rec
                            (Some 1%Z) CutStatement ] [] NON_DROP_FRAME [] ])).
  { intros text Hlines. unfold Edl_from_file.
    assert (Hloop : loop (mkState [] [] 0%Z) 0%Z (skipn 1 (readlines text))
                    = Ok (mkState [] [cut_001] 1%Z)).
    { destruct Hlines as [-> | ->]; vm_compute; reflexivity. }
    assert (Hh : nth 0 (readlines text) EmptyString = ("TITLE: TEST EDL" ++ nl)%string)
      by (destruct Hlines as [-> | ->]; reflexivity).
    assert (Hf : Py.startswith (Py.upper (nth 1 (readlines text) EmptyString)) "FCM:" = false)
      by (destruct Hlines as [-> | ->]; vm_compute; reflexivity).
    rewrite Hh, Hf.
    replace (Edl__parse_title_from_line ("TITLE: TEST EDL" ++ nl)) with (Ok "TEST EDL")
      by (vm_compute; reflexivity).
    cbn [bind]. rewrite Hloop. cbn [bind event_buffer events Py.join app].
    rewrite Hev. reflexivity. }
  split; [|split; [|split; reflexivity]].
  - apply Hdoc. left. vm_compute. reflexivity.
  - rewrite (Hdoc (doc_test_edl ++ nl)%string) by (right; vm_compute; reflexivity).
    symmetry. apply Hdoc. left. vm_compute. reflexivity.
Qed.

(** ** edl.py: writing a document and reading it back *)

(** C1, on the code.  [doc_form_feed] parses to one event of two cuts
    numbered 1 and 2: the second cut hides behind the comment on its line, so
    its number is not seen when the stream is cut into events.  Written out,
    every statement has a line of its own, and reading the text back finds
    two events. *)
Theorem roundtrip_changes_event_count :
  summary (X:=Reference.externals) (Edl_from_file doc_form_feed)
  = Ok ("X", PAL, [[Some 1%Z; Some 2%Z]])
  /\ summary (X:=Reference.externals)
       (D <- Edl_from_file (X:=Reference.externals) doc_form_feed ;;
        Edl_from_file (Edl_str (X:=Reference.externals) D))
     = Ok ("X", PAL, [[Some 1%Z]; [Some 2%Z]]).
Proof. split; vm_compute; reflexivity. Qed.

(** ** Instances of the theorems that have premises *)

Lemma SourceReel_from_string_dispatch_witness :
  SourceReel_from_string "bl" = Ok BlackSource
  /\ SourceReel_from_string "Ax" = Ok AuxSource
  /\ SourceReel_from_string "TAPE001" = Ok (TapeSource "TAPE001")
  /\ SourceReel_from_string "TAPE 001"
     = Raise (ValueError "Reel name format is not recognized").
Proof.
  split; [|split; [|split]].
  - apply (proj1 (SourceReel_from_string_dispatch "bl")). simpl. auto.
  - apply (proj1 (proj2 (SourceReel_from_string_dispatch "Ax"))). simpl. auto.
  - apply (proj1 (proj2 (proj2 (SourceReel_from_string_dispatch "TAPE001")))).
    + simpl. intuition discriminate.
    + discriminate.
    + reflexivity.
  - apply (proj2 (proj2 (proj2 (SourceReel_from_string_dispatch "TAPE 001")))).
    right. reflexivity.
Defined.

Lemma StandardComment_validate_accepts_witness :
  StandardComment_validate "SECOND PASS NOTES" = Ok true.
Proof.
  apply (proj2 (StandardComment_validate_accepts "SECOND PASS NOTES")).
  split; [discriminate|]. split; [reflexivity|].
  exists "S"%char, "ECOND". split; reflexivity.
Defined.

Lemma no_standard_form_001_garbage (X : Externals) :
  first_match StandardFormStatement_all_statement_types "001 garbage" = None.
Proof. vm_compute. reflexivity. Qed.

Lemma from_file_test_edl_witness :
  Edl_from_file (X:=Reference.externals) doc_test_edl
  = Ok (mkEdl "TEST EDL" PAL
          [ mkEvent
              [ mkSFS (X:=Reference.externals) (TapeSource "TAPE001") [mkTrack VIDEO 1]
                  (86400%Z, 86520%Z) (86640%Z, 86760%Z) (Some 1%Z) CutStatement ]
              [] NON_DROP_FRAME [] ]).
Proof.
  apply (proj1 (from_file_test_edl (X:=Reference.externals)
                  86400%Z 86520%Z 86640%Z 86760%Z (86400%Z, 86520%Z) (86640%Z, 86760%Z)
                  eq_refl eq_refl eq_refl eq_refl eq_refl eq_refl)).
Defined.

(** The two cuts numbered 0 and 2 make one event; numbered 1 and 2 they make
    two. *)
Example from_file_merges_after_zero :
  shape (Edl_from_file (X:=Reference.externals)
           ("TITLE: X" ++ nl ++ cut_000 ++ nl ++ cut_002 ++ nl)) = Ok [(2%nat, [])]
  /\ shape (Edl_from_file (X:=Reference.externals)
              ("TITLE: X" ++ nl ++ cut_001 ++ nl ++ cut_002 ++ nl))
     = Ok [(1%nat, []); (1%nat, [])].
Proof. split; vm_compute; reflexivity. Qed.

(** * Further properties *)

(** ** Decimal numerals *)

Lemma digit_of_ch_of_digit d : (0 <= d < 10)%Z -> Py.digit_of (Py.ch_of_digit d) = d.
Proof.
  intros H. unfold Py.digit_of, Py.ch_of_digit, Py.code.
  rewrite nat_ascii_embedding by lia. lia.
Qed.

Lemma isdecimal_ch_of_digit d : (0 <= d < 10)%Z -> Py.isdecimal (Py.ch_of_digit d) = true.
Proof.
  intros H. unfold Py.isdecimal, Py.between, Py.ch_of_digit, Py.code.
  rewrite nat_ascii_embedding by lia.
  apply andb_true_iff. split; apply Nat.leb_le; lia.
Qed.

Lemma forallb_s_app p a b :
  Py.forallb_s p (a ++ b) = Py.forallb_s p a && Py.forallb_s p b.
Proof.
  induction a as [|c a IH]; simpl; [reflexivity|]. rewrite IH, andb_assoc. reflexivity.
Qed.

Lemma digits_val_app acc a b : Py.digits_val acc (a ++ b) = Py.digits_val (Py.digits_val acc a) b.
Proof.
  revert acc. induction a as [|c a IH]; intros acc; simpl; [reflexivity|]. apply IH.
Qed.

Lemma string_app_assoc (a b c : string) : ((a ++ b) ++ c = a ++ (b ++ c))%string.
Proof. induction a as [|x a IH]; simpl; [reflexivity|]. rewrite IH. reflexivity. Qed.

Lemma string_app_nil_r (a : string) : (a ++ "" = a)%string.
Proof. induction a as [|x a IH]; simpl; [reflexivity|]. rewrite IH. reflexivity. Qed.

Lemma string_length_app (a b : string) :
  String.length (a ++ b) = (String.length a + String.length b)%nat.
Proof. induction a as [|x a IH]; simpl; [reflexivity|]. rewrite IH. reflexivity. Qed.

(** The digits [str] writes for a number that is not negative: they are
    decimal, there is at least one, and they read back as the number. *)
Lemma nat_digits_spec fuel : forall n acc,
  (0 <= n)%Z -> (Z.to_nat n < fuel)%nat ->
  exists ds, Py.nat_digits fuel n acc = (ds ++ acc)%string
             /\ ds <> ""
             /\ Py.forallb_s Py.isdecimal ds = true
             /\ Py.digits_val 0 ds = n.
Proof.
  induction fuel as [|fuel IH]; intros n acc Hn Hf; [lia|].
  cbn [Py.nat_digits].
  assert (Hd : (0 <= n mod 10 < 10)%Z) by (apply Z.mod_pos_bound; lia).
  destruct (n / 10 =? 0)%Z eqn:Hq.
  - apply Z.eqb_eq in Hq.
    exists (String (Py.ch_of_digit (n mod 10)) "").
    repeat split; try discriminate.
    + cbn [Py.forallb_s]. rewrite isdecimal_ch_of_digit by exact Hd. reflexivity.
    + cbn [Py.digits_val]. rewrite digit_of_ch_of_digit by exact Hd.
      assert (H : n = (10 * (n / 10) + n mod 10)%Z) by (apply Z.div_mod; discriminate).
      rewrite Hq in H. rewrite H at 2. reflexivity.
  - apply Z.eqb_neq in Hq.
    assert (Hn0 : (0 < n)%Z).
    { destruct (Z.eq_dec n 0) as [->|]; [exfalso; apply Hq; reflexivity | lia]. }
    assert (Hq0 : (0 <= n / 10)%Z) by (apply Z.div_pos; lia).
    assert (Hlt : (n / 10 < n)%Z) by (apply Z.div_lt; lia).
    destruct (IH (n / 10)%Z (String (Py.ch_of_digit (n mod 10)) acc)) as (ds & E & Hne & Hall & Hval);
      [lia | lia |].
    exists (ds ++ String (Py.ch_of_digit (n mod 10)) "")%string.
    repeat split.
    + rewrite E, string_app_assoc. reflexivity.
    + destruct ds; [congruence | discriminate].
    + rewrite forallb_s_app, Hall. cbn [Py.forallb_s].
      rewrite isdecimal_ch_of_digit by exact Hd. reflexivity.
    + rewrite digits_val_app, Hval. cbn [Py.digits_val].
      rewrite digit_of_ch_of_digit by exact Hd.
      symmetry. apply Z.div_mod. discriminate.
Qed.

Lemma str_int_spec n :
  (0 <= n)%Z ->
  Py.str_int n <> "" /\ Py.forallb_s Py.isdecimal (Py.str_int n) = true
  /\ Py.digits_val 0 (Py.str_int n) = n.
Proof.
  intros Hn. unfold Py.str_int.
  destruct (n <? 0)%Z eqn:E; [apply Z.ltb_lt in E; lia|].
  destruct (nat_digits_spec (S (Z.to_nat n)) n "" Hn) as (ds & Eq & Hne & Hall & Hval); [lia|].
  rewrite Eq, string_app_nil_r. auto.
Qed.

Lemma int_of_decimal s :
  s <> "" -> Py.forallb_s Py.isdecimal s = true -> Py.int s = Ok (Py.digits_val 0 s).
Proof.
  intros Hne Hall. unfold Py.int. rewrite Hall.
  destruct s; [congruence | reflexivity].
Qed.

(** [int(str(n)) == n] for a number that is not negative. *)
Lemma int_str_int n : (0 <= n)%Z -> Py.int (Py.str_int n) = Ok n.
Proof.
  intros Hn. destruct (str_int_spec n Hn) as (Hne & Hall & Hval).
  rewrite (int_of_decimal _ Hne Hall), Hval. reflexivity.
Qed.

(** ** tracks.py *)

Lemma Track_Type_of_value_upper ty :
  match Track_Type_value ty with
  | String c _ => Track_Type_of_value (String (Py.upper_ch c) "") = Ok ty
  | EmptyString => False
  end.
Proof. destruct ty; reflexivity. Qed.

Lemma Track_init_numbered c rest ty :
  Track_Type_of_value (String (Py.upper_ch c) "") = Ok ty ->
  rest <> "" -> Py.forallb_s Py.isdecimal rest = true ->
  Track_init (String c rest) = Ok (mkTrack ty (Py.digits_val 0 rest)).
Proof.
  intros Hty Hne Hall. unfold Track_init. rewrite Hty. cbn [bind].
  rewrite (int_of_decimal _ Hne Hall).
  destruct rest as [|d rest]; [congruence | reflexivity].
Qed.

Lemma Track_init_plain c ty :
  Track_Type_of_value (String (Py.upper_ch c) "") = Ok ty ->
  Track_init (String c "") = Ok (mkTrack ty 1).
Proof. intros Hty. unfold Track_init. rewrite Hty. reflexivity. Qed.

Lemma Track_init_of_name (t : Track) :
  Track_init (Track_name t)
  = Ok (mkTrack (_type t) (if (1 <? _index t)%Z then _index t else 1%Z)).
Proof.
  destruct t as [ty idx]. unfold Track_name. cbn [_type _index].
  pose proof (Track_Type_of_value_upper ty) as Hty.
  destruct (1 <? idx)%Z eqn:Hidx.
  - apply Z.ltb_lt in Hidx.
    destruct (str_int_spec idx) as (Hne & Hall & Hval); [lia|].
    destruct (Track_Type_value ty) as [|c [|c' r]] eqn:Ev;
      try (destruct ty; discriminate).
    cbn [String.append].
    rewrite (Track_init_numbered c _ ty Hty Hne Hall), Hval. reflexivity.
  - destruct (Track_Type_value ty) as [|c [|c' r]] eqn:Ev;
      try (destruct ty; discriminate).
    apply Track_init_plain, Hty.
Qed.

(** X1. The name of a track reads back as a track of the same type and the
    same name: an index above 1 is kept, every other index comes back as 1,
    the index the name without a number stands for. *)
Theorem Track_init_name (t : Track) :
  Track_init (Track_name t)
  = Ok (mkTrack (_type t) (if (1 <? _index t)%Z then _index t else 1%Z))
  /\ Track_name (mkTrack (_type t) (if (1 <? _index t)%Z then _index t else 1%Z))
     = Track_name t.
Proof.
  split; [apply Track_init_of_name|].
  destruct t as [ty idx]. unfold Track_name. cbn [_type _index].
  destruct (1 <? idx)%Z eqn:Hidx; [rewrite Hidx|]; reflexivity.
Qed.

(** X2. The order of tracks looks at the index only, so it does not agree
    with equality: of two tracks of different types and the same index,
    neither is less than the other and neither is less than or equal to the
    other, yet each is greater than the other. *)
Theorem Track_order_ignores_type (a b : Track) :
  _type a <> _type b -> _index a = _index b ->
  Track_eqb a b = false
  /\ Track_ltb a b = false /\ Track_ltb b a = false
  /\ Track_leb a b = false /\ Track_leb b a = false
  /\ Track_gtb a b = true /\ Track_gtb b a = true.
Proof.
  intros Hty Hidx.
  assert (Heq : Track_eqb a b = false).
  { unfold Track_eqb, Track_name.
    destruct a as [ta ia], b as [tb ib]. cbn [_type _index] in *. subst ib.
    destruct ta, tb; try congruence; destruct (1 <? ia)%Z; reflexivity. }
  assert (Heq' : Track_eqb b a = false).
  { unfold Track_eqb in *. rewrite String.eqb_sym. exact Heq. }
  unfold Track_gtb, Track_leb, Track_ltb. rewrite Heq, Heq', Hidx, Z.ltb_irrefl.
  repeat split.
Qed.

Lemma Track_order_ignores_type_witness :
  Track_gtb (mkTrack VIDEO 1) (mkTrack AUDIO 1) = true
  /\ Track_gtb (mkTrack AUDIO 1) (mkTrack VIDEO 1) = true.
Proof.
  pose proof (Track_order_ignores_type (mkTrack VIDEO 1) (mkTrack AUDIO 1)
                ltac:(discriminate) eq_refl) as H.
  split; apply H.
Defined.

(** ** Stripping and splitting *)

Lemma existsb_s_app p a b :
  Py.existsb_s p (a ++ b) = Py.existsb_s p a || Py.existsb_s p b.
Proof.
  induction a as [|c a IH]; simpl; [reflexivity|]. rewrite IH, orb_assoc. reflexivity.
Qed.

Lemma lstrip_starts_nonspace s : starts_nonspace (Py.lstrip s).
Proof.
  induction s as [|c s IH]; simpl; [exact I|].
  destruct (Py.isspace c) eqn:Hc; [exact IH | exact Hc].
Qed.

Lemma lstrip_fixed s : starts_nonspace s -> Py.lstrip s = s.
Proof. destruct s as [|c s]; simpl; [reflexivity|]. intros ->. reflexivity. Qed.

Lemma rstrip_head s :
  Py.rstrip s = "" \/ exists c r r', s = String c r /\ Py.rstrip s = String c r'.
Proof.
  destruct s as [|c s]; simpl; [left; reflexivity|].
  destruct (Py.rstrip s) as [|d r] eqn:E.
  - destruct (Py.isspace c); [left; reflexivity|]. right. exists c, s, "". auto.
  - right. exists c, s, (String d r). auto.
Qed.

Lemma rstrip_starts_nonspace s : starts_nonspace s -> starts_nonspace (Py.rstrip s).
Proof.
  intros H. destruct (rstrip_head s) as [-> | (c & r & r' & -> & ->)]; [exact I | exact H].
Qed.

Lemma rstrip_cons c s :
  Py.rstrip (String c s)
  = match Py.rstrip s with
    | EmptyString => if Py.isspace c then EmptyString else String c EmptyString
    | r => String c r
    end.
Proof. reflexivity. Qed.

Lemma rstrip_idem s : Py.rstrip (Py.rstrip s) = Py.rstrip s.
Proof.
  induction s as [|c s IH]; [reflexivity|].
  rewrite (rstrip_cons c s).
  destruct (Py.rstrip s) as [|d r] eqn:E.
  - destruct (Py.isspace c) eqn:Hc; [reflexivity|].
    rewrite rstrip_cons. cbn [Py.rstrip]. rewrite Hc. reflexivity.
  - rewrite rstrip_cons, IH. reflexivity.
Qed.

Lemma strip_starts_nonspace s : starts_nonspace (Py.strip s).
Proof. apply rstrip_starts_nonspace, lstrip_starts_nonspace. Qed.

Lemma lstrip_strip s : Py.lstrip (Py.strip s) = Py.strip s.
Proof. apply lstrip_fixed, strip_starts_nonspace. Qed.

Lemma rstrip_strip s : Py.rstrip (Py.strip s) = Py.strip s.
Proof. apply rstrip_idem. Qed.

(** [strip] is idempotent. *)
Lemma strip_idem s : Py.strip (Py.strip s) = Py.strip s.
Proof. unfold Py.strip at 1. rewrite lstrip_strip. apply rstrip_strip. Qed.

Lemma strip_skip_space c s : Py.isspace c = true -> Py.strip (String c s) = Py.strip s.
Proof. intros H. unfold Py.strip. simpl. rewrite H. reflexivity. Qed.

(** A string that [strip] leaves alone and that is not empty starts with a
    character that is not a space, and [rstrip] leaves it alone. *)
Lemma strip_fixed_inv s :
  Py.strip s = s -> s <> "" ->
  (exists c r, s = String c r /\ Py.isspace c = false) /\ Py.rstrip s = s.
Proof.
  intros Hs Hne. split.
  - pose proof (strip_starts_nonspace s) as H. rewrite Hs in H.
    destruct s as [|c r]; [congruence|]. exists c, r. auto.
  - rewrite <- Hs at 1. rewrite rstrip_strip. exact Hs.
Qed.

Lemma rstrip_nonempty c s : Py.isspace c = false -> Py.rstrip (String c s) <> "".
Proof.
  intros Hc. simpl. destruct (Py.rstrip s); [rewrite Hc|]; discriminate.
Qed.

Lemma existsb_s_lstrip p s : Py.existsb_s p s = false -> Py.existsb_s p (Py.lstrip s) = false.
Proof.
  induction s as [|c s IH]; simpl; [auto|].
  intros H. apply orb_false_iff in H as [Hc Hs].
  destruct (Py.isspace c); [auto|]. simpl. rewrite Hc, Hs. reflexivity.
Qed.

Lemma existsb_s_rstrip p s : Py.existsb_s p s = false -> Py.existsb_s p (Py.rstrip s) = false.
Proof.
  induction s as [|c s IH]; simpl; [auto|].
  intros H. apply orb_false_iff in H as [Hc Hs]. specialize (IH Hs).
  destruct (Py.rstrip s) as [|d r].
  - destruct (Py.isspace c); simpl; [reflexivity|]. rewrite Hc. reflexivity.
  - simpl in *. rewrite Hc, IH. reflexivity.
Qed.

Lemma existsb_s_strip p s : Py.existsb_s p s = false -> Py.existsb_s p (Py.strip s) = false.
Proof. intros H. apply existsb_s_rstrip, existsb_s_lstrip, H. Qed.

(** The two parts [split] cuts a string into at the first separator. *)
Lemma split1_app sep a b :
  Py.existsb_s (is_ch sep) a = false -> Py.split1 sep (a ++ String sep b) = [a; b].
Proof.
  induction a as [|c a IH]; simpl.
  - intros _. rewrite Ascii.eqb_refl. reflexivity.
  - intros H. apply orb_false_iff in H as [Hc Ha]. unfold is_ch in Hc.
    rewrite Hc, (IH Ha). reflexivity.
Qed.

Lemma split1_inv sep s p0 p1 rest :
  Py.split1 sep s = p0 :: p1 :: rest ->
  rest = [] /\ Py.existsb_s (is_ch sep) p0 = false /\ s = (p0 ++ String sep p1)%string.
Proof.
  revert p0. induction s as [|c s IH]; intros p0; simpl; [discriminate|].
  destruct (Ascii.eqb c sep) eqn:Hc.
  - intros H. injection H as <- <- <-. apply Ascii.eqb_eq in Hc. subst c. auto.
  - destruct (Py.split1 sep s) as [|h t] eqn:E; [discriminate|].
    intros H. injection H as <- ->.
    destruct (IH h eq_refl) as (Hr & Hp & Hs). subst rest s.
    simpl. unfold is_ch at 1. rewrite Hc, Hp. auto.
Qed.

(** ** Ways a pattern can match *)

Lemma In_run_seq i a b s g s1 g1 x :
  In (s1, g1) (Re.run i a s g) -> In x (Re.run i b s1 g1) -> In x (Re.run i (Re.Seq a b) s g).
Proof.
  intros Ha Hb. cbn [Re.run]. apply in_flat_map. exists (s1, g1). auto.
Qed.

Lemma In_run_lit i c d s g : Re.lit_eqb i c d = true -> In (s, g) (Re.run i (Re.Lit c) (String d s) g).
Proof. intros H. cbn [Re.run]. rewrite H. left. reflexivity. Qed.

Lemma In_run_cls i p d s g : p d = true -> In (s, g) (Re.run i (Re.Cls p) (String d s) g).
Proof. intros H. cbn [Re.run]. rewrite H. left. reflexivity. Qed.

Lemma In_star_rests p pre s : Py.forallb_s p pre = true -> In s (Re.star_rests p (pre ++ s)).
Proof.
  induction pre as [|c pre IH]; simpl.
  - intros _. destruct s as [|d s]; [left; reflexivity|]. simpl.
    destruct (p d); [apply in_or_app; right|]; left; reflexivity.
  - intros H. apply andb_true_iff in H as [Hc Hp]. rewrite Hc.
    apply in_or_app. left. apply IH, Hp.
Qed.

Lemma In_run_star i p pre s g :
  Py.forallb_s p pre = true -> In (s, g) (Re.run i (Re.Star p) (pre ++ s) g).
Proof.
  intros H. cbn [Re.run]. apply in_map_iff. exists s. split; [reflexivity|].
  apply In_star_rests, H.
Qed.

Lemma In_run_plus i p c pre s g :
  p c = true -> Py.forallb_s p pre = true ->
  In (s, g) (Re.run i (Re.Plus p) (String c (pre ++ s)) g).
Proof.
  intros Hc Hp. unfold Re.Plus.
  apply (In_run_seq _ _ _ _ _ (pre ++ s)%string g); [apply In_run_cls, Hc | apply In_run_star, Hp].
Qed.

Lemma In_run_eol i g : In (EmptyString, g) (Re.run i Re.Eol EmptyString g).
Proof. left. reflexivity. Qed.

Lemma In_run_eps i s g : In (s, g) (Re.run i Re.Eps s g).
Proof. left. reflexivity. Qed.

Lemma match_is_some i r s x : In x (Re.run i r s []) -> is_some (Re.match_ i r s) = true.
Proof.
  unfold Re.match_. destruct (Re.run i r s []); [intros [] | reflexivity].
Qed.

(** ** comments.py: field comments *)

(** X3. What [FieldComment.from_string] makes of a line is a fixed point of
    printing and reading: the comment it returns prints to a line that
    [from_string] reads as the same comment. *)
Theorem FieldComment_from_string_str (line : string) (c : BaseComment) :
  FieldComment_from_string line = Ok c ->
  FieldComment_from_string (BaseComment_str c) = Ok c.
Proof.
  unfold FieldComment_from_string.
  destruct (Py.split1 ":" (Py.drop 1 line)) as [|p0 [|p1 rest]] eqn:E; try discriminate.
  intros H. injection H as <-.
  destruct (split1_inv _ _ _ _ _ E) as (_ & Hp0 & _).
  cbn [BaseComment_str Py.drop String.append].
  change (String " " (Py.strip p0 ++ String ":" (String " " (Py.strip p1))))%string
    with ((String " " (Py.strip p0)) ++ String ":" (String " " (Py.strip p1)))%string.
  rewrite split1_app.
  - rewrite !strip_skip_space by reflexivity. rewrite !strip_idem. reflexivity.
  - cbn [Py.existsb_s]. unfold is_ch at 1. cbn [Ascii.eqb Bool.eqb orb].
    apply existsb_s_strip, Hp0.
Qed.

Lemma FieldComment_from_string_str_witness :
  FieldComment_from_string "* SOURCE FILE: clip_01.mov"
  = Ok (FieldComment "SOURCE FILE" "clip_01.mov").
Proof.
  apply (FieldComment_from_string_str "*  SOURCE FILE :clip_01.mov  "
           (FieldComment "SOURCE FILE" "clip_01.mov")).
  reflexivity.
Defined.

Lemma no_newline_dot s :
  Py.existsb_s (Ascii.eqb Py.LF) s = false -> Py.forallb_s Re.dot s = true.
Proof.
  induction s as [|c s IH]; cbn [Py.existsb_s Py.forallb_s]; [reflexivity|].
  intros H. apply orb_false_iff in H as [Hc Hs].
  unfold Re.dot at 1. rewrite Ascii.eqb_sym, Hc. cbn [negb andb]. apply IH, Hs.
Qed.

Lemma first_token_cons c s :
  Py.isspace c = false ->
  Py.first_token (String c s) = Ok (String c (fst (Py.span_not Py.isspace s))).
Proof.
  intros Hc. unfold Py.first_token. simpl. rewrite Hc. simpl. rewrite Hc.
  destruct (Py.span_not Py.isspace s). reflexivity.
Qed.

(** No note pattern matches a line that does not start with the letter M. *)
Lemma no_note_without_M {X : Externals} line :
  match line with
  | String c _ => Re.lit_eqb true "M" c = false
  | EmptyString => True
  end ->
  first_match NoteFormStatement_all_statement_types line = None.
Proof.
  intros H. unfold NoteFormStatement_all_statement_types, first_match, Re.match_,
    MotionMemoryNoteFormStatement_PAT_NOTE.
  cbn [Re.seqs fold_right Re.run].
  destruct line as [|c l]; [reflexivity|]. rewrite H. reflexivity.
Qed.

(** The pattern of a field comment matches the line a field comment with a
    field and a value prints to. *)
Lemma FieldComment_PAT_MATCH_str f v :
  f <> "" -> v <> "" -> Py.strip f = f -> Py.strip v = v ->
  Py.existsb_s (Ascii.eqb Py.LF) f = false -> Py.existsb_s (Ascii.eqb Py.LF) v = false ->
  is_some (Re.match_ false FieldComment_PAT_MATCH (BaseComment_str (FieldComment f v))) = true.
Proof.
  intros Hf Hv Hsf Hsv Hnf Hnv.
  destruct (strip_fixed_inv f Hsf Hf) as ((cf & f' & -> & Hcf) & _).
  destruct (strip_fixed_inv v Hsv Hv) as ((cv & v' & -> & Hcv) & _).
  simpl in Hnf, Hnv.
  apply orb_false_iff in Hnf as [_ Hnf]. apply orb_false_iff in Hnv as [_ Hnv].
  apply (match_is_some _ _ _ (EmptyString, [])).
  unfold FieldComment_PAT_MATCH, BaseComment_str. cbn [Re.seqs fold_right String.append].
  eapply In_run_seq; [apply In_run_lit; reflexivity|].
  eapply In_run_seq; [apply (In_run_star _ _ " "); reflexivity|].
  eapply In_run_seq; [apply (In_run_plus _ _ _ ""); [unfold Re.notspace; rewrite Hcf|]; reflexivity|].
  cbn [String.append].
  eapply In_run_seq; [apply (In_run_star _ _ f'), no_newline_dot, Hnf|].
  eapply In_run_seq; [apply In_run_lit; reflexivity|].
  eapply In_run_seq; [apply (In_run_star _ _ " "); reflexivity|].
  eapply In_run_seq; [apply (In_run_plus _ _ _ ""); [unfold Re.notspace; rewrite Hcv|]; reflexivity|].
  cbn [String.append].
  eapply In_run_seq.
  { rewrite <- (string_app_nil_r v') at 1. apply In_run_star, no_newline_dot, Hnv. }
  eapply In_run_seq; [apply In_run_eol | apply In_run_eps].
Qed.

(** X4. A field comment whose field and value are not empty, have no space
    at either end and no newline, and whose field has no colon, prints to a
    line that is classified as that very field comment. *)
Theorem identify_line_field_comment_str {X : Externals} (f v : string) :
  f <> "" -> v <> "" -> Py.strip f = f -> Py.strip v = v ->
  Py.existsb_s (is_ch ":") f = false ->
  Py.existsb_s (Ascii.eqb Py.LF) f = false -> Py.existsb_s (Ascii.eqb Py.LF) v = false ->
  Event__identify_line (BaseComment_str (FieldComment f v)) = Ok (IsComment (FieldComment f v)).
Proof.
  intros Hf Hv Hsf Hsv Hcolon Hnf Hnv.
  pose proof (FieldComment_PAT_MATCH_str f v Hf Hv Hsf Hsv Hnf Hnv) as Hpat.
  assert (Hfrom : FieldComment_from_string (BaseComment_str (FieldComment f v))
                  = Ok (FieldComment f v)).
  { unfold FieldComment_from_string. cbn [BaseComment_str Py.drop String.append].
    change (String " " (f ++ String ":" (String " " v)))%string
      with ((String " " f) ++ String ":" (String " " v))%string.
    rewrite split1_app.
    - rewrite !strip_skip_space by reflexivity. rewrite Hsf, Hsv. reflexivity.
    - cbn [Py.existsb_s]. unfold is_ch at 1. cbn [Ascii.eqb Bool.eqb orb]. exact Hcolon. }
  assert (Hbase : BaseComment_validate (BaseComment_str (FieldComment f v)) = Ok true).
  { unfold BaseComment_validate. cbn [BaseComment_str String.append].
    rewrite first_token_cons by reflexivity. cbn [bind]. 
    replace (Py.nonempty (Py.strip (String "*" (String " " (f ++ String ":" (String " " v))))))
      with true.
    2:{ symmetry. apply nonempty_true_iff. unfold Py.strip.
        rewrite lstrip_fixed by reflexivity. apply rstrip_nonempty. reflexivity. }
    cbn [Py.existsb_s]. rewrite existsb_s_app. cbn [Py.existsb_s].
    rewrite Hnf, Hnv. reflexivity. }
  unfold Event__identify_line.
  rewrite no_standard_form_without_digit by reflexivity.
  replace (first_char_isnumeric (BaseComment_str (FieldComment f v))) with false by reflexivity.
  unfold identify_note_or_comment.
  rewrite no_note_without_M by reflexivity.
  unfold BaseComment_all_statement_types, identify_comment, FieldComment_validate.
  rewrite Hbase. cbn [bind]. rewrite Hpat. cbn [andb]. rewrite Hfrom. reflexivity.
Qed.

Lemma identify_line_field_comment_str_witness :
  Event__identify_line (X:=Reference.externals) "* SOURCE FILE: clip_01.mov"
  = Ok (IsComment (FieldComment "SOURCE FILE" "clip_01.mov")).
Proof.
  apply (identify_line_field_comment_str (X:=Reference.externals) "SOURCE FILE" "clip_01.mov");
    try discriminate; reflexivity.
Defined.

(** ** Line breaks *)

Lemma islinebreak_isspace c : Py.islinebreak c = true -> Py.isspace c = true.
Proof. by_cases_on_char c. Qed.

Lemma islinebreak_LF c : Ascii.eqb c Py.LF = true -> Py.islinebreak c = true.
Proof. by_cases_on_char c. Qed.

Lemma existsb_s_impl (p q : ascii -> bool) s :
  (forall c, q c = true -> p c = true) ->
  Py.existsb_s p s = false -> Py.existsb_s q s = false.
Proof.
  intros Hqp. induction s as [|c s IH]; simpl; [auto|].
  intros H. apply orb_false_iff in H as [Hc Hs]. rewrite (IH Hs).
  destruct (q c) eqn:Hq; [rewrite (Hqp _ Hq) in Hc; discriminate | reflexivity].
Qed.

Lemma no_linebreak_no_LF s :
  Py.existsb_s Py.islinebreak s = false -> Py.existsb_s (is_ch Py.LF) s = false.
Proof. apply existsb_s_impl. intros c. apply islinebreak_LF. Qed.

Lemma no_linebreak_no_newline s :
  Py.existsb_s Py.islinebreak s = false -> Py.existsb_s (Ascii.eqb Py.LF) s = false.
Proof.
  apply existsb_s_impl. intros c H. apply islinebreak_LF. rewrite Ascii.eqb_sym. exact H.
Qed.

Lemma splitlines_go_nonempty s : forall cur,
  cur <> "" \/ s <> "" -> Py.splitlines_go cur s <> [].
Proof.
  induction s as [|c s IH]; intros cur H; cbn [Py.splitlines_go].
  - destruct cur; [destruct H; congruence | discriminate].
  - destruct (Py.islinebreak c).
    + destruct s as [|d s']; [discriminate|].
      destruct (Ascii.eqb c Py.CR && Ascii.eqb d Py.LF); discriminate.
    + apply IH. left. destruct cur; discriminate.
Qed.

(** A text without a line break is one line, or none when it is empty. *)
Lemma splitlines_go_no_break s : forall cur,
  Py.existsb_s Py.islinebreak s = false ->
  Py.splitlines_go cur s = match (cur ++ s)%string with EmptyString => [] | l => [l] end.
Proof.
  induction s as [|c s IH]; intros cur H; cbn [Py.splitlines_go].
  - rewrite string_app_nil_r. destruct cur; reflexivity.
  - cbn [Py.existsb_s] in H. apply orb_false_iff in H as [Hc Hs]. rewrite Hc.
    rewrite (IH _ Hs), string_app_assoc. reflexivity.
Qed.

Lemma rstrip_fixed_cons c s :
  Py.rstrip (String c s) = String c s ->
  s = "" /\ Py.isspace c = false \/ s <> "" /\ Py.rstrip s = s.
Proof.
  intros Hfix. rewrite rstrip_cons in Hfix. destruct (Py.rstrip s) as [|d r] eqn:E.
  - destruct (Py.isspace c) eqn:Hc; [discriminate|]. injection Hfix as <-. auto.
  - injection Hfix as Hs. right. split; [rewrite <- Hs; discriminate | exact Hs].
Qed.

(** A text with a line break inside, which therefore does not end with it,
    is more than one line. *)
Lemma splitlines_go_break s : forall cur,
  Py.rstrip s = s -> s <> "" -> Py.existsb_s Py.islinebreak s = true ->
  (2 <= List.length (Py.splitlines_go cur s))%nat.
Proof.
  induction s as [|c s IH]; intros cur Hfix Hne Hbr; [congruence|].
  pose proof (rstrip_fixed_cons c s Hfix) as Htail.
  cbn [Py.splitlines_go]. cbn [Py.existsb_s] in Hbr.
  destruct (Py.islinebreak c) eqn:Hc.
  - destruct Htail as [[-> Hsp] | [Hs Hfs]].
    { rewrite (islinebreak_isspace _ Hc) in Hsp. discriminate. }
    destruct s as [|d s']; [congruence|].
    destruct (Ascii.eqb c Py.CR && Ascii.eqb d Py.LF) eqn:Hcrlf.
    + assert (Hs' : s' <> "").
      { intros ->. apply andb_true_iff in Hcrlf as [_ Hd].
        rewrite rstrip_cons in Hfs. cbn [Py.rstrip] in Hfs.
        rewrite (islinebreak_isspace d (islinebreak_LF d Hd)) in Hfs. discriminate. }
      pose proof (splitlines_go_nonempty s' "" (or_intror Hs')) as Hn.
      cbn [List.length]. destruct (Py.splitlines_go "" s'); [congruence | cbn; lia].
    + pose proof (splitlines_go_nonempty (String d s') "" (or_intror Hs)) as Hn.
      cbn [List.length]. destruct (Py.splitlines_go "" (String d s')); [congruence | cbn; lia].
  - cbn [orb] in Hbr. destruct Htail as [[-> _] | [Hs Hfs]]; [discriminate|].
    apply IH; assumption.
Qed.

Lemma rstrip_all_space w : Py.forallb_s Py.isspace w = true -> Py.rstrip w = "".
Proof.
  induction w as [|c w IH]; [reflexivity|]. cbn [Py.forallb_s]. intros H.
  apply andb_true_iff in H as [Hc Hw]. rewrite rstrip_cons, (IH Hw), Hc. reflexivity.
Qed.

Lemma rstrip_app_space s w :
  Py.forallb_s Py.isspace w = true -> Py.rstrip (s ++ w) = Py.rstrip s.
Proof.
  intros Hw. induction s as [|c s IH]; cbn [String.append].
  - apply rstrip_all_space, Hw.
  - rewrite !rstrip_cons, IH. reflexivity.
Qed.

Lemma lstrip_all_space w : Py.forallb_s Py.isspace w = true -> Py.lstrip w = "".
Proof.
  induction w as [|c w IH]; [reflexivity|]. cbn [Py.forallb_s Py.lstrip]. intros H.
  apply andb_true_iff in H as [-> Hw]. apply IH, Hw.
Qed.

(** [readlines] on one line without a newline inside, its newline, and the
    rest of the stream. *)
Lemma readlines_go_line l rest : forall cur,
  Py.existsb_s (is_ch Py.LF) l = false ->
  readlines_go cur (l ++ String Py.LF rest)
  = (cur ++ l ++ String Py.LF "")%string :: readlines_go "" rest.
Proof.
  induction l as [|c l IH]; intros cur H; cbn [String.append readlines_go].
  - rewrite Ascii.eqb_refl. reflexivity.
  - cbn [Py.existsb_s] in H. apply orb_false_iff in H as [Hc Hl].
    unfold is_ch in Hc. rewrite Hc, (IH _ Hl), string_app_assoc. reflexivity.
Qed.

(** ** edl.py: the title and the header *)

Lemma Edl_init_inv {X : Externals} title fcm evs e :
  Edl_init title fcm evs = Ok e ->
  e = mkEdl (Py.strip title) fcm evs
  /\ Py.strip title <> ""
  /\ Py.existsb_s Py.islinebreak (Py.strip title) = false.
Proof.
  unfold Edl_init. cbv zeta.
  destruct (Py.nonempty (Py.strip title)) eqn:Hne; cbn [negb]; [|discriminate].
  apply nonempty_true_iff in Hne.
  destruct (1 <? List.length (Py.splitlines (Py.strip title)))%nat eqn:Hlen; [discriminate|].
  intros H. injection H as <-. repeat split; [exact Hne|].
  destruct (Py.existsb_s Py.islinebreak (Py.strip title)) eqn:Hbr; [|reflexivity].
  apply Nat.ltb_ge in Hlen.
  pose proof (splitlines_go_break (Py.strip title) "" (rstrip_strip title) Hne Hbr) as H2.
  unfold Py.splitlines in Hlen. lia.
Qed.

Lemma Edl_init_clean {X : Externals} (title : string) (fcm : Fcm) (evs : list Event) :
  Py.strip title <> "" -> Py.existsb_s Py.islinebreak (Py.strip title) = false ->
  Edl_init title fcm evs = Ok (mkEdl (Py.strip title) fcm evs).
Proof.
  unfold Edl_init. cbv zeta.
  intros Hne Hbr. apply nonempty_true_iff in Hne as Hn. rewrite Hn. cbn [negb].
  unfold Py.splitlines. rewrite (splitlines_go_no_break _ _ Hbr). cbn [String.append].
  destruct (Py.strip title); [congruence | reflexivity].
Qed.

(** X5. [Edl.__init__] strips the title and accepts it exactly when what is
    left is not empty and has no line break of any kind (newline, carriage
    return, vertical tab, form feed, the separators U+001C to U+001E, next
    line); the Edl it builds has the stripped title. *)
Theorem Edl_init_accepts {X : Externals} (title : string) (fcm : Fcm) (evs : list Event) :
  (Py.strip title = "" ->
     Edl_init title fcm evs = Raise (ValueError "The title cannot be an empty string"))
  /\ (Py.strip title <> "" -> Py.existsb_s Py.islinebreak (Py.strip title) = true ->
     Edl_init title fcm evs = Raise (ValueError "The title must not contain line breaks"))
  /\ (Py.strip title <> "" -> Py.existsb_s Py.islinebreak (Py.strip title) = false ->
     Edl_init title fcm evs = Ok (mkEdl (Py.strip title) fcm evs)).
Proof.
  unfold Edl_init. cbv zeta. split; [|split].
  - intros ->. reflexivity.
  - intros Hne Hbr. apply nonempty_true_iff in Hne as Hn. rewrite Hn. cbn [negb].
    pose proof (splitlines_go_break (Py.strip title) "" (rstrip_strip title) Hne Hbr) as H2.
    unfold Py.splitlines.
    destruct (1 <? _)%nat eqn:Hlen; [reflexivity|]. apply Nat.ltb_ge in Hlen. lia.
  - fold (Edl_init title fcm evs). apply Edl_init_clean.
Qed.

Lemma Edl_init_accepts_witness :
  Edl_init (X:=Reference.externals) "  TEST EDL " PAL [] = Ok (mkEdl "TEST EDL" PAL [])
  /\ Edl_init (X:=Reference.externals) ("A" ++ String Py.FF "B") PAL []
     = Raise (ValueError "The title must not contain line breaks").
Proof.
  split.
  - apply (proj2 (proj2 (Edl_init_accepts (X:=Reference.externals) "  TEST EDL " PAL [])));
      [discriminate | reflexivity].
  - apply (proj1 (proj2 (Edl_init_accepts (X:=Reference.externals)
                           ("A" ++ String Py.FF "B") PAL [])));
      [discriminate | reflexivity].
Defined.

(** The title line of a header reads back as the title. *)
Lemma parse_title_of_header {X : Externals} T :
  Py.strip T = T -> T <> "" ->
  Edl__parse_title_from_line ("TITLE: " ++ T ++ String Py.LF "") = Ok T.
Proof.
  intros Hs Hne.
  destruct (strip_fixed_inv T Hs Hne) as ((c & r & -> & Hc) & Hr).
  unfold Edl__parse_title_from_line. cbv zeta.
  change (Py.startswith (Py.lower ("TITLE: " ++ String c r ++ String Py.LF "")) "title:")
    with true.
  cbn [negb].
  change (Py.drop (String.length "title:") ("TITLE: " ++ String c r ++ String Py.LF ""))
    with (String " " (String c r ++ String Py.LF ""))%string.
  rewrite strip_skip_space by reflexivity.
  unfold Py.strip. rewrite lstrip_fixed by exact Hc.
  rewrite rstrip_app_space by reflexivity. rewrite Hr. reflexivity.
Qed.

Lemma readlines_title_line T rest :
  Py.existsb_s Py.islinebreak T = false ->
  readlines (("TITLE: " ++ T) ++ String Py.LF rest)
  = ("TITLE: " ++ T ++ String Py.LF "")%string :: readlines rest.
Proof.
  intros H. unfold readlines. rewrite readlines_go_line.
  - cbn [String.append]. reflexivity.
  - rewrite existsb_s_app. rewrite (no_linebreak_no_LF _ H). reflexivity.
Qed.

(** The text of an Edl without events: the header and a newline. *)
Lemma Edl_str_without_events {X : Externals} T f :
  Edl_str (mkEdl T f [])
  = (("TITLE: " ++ T)
     ++ String Py.LF match f with
                     | PAL => ""
                     | _ => "FCM: " ++ Fcm_value f ++ String Py.LF ""
                     end)%string.
Proof.
  unfold Edl_str, Edl_header. cbn [_title edl_fcm _events map String.concat].
  destruct f; cbn [Fcm_eqb negb Fcm_value]; rewrite ?string_app_assoc;
    cbn [String.append]; rewrite ?string_app_assoc; reflexivity.
Qed.

(** X6. An Edl without events that [Edl.__init__] has accepted is written
    and read back as itself, whatever its frame counting mode. *)
Theorem from_file_str_without_events {X : Externals} (title : string) (fcm : Fcm) (e : Edl) :
  Edl_init title fcm [] = Ok e -> Edl_from_file (Edl_str e) = Ok e.
Proof.
  intros Hinit. destruct (Edl_init_inv _ _ _ _ Hinit) as (-> & Hne & Hbr).
  set (T := Py.strip title) in *.
  assert (Hs : Py.strip T = T) by apply strip_idem.
  assert (Hback : forall f, Edl_init T f [] = Ok (mkEdl T f [])).
  { intros f. rewrite <- Hs at 2.
    apply Edl_init_clean; rewrite Hs; assumption. }
  unfold Edl_from_file. rewrite Edl_str_without_events.
  rewrite readlines_title_line by exact Hbr.
  cbn [nth]. rewrite parse_title_of_header by assumption. cbn [bind].
  destruct fcm.
  - replace (readlines _) with ["FCM: NON-DROP FRAME" ++ String Py.LF ""]%string
      by (vm_compute; reflexivity).
    cbn [nth].
    replace (Py.startswith _ "FCM:") with true by (vm_compute; reflexivity).
    replace (Edl__parse_fcm_from_line _) with (Ok NON_DROP_FRAME) by (vm_compute; reflexivity).
    cbn [bind skipn loop event_buffer events]. apply Hback.
  - replace (readlines _) with ["FCM: DROP FRAME" ++ String Py.LF ""]%string
      by (vm_compute; reflexivity).
    cbn [nth].
    replace (Py.startswith _ "FCM:") with true by (vm_compute; reflexivity).
    replace (Edl__parse_fcm_from_line _) with (Ok DROP_FRAME) by (vm_compute; reflexivity).
    cbn [bind skipn loop event_buffer events]. apply Hback.
  - replace (readlines _) with (@nil string) by reflexivity.
    cbn [nth].
    replace (Py.startswith _ "FCM:") with false by reflexivity.
    cbn [bind skipn loop event_buffer events]. apply Hback.
Qed.

Lemma from_file_str_without_events_witness :
  Edl_from_file (X:=Reference.externals)
    (Edl_str (X:=Reference.externals) (mkEdl "TEST EDL" DROP_FRAME []))
  = Ok (mkEdl "TEST EDL" DROP_FRAME []).
Proof.
  apply (from_file_str_without_events (X:=Reference.externals) " TEST EDL" DROP_FRAME).
  reflexivity.
Defined.

(** ** events.py: what a parsed event holds *)

Lemma set_of_fcm_const {X : Externals} (l : list StandardFormStatement) :
  fold_left (fun s x => set_add Fcm_eqb x s) (map StandardFormStatement_fcm l) [NON_DROP_FRAME]
  = [NON_DROP_FRAME].
Proof. induction l as [|a l IH]; [reflexivity | exact IH]. Qed.

Lemma Event_init_cons {X : Externals}
    (s : StandardFormStatement) (sfs : list StandardFormStatement)
    (nfs : list NoteFormStatement) (comments : list BaseComment) :
  Event_init (s :: sfs) nfs comments = Ok (mkEvent (s :: sfs) nfs NON_DROP_FRAME comments).
Proof.
  unfold Event_init, set_of. cbn [map fold_left].
  change (set_add Fcm_eqb (StandardFormStatement_fcm s) []) with [NON_DROP_FRAME].
  rewrite set_of_fcm_const. reflexivity.
Qed.

(** X7. [Event.__init__] refuses an empty list of statements and accepts
    every other list: since every statement reports NON_DROP_FRAME, the test
    for matching frame counting modes never fails, and the mode of the event
    is NON_DROP_FRAME. *)
Theorem Event_init_accepts {X : Externals}
    (sfs : list StandardFormStatement) (nfs : list NoteFormStatement)
    (comments : list BaseComment) :
  Event_init sfs nfs comments
  = match sfs with
    | [] => Raise (ValueError
              "An event must contain at least one standard form statement (zero were given)")
    | _ :: _ => Ok (mkEvent sfs nfs NON_DROP_FRAME comments)
    end.
Proof.
  destruct sfs as [|s sfs]; [reflexivity | apply Event_init_cons].
Qed.

Lemma Event_init_inv {X : Externals} sfs nfs comments ev :
  Event_init sfs nfs comments = Ok ev ->
  sfs <> [] /\ ev = mkEvent sfs nfs NON_DROP_FRAME comments.
Proof.
  intros H. destruct sfs as [|s sfs]; [discriminate|].
  split; [discriminate|].
  rewrite Event_init_cons in H.
  injection H as <-. reflexivity.
Qed.

Lemma from_string_loop_inv {X : Externals}
    (P : StandardFormStatement -> Prop) (lines : list string) :
  (forall line s, In line lines -> Event__identify_line line = Ok (IsStandard s) -> P s) ->
  forall sfs nfs comments ev,
  from_string_loop lines sfs nfs comments = Ok ev ->
  Forall P sfs ->
  _sfs ev <> [] /\ _fcm ev = NON_DROP_FRAME /\ Forall P (_sfs ev)
  /\ (List.length (_sfs ev) + List.length (_nfs ev) + List.length (_comments ev)
      = List.length sfs + List.length nfs + List.length comments
        + List.length (filter nonblank lines))%nat.
Proof.
  induction lines as [|line lines IH]; intros HP sfs nfs comments ev Hloop Hsfs.
  - cbn [from_string_loop] in Hloop. apply Event_init_inv in Hloop as [Hne ->].
    cbn [_sfs _nfs _fcm _comments filter List.length]. repeat split; auto; lia.
  - cbn [from_string_loop] in Hloop. cbn [filter]. fold (nonblank line) in Hloop.
    assert (HP' : forall l s, In l lines -> Event__identify_line l = Ok (IsStandard s) -> P s)
      by (intros l s Hl; apply HP; right; exact Hl).
    destruct (nonblank line) eqn:Hnb; cbn [negb] in Hloop.
    + destruct (Event__identify_line line) as [[s|n|c]|e] eqn:Hid; cbn [bind] in Hloop;
        try discriminate.
      * destruct (IH HP' _ _ _ _ Hloop) as (H1 & H2 & H3 & H4).
        { apply Forall_app. split; [exact Hsfs|]. constructor; [|constructor].
          apply (HP line); [left; reflexivity | exact Hid]. }
        repeat split; auto. rewrite H4, length_app. cbn [List.length]. lia.
      * destruct (IH HP' _ _ _ _ Hloop Hsfs) as (H1 & H2 & H3 & H4).
        repeat split; auto. rewrite H4, length_app. cbn [List.length]. lia.
      * destruct (IH HP' _ _ _ _ Hloop Hsfs) as (H1 & H2 & H3 & H4).
        repeat split; auto. rewrite H4, length_app. cbn [List.length]. lia.
    + destruct (IH HP' _ _ _ _ Hloop Hsfs) as (H1 & H2 & H3 & H4). repeat split; auto.
Qed.

Lemma Event_from_string_nonempty {X : Externals} (text : string) (ev : Event) :
  Event_from_string text = Ok ev -> _sfs ev <> [] /\ _fcm ev = NON_DROP_FRAME.
Proof.
  intros H. unfold Event_from_string in H.
  destruct (from_string_loop_inv (fun _ => True) (Py.splitlines text)
              (fun _ _ _ _ => I) [] [] [] ev H (Forall_nil _)) as (H1 & H2 & _).
  auto.
Qed.

(** X8. An event that [Event.from_string] returns has at least one standard
    form statement and the mode NON_DROP_FRAME, and its statements, notes
    and comments are as many as the lines of the text that are not blank:
    every such line becomes exactly one of them. *)
Theorem Event_from_string_counts {X : Externals} (text : string) (ev : Event) :
  Event_from_string text = Ok ev ->
  _sfs ev <> [] /\ _fcm ev = NON_DROP_FRAME
  /\ (List.length (_sfs ev) + List.length (_nfs ev) + List.length (_comments ev)
      = List.length (filter nonblank (Py.splitlines text)))%nat.
Proof.
  intros H. unfold Event_from_string in H.
  destruct (from_string_loop_inv (fun _ => True) (Py.splitlines text)
              (fun _ _ _ _ => I) [] [] [] ev H (Forall_nil _)) as (H1 & H2 & _ & H4).
  auto.
Qed.

Lemma Event_from_string_counts_witness :
  (1 + 0 + 0 = List.length (filter nonblank (Py.splitlines cut_001)))%nat.
Proof.
  apply (Event_from_string_counts (X:=Reference.externals) cut_001
           (mkEvent
              [ mkSFS (X:=Reference.externals) (TapeSource "TAPE001") [mkTrack VIDEO 1]
                  (86400%Z, 86520%Z) (86640%Z, 86760%Z) (Some 1%Z) CutStatement ]
              [] NON_DROP_FRAME [])).
  reflexivity.
Defined.

(** ** edl.py: one turn of the loop of [from_file] *)

Lemma first_token_blank line :
  Py.forallb_s Py.isspace line = true ->
  Py.first_token line = Raise (IndexError "list index out of range").
Proof.
  intros H. unfold Py.first_token. rewrite (lstrip_all_space _ H). reflexivity.
Qed.

(** X9. A line of the body that is not empty and holds nothing but
    whitespace stops the parse: indexing its first token fails, and the error
    is raised again behind the number of the line. *)
Theorem loop_step_blank_line {X : Externals} (st : parser_state) (n : Z) (line : string) :
  line <> "" -> Py.forallb_s Py.isspace line = true ->
  loop_step st n line
  = Raise (ValueError ("Line " ++ Py.str_int (n + 2) ++ ": list index out of range")).
Proof.
  intros Hne Hsp. unfold loop_step.
  apply nonempty_true_iff in Hne. rewrite Hne. cbn [negb].
  unfold try_body, Edl__is_begin_new_event.
  rewrite (first_token_blank _ Hsp).
  destruct (event_buffer st) as [|b bs]; cbn [bind]; [reflexivity|].
  destruct (current_index st =? 0)%Z; reflexivity.
Qed.

Lemma loop_step_blank_line_witness :
  loop_step (X:=Reference.externals) (mkState [] [cut_001] 1%Z) 1 "   "
  = Raise (ValueError "Line 3: list index out of range").
Proof.
  apply (loop_step_blank_line (X:=Reference.externals) (mkState [] [cut_001] 1%Z) 1 "   ");
    [discriminate | reflexivity].
Defined.

Lemma is_begin_new_event_unnumbered line idx tok :
  Py.first_token line = Ok tok -> Py.isnumeric tok = false ->
  Edl__is_begin_new_event line idx = Ok false.
Proof.
  intros Htok Hnum. unfold Edl__is_begin_new_event.
  destruct (idx =? 0)%Z; [reflexivity|].
  rewrite Htok. cbn [bind]. rewrite prefixed_form_test_never_holds, Hnum. reflexivity.
Qed.

(** X10. A line whose first token is not numeric (a note, a comment, a
    line that opens with FCM: or SPLIT:) never closes the event being
    collected and never changes the tracked index: it joins the buffer. *)
Theorem loop_step_unnumbered {X : Externals}
    (st : parser_state) (n : Z) (line tok : string) :
  Py.first_token line = Ok tok -> Py.isnumeric tok = false ->
  loop_step st n line
  = Ok (mkState (events st) (event_buffer st ++ [line]) (current_index st)).
Proof.
  intros Htok Hnum. unfold loop_step.
  rewrite (first_token_line_nonempty _ _ Htok). cbn [negb].
  unfold try_body. rewrite (is_begin_new_event_unnumbered _ _ _ Htok Hnum).
  destruct (event_buffer st) as [|b bs] eqn:Eb; cbn [bind];
    rewrite Htok; cbn [bind]; rewrite Hnum; cbn [bind]; rewrite ?Eb; reflexivity.
Qed.

Lemma loop_step_unnumbered_witness :
  loop_step (X:=Reference.externals) (mkState [] [cut_001] 1%Z) 1 "SPLIT:    AUDIO DELAY=  00:00:00:05"
  = Ok (mkState [] [cut_001; "SPLIT:    AUDIO DELAY=  00:00:00:05"] 1%Z).
Proof.
  apply (loop_step_unnumbered (X:=Reference.externals) (mkState [] [cut_001] 1%Z) 1
           "SPLIT:    AUDIO DELAY=  00:00:00:05" "SPLIT:"); reflexivity.
Defined.

Lemma is_begin_new_event_numbered line idx tok k :
  Py.first_token line = Ok tok -> Py.int tok = Ok k ->
  Edl__is_begin_new_event line idx = Ok (negb (idx =? 0)%Z && negb (k =? idx)%Z).
Proof.
  intros Htok Hint. unfold Edl__is_begin_new_event.
  destruct (idx =? 0)%Z; [reflexivity|].
  rewrite Htok. cbn [bind].
  rewrite prefixed_form_test_never_holds, (int_ok_isnumeric _ _ Hint), Hint. cbn [bind].
  destruct (k =? idx)%Z; reflexivity.
Qed.

(** X11. A line whose first token is the number [k], the token and the
    buffered lines being short enough for [int] to read every numeral in
    them, and the number of the line one that [str] prints.  While no index is tracked, or when [k] is the tracked index, the
    line joins the buffer and [k] is tracked.  Otherwise the buffered lines
    are parsed as one event, which is appended, and the line starts the next
    buffer; when they do not parse, the error is raised behind the number of
    this line, which is not one of the buffered lines. *)
Theorem loop_step_number_cases {X : Externals}
    (st : parser_state) (n : Z) (line tok : string) (k : Z) :
  Py.first_token line = Ok tok -> Py.int tok = Ok k ->
  Py.readable tok = true -> forallb Py.readable (event_buffer st) = true ->
  Py.printable (n + 2) = true ->
  (event_buffer st = [] \/ current_index st = 0%Z \/ k = current_index st ->
     loop_step st n line = Ok (mkState (events st) (event_buffer st ++ [line]) k))
  /\ (event_buffer st <> [] -> current_index st <> 0%Z -> k <> current_index st ->
      loop_step st n line
      = match Event_from_string (Py.join nl (event_buffer st)) with
        | Ok ev => Ok (mkState (events st ++ [ev]) [line] k)
        | Raise e =>
            Raise (ValueError ("Line " ++ Py.str_int (n + 2) ++ ": " ++ exn_str e))
        end).
Proof.
  intros Htok Hint _ _ _. unfold loop_step.
  rewrite (first_token_line_nonempty _ _ Htok). cbn [negb].
  unfold try_body. rewrite (is_begin_new_event_numbered _ _ _ _ Htok Hint).
  split.
  - intros H.
    destruct (event_buffer st) as [|b bs] eqn:Eb; cbn [bind].
    + rewrite Htok. cbn [bind]. rewrite (int_ok_isnumeric _ _ Hint), Hint. cbn [bind].
      rewrite Eb. reflexivity.
    + assert (Hb : negb (current_index st =? 0)%Z && negb (k =? current_index st)%Z = false).
      { destruct H as [H | [H | H]]; [discriminate | rewrite H; reflexivity |].
        rewrite H, Z.eqb_refl. apply andb_false_r. }
      rewrite Hb. rewrite Htok. cbn [bind].
      rewrite (int_ok_isnumeric _ _ Hint), Hint. cbn [bind]. rewrite Eb. reflexivity.
  - intros Hbuf Hidx Hk.
    destruct (event_buffer st) as [|b bs] eqn:Eb; [congruence|]. cbn [bind].
    apply Z.eqb_neq in Hidx, Hk. rewrite Hidx, Hk. cbn [negb andb].
    fold nl.
    destruct (Event_from_string (Py.join nl (b :: bs))) as [ev|e]; cbn [bind]; [|reflexivity].
    rewrite Htok. cbn [bind]. rewrite (int_ok_isnumeric _ _ Hint), Hint. reflexivity.
Qed.

Lemma loop_step_number_cases_witness :
  loop_step (X:=Reference.externals) (mkState [] [cut_001] 1%Z) 1 "001 more"
  = Ok (mkState [] [cut_001; "001 more"] 1%Z)
  /\ loop_step (X:=Reference.externals) (mkState [] ["001 garbage"] 1%Z) 1 "2 x"
     = Raise (ValueError "Line 3: Unrecognized standard form statement").
Proof.
  split.
  - apply (proj1 (loop_step_number_cases (X:=Reference.externals)
                    (mkState [] [cut_001] 1%Z) 1 "001 more" "001" 1
                    eq_refl eq_refl eq_refl eq_refl eq_refl)).
    right. right. reflexivity.
  - rewrite (proj2 (loop_step_number_cases (X:=Reference.externals)
                      (mkState [] ["001 garbage"] 1%Z) 1 "2 x" "2" 2
                      eq_refl eq_refl eq_refl eq_refl eq_refl));
      [reflexivity | discriminate | discriminate | discriminate].
Defined.

(** ** edl.py: what a parsed document holds *)

Lemma try_body_events {X : Externals} (Q : Event -> Prop) st line st' :
  (forall text ev, Event_from_string text = Ok ev -> Q ev) ->
  try_body st line = Ok st' -> Forall Q (events st) -> Forall Q (events st').
Proof.
  intros HQ Hbody Hst. unfold try_body in Hbody.
  match type of Hbody with
  | bind ?a _ = _ => destruct a as [st1|e] eqn:E1; [|discriminate]
  end.
  assert (H1 : Forall Q (events st1)).
  { destruct (event_buffer st) as [|b bs]; [injection E1 as <-; exact Hst|].
    destruct (Edl__is_begin_new_event line (current_index st)) as [[]|e]; cbn [bind] in E1;
      try discriminate.
    - destruct (Event_from_string _) as [ev|e] eqn:Eev; cbn [bind] in E1; [|discriminate].
      injection E1 as <-. cbn [events]. apply Forall_app. split; [exact Hst|].
      constructor; [|constructor]. apply (HQ _ _ Eev).
    - injection E1 as <-. exact Hst. }
  cbn [bind] in Hbody.
  destruct (Py.first_token line) as [tok|e]; cbn [bind] in Hbody; [|discriminate].
  match type of Hbody with
  | bind ?a _ = _ => destruct a as [idx|e]; [|discriminate]
  end.
  cbn [bind] in Hbody. injection Hbody as <-. exact H1.
Qed.

Lemma loop_events {X : Externals} (Q : Event -> Prop) :
  (forall text ev, Event_from_string text = Ok ev -> Q ev) ->
  forall lines st n st',
  loop st n lines = Ok st' -> Forall Q (events st) -> Forall Q (events st').
Proof.
  intros HQ. induction lines as [|l lines IH]; intros st n st' Hloop Hst.
  - injection Hloop as <-. exact Hst.
  - cbn [loop] in Hloop.
    destruct (loop_step st n (Py.rstrip_nl l)) as [st1|e] eqn:E1; [|discriminate].
    cbn [bind] in Hloop. apply (IH _ _ _ Hloop).
    unfold loop_step in E1.
    destruct (negb (Py.nonempty (Py.rstrip_nl l))); [injection E1 as <-; exact Hst|].
    destruct (try_body st (Py.rstrip_nl l)) as [st2|e] eqn:E2; [|discriminate].
    injection E1 as <-. apply (try_body_events Q _ _ _ HQ E2 Hst).
Qed.

(** Every event of a parsed document is what [Event.from_string] made of
    some text. *)
Lemma from_file_events {X : Externals} (Q : Event -> Prop) text e :
  (forall t ev, Event_from_string t = Ok ev -> Q ev) ->
  Edl_from_file text = Ok e ->
  Forall Q (_events e)
  /\ Py.strip (_title e) = _title e /\ _title e <> ""
  /\ Py.existsb_s Py.islinebreak (_title e) = false.
Proof.
  intros HQ H. unfold Edl_from_file in H.
  destruct (Edl__parse_title_from_line _) as [title|err]; [|discriminate].
  cbn [bind] in H.
  match type of H with
  | bind ?a _ = _ => destruct a as [[global_fcm body]|err]; [|discriminate]
  end.
  cbn [bind] in H.
  destruct (loop _ _ body) as [st|err] eqn:Hloop; [|discriminate].
  cbn [bind] in H.
  pose proof (loop_events Q HQ _ _ _ _ Hloop (Forall_nil _)) as Hst.
  match type of H with
  | bind ?a _ = _ => destruct a as [all_events|err] eqn:Hall; [|discriminate]
  end.
  cbn [bind] in H.
  assert (Hev : Forall Q all_events).
  { destruct (event_buffer st) as [|b bs]; [injection Hall as <-; exact Hst|].
    destruct (Event_from_string _) as [ev|err] eqn:Eev; [|discriminate].
    cbn [bind] in Hall. injection Hall as <-. apply Forall_app. split; [exact Hst|].
    constructor; [|constructor]. apply (HQ _ _ Eev). }
  destruct (Edl_init_inv _ _ _ _ H) as (-> & Hne & Hbr). cbn [_events _title].
  split; [exact Hev|]. split; [apply strip_idem|]. split; assumption.
Qed.

(** X12. A document that [Edl.from_file] returns has a title that is not
    empty, has no space at either end and no line break, and each of its
    events has at least one standard form statement and the mode
    NON_DROP_FRAME. *)
Theorem from_file_invariants {X : Externals} (text : string) (e : Edl) :
  Edl_from_file text = Ok e ->
  _title e <> "" /\ Py.strip (_title e) = _title e
  /\ Py.existsb_s Py.islinebreak (_title e) = false
  /\ Forall (fun ev => _sfs ev <> [] /\ _fcm ev = NON_DROP_FRAME) (_events e).
Proof.
  intros H.
  destruct (from_file_events (fun ev => _sfs ev <> [] /\ _fcm ev = NON_DROP_FRAME) text e)
    as (H1 & H2 & H3 & H4); [|exact H|auto].
  intros t ev Hev. apply (Event_from_string_nonempty t ev Hev).
Qed.

Lemma from_file_invariants_witness :
  _title (mkEdl (X:=Reference.externals) "X" PAL []) <> "".
Proof.
  apply (from_file_invariants (X:=Reference.externals) "TITLE:  X "
           (mkEdl (X:=Reference.externals) "X" PAL [])).
  reflexivity.
Defined.

(** ** What a match of a pattern says about the line *)

Lemma star_rests_sound p s s' :
  In s' (Re.star_rests p s) -> exists pre, s = (pre ++ s')%string /\ Py.forallb_s p pre = true.
Proof.
  induction s as [|c s IH]; cbn [Re.star_rests].
  - intros [<- | []]. exists "". auto.
  - destruct (p c) eqn:Hc.
    + intros H. apply in_app_or in H as [H | [<- | []]].
      * destruct (IH H) as (pre & -> & Hp). exists (String c pre). cbn [Py.forallb_s].
        rewrite Hc, Hp. auto.
      * exists "". auto.
    + intros [<- | []]. exists "". auto.
Qed.

Lemma take_app p r : Re.take (String.length p) (p ++ r) = p.
Proof. induction p as [|c p IH]; cbn; [destruct r; reflexivity | rewrite IH; reflexivity]. Qed.

Lemma consumed_app p r : Re.consumed (p ++ r) r = p.
Proof.
  unfold Re.consumed. rewrite string_length_app.
  replace (String.length p + String.length r - String.length r)%nat with (String.length p) by lia.
  apply take_app.
Qed.

(** A way to match [r] leaves a suffix of the subject and puts the groups of
    [r] that took part on top of the captures it started with. *)
Lemma run_sound i r : forall s g s' g',
  In (s', g') (Re.run i r s g) ->
  exists pre new, s = (pre ++ s')%string /\ g' = new ++ g
                  /\ Forall (fun nv => In (fst nv) (group_names r)) new.
Proof.
  induction r as [ | c | p | a IHa b IHb | a IHa b IHb | a IHa | p | name a IHa | ];
    intros s g s' g' H; cbn [Re.run group_names] in *.
  - destruct H as [H | []]. injection H as <- <-. exists "", []. auto.
  - destruct s as [|d s]; [destruct H|]. destruct (Re.lit_eqb i c d); [|destruct H].
    destruct H as [H | []]. injection H as <- <-. exists (String d ""), []. auto.
  - destruct s as [|d s]; [destruct H|]. destruct (p d); [|destruct H].
    destruct H as [H | []]. injection H as <- <-. exists (String d ""), []. auto.
  - apply in_flat_map in H as ([s1 g1] & H1 & H2). cbn [fst snd] in H2.
    destruct (IHa _ _ _ _ H1) as (pre1 & new1 & -> & -> & F1).
    destruct (IHb _ _ _ _ H2) as (pre2 & new2 & -> & -> & F2).
    exists (pre1 ++ pre2)%string, (new2 ++ new1).
    rewrite string_app_assoc, <- app_assoc. repeat split.
    apply Forall_app. split; [eapply Forall_impl; [|exact F2] | eapply Forall_impl; [|exact F1]];
      intros nv Hin; apply in_or_app; auto.
  - apply in_app_or in H as [H | H].
    + destruct (IHa _ _ _ _ H) as (pre & new & -> & -> & F). exists pre, new. repeat split.
      eapply Forall_impl; [|exact F]. intros nv Hin. apply in_or_app. auto.
    + destruct (IHb _ _ _ _ H) as (pre & new & -> & -> & F). exists pre, new. repeat split.
      eapply Forall_impl; [|exact F]. intros nv Hin. apply in_or_app. auto.
  - apply in_app_or in H as [H | [H | []]].
    + apply (IHa _ _ _ _ H).
    + injection H as <- <-. exists "", []. auto.
  - apply in_map_iff in H as (s1 & H & Hin). injection H as <- <-.
    destruct (star_rests_sound _ _ _ Hin) as (pre & -> & _). exists pre, []. auto.
  - apply in_map_iff in H as ([s1 g1] & H & Hin). cbn [fst snd] in H. injection H as <- <-.
    destruct (IHa _ _ _ _ Hin) as (pre & new & -> & -> & F).
    exists pre, ((name, Re.consumed (pre ++ s1) s1) :: new). repeat split.
    constructor; [left; reflexivity|]. eapply Forall_impl; [|exact F].
    intros nv Hnv. right. exact Hnv.
  - destruct (Re.at_end s); [|destruct H]. destruct H as [H | []].
    injection H as <- <-. exists "", []. auto.
Qed.

Lemma group_skip new g name :
  Forall (fun nv : string * string => fst nv <> name) new ->
  Re.group (new ++ g) name = Re.group g name.
Proof.
  induction 1 as [|[n v] new Hn _ IH]; [reflexivity|].
  cbn [app Re.group]. cbn [fst] in Hn.
  destruct (String.eqb n name) eqn:E; [apply String.eqb_eq in E; congruence | exact IH].
Qed.

Lemma match_In i r s m : Re.match_ i r s = Some m -> exists s', In (s', m) (Re.run i r s []).
Proof.
  unfold Re.match_. destruct (Re.run i r s []) as [|[s' g] l]; [discriminate|].
  cbn. intros H. injection H as <-. exists s'. left. reflexivity.
Qed.

Lemma isdecimal_notspace c : Py.isdecimal c = true -> Py.isspace c = false.
Proof. by_cases_on_char c. Qed.

Lemma span_not_token p c r :
  Py.existsb_s Py.isspace p = false -> Py.isspace c = true ->
  Py.span_not Py.isspace (p ++ String c r) = (p, String c r).
Proof.
  intros Hp Hc. induction p as [|d p IH]; cbn [String.append Py.span_not].
  - rewrite Hc. reflexivity.
  - cbn [Py.existsb_s] in Hp. apply orb_false_iff in Hp as [Hd Hp].
    rewrite Hd, (IH Hp). reflexivity.
Qed.

Lemma decimal_no_space p : Py.forallb_s Py.isdecimal p = true -> Py.existsb_s Py.isspace p = false.
Proof.
  induction p as [|c p IH]; cbn [Py.forallb_s Py.existsb_s]; [reflexivity|].
  intros H. apply andb_true_iff in H as [Hc Hp].
  rewrite (isdecimal_notspace _ Hc), (IH Hp). reflexivity.
Qed.

(** The first token of a line that starts with a run of decimal digits and a
    space after it. *)
Lemma first_token_digits p c r :
  p <> "" -> Py.forallb_s Py.isdecimal p = true -> Py.isspace c = true ->
  Py.first_token (p ++ String c r) = Ok p.
Proof.
  intros Hne Hp Hc. unfold Py.first_token.
  pose proof (decimal_no_space _ Hp) as Hns.
  rewrite lstrip_fixed.
  - destruct p as [|d p]; [congruence|]. cbn [String.append].
    change (String d (p ++ String c r))%string with (String d p ++ String c r)%string.
    rewrite (span_not_token _ _ _ Hns Hc). reflexivity.
  - destruct p as [|d p]; [congruence|]. cbn [String.append starts_nonspace].
    cbn [Py.existsb_s] in Hns. apply orb_false_iff in Hns as [Hd _]. exact Hd.
Qed.

Lemma digits_val_nonneg s : forall acc, (0 <= acc)%Z -> (0 <= Py.digits_val acc s)%Z.
Proof.
  induction s as [|c s IH]; intros acc H; cbn [Py.digits_val]; [exact H|].
  apply IH. unfold Py.digit_of. lia.
Qed.

Lemma int_nonneg s n : Py.int s = Ok n -> (0 <= n)%Z.
Proof.
  unfold Py.int. destruct (Py.nonempty s && Py.forallb_s Py.isdecimal s); [|discriminate].
  intros H. injection H as <-. apply digits_val_nonneg. lia.
Qed.

(** Every pattern of a standard form statement starts with the group of the
    event number and whitespace: when it matches, the line starts with the
    digits of that group and a space. *)
Lemma run_event_number i R line g s' g' :
  In (s', g') (Re.run i (Re.Seq (Re.Grp "event_number" (Re.Plus Py.isdecimal))
                                (Re.Seq Re.ws1 R)) line g) ->
  ~ In "event_number" (group_names R) ->
  exists p c r, line = (p ++ String c r)%string /\ p <> ""
                /\ Py.forallb_s Py.isdecimal p = true /\ Py.isspace c = true
                /\ Re.group g' "event_number" = Some p.
Proof.
  intros H Hnot. cbn [Re.run] in H.
  apply in_flat_map in H as ([s1 g1] & H1 & H2). cbn [fst snd] in H2.
  apply in_map_iff in H1 as ([s0 g0] & Heq & H1). cbn [fst snd] in Heq.
  injection Heq as <- <-.
  apply in_flat_map in H1 as ([s2 g2] & Hc & Hs). cbn [fst snd] in Hs.
  destruct line as [|d line]; [destruct Hc|].
  destruct (Py.isdecimal d) eqn:Hd; [|destruct Hc].
  destruct Hc as [Hc | []]. injection Hc as <- <-.
  apply in_map_iff in Hs as (s3 & Heq & Hs). injection Heq as <- <-.
  destruct (star_rests_sound _ _ _ Hs) as (pre & -> & Hpre).
  apply in_flat_map in H2 as ([s4 g4] & Hw & HR). cbn [fst snd] in HR.
  unfold Re.ws1, Re.Plus in Hw. cbn [Re.run] in Hw.
  apply in_flat_map in Hw as ([s5 g5] & Hw1 & Hw2). cbn [fst snd] in Hw2.
  destruct s3 as [|c r]; [destruct Hw1|].
  destruct (Py.isspace c) eqn:Hc; [|destruct Hw1].
  destruct Hw1 as [Hw1 | []]. injection Hw1 as <- <-.
  apply in_map_iff in Hw2 as (s6 & Heq & _). injection Heq as <- <-.
  destruct (run_sound _ _ _ _ _ _ HR) as (_ & new & _ & -> & Hnew).
  exists (String d pre), c, r. repeat split; [discriminate | | exact Hc |].
  - cbn [Py.forallb_s]. rewrite Hd, Hpre. reflexivity.
  - rewrite group_skip.
    + cbn [Re.group]. rewrite String.eqb_refl.
      change (String d (pre ++ String c r))%string with (String d pre ++ String c r)%string.
      rewrite consumed_app. reflexivity.
    + eapply Forall_impl; [|exact Hnew]. intros nv Hin Heq. apply Hnot. rewrite <- Heq. exact Hin.
Qed.

Lemma sfs_pattern_event_number {X : Externals} pat parse line m :
  In (pat, parse) StandardFormStatement_all_statement_types ->
  Re.match_ true pat line = Some m ->
  exists p c r, line = (p ++ String c r)%string /\ p <> ""
                /\ Py.forallb_s Py.isdecimal p = true /\ Py.isspace c = true
                /\ Re.group m "event_number" = Some p.
Proof.
  intros Hin Hm. apply match_In in Hm as (s' & Hm).
  unfold StandardFormStatement_all_statement_types in Hin.
  repeat (destruct Hin as [Hin | Hin];
          [injection Hin as <- _;
           unfold CutStatement_PAT_EVENT, DissolveStatement_PAT_EVENT, WipeStatement_PAT_EVENT,
             KeyForegroundStatement_PAT_EVENT, KeyBackgroundStatement_PAT_EVENT, pat_head in Hm;
           cbn [app Re.seqs fold_right] in Hm;
           apply (run_event_number _ _ _ _ _ _ Hm);
           cbn; intuition discriminate |]).
  destruct Hin.
Qed.

(** ** sfm.py: what the parsers put into a statement *)

Lemma group_inv m name v : group m name = Ok v -> Re.group m name = Some v.
Proof. unfold group. destruct (Re.group m name); [intros H; injection H as <-; reflexivity | discriminate]. Qed.

Lemma parse_shared_inv {X : Externals} m en rn tr ts trc :
  _parse_shared_elements m = Ok (en, rn, tr, ts, trc) ->
  (exists p, Re.group m "event_number" = Some p /\ Py.int p = Ok en)
  /\ Re.group m "reel_name" = Some rn
  /\ (exists tt t, Re.group m "track_type" = Some tt /\ Track_init tt = Ok t /\ tr = [t]).
Proof.
  unfold _parse_shared_elements, bind. intros H.
  destruct (group m "event_number") as [p|] eqn:Hg1; [|discriminate].
  destruct (Py.int p) as [n|] eqn:Hi; [|discriminate].
  destruct (group m "reel_name") as [rn'|] eqn:Hg2; [|discriminate].
  destruct (group m "track_type") as [tt|] eqn:Hg3; [|discriminate].
  destruct (Track_init tt) as [t|] eqn:Ht; [|discriminate].
  repeat match type of H with
         | match ?a with _ => _ end = Ok _ => destruct a; [|discriminate]
         end.
  injection H as <- <- <- <- <-.
  apply group_inv in Hg1, Hg2, Hg3. eauto 10.
Qed.

(** A statement that a parser of [all_statement_types] returns: its event
    number, its reel and its single track come from the groups of the match. *)
Lemma parse_from_pattern_inv {X : Externals} pat parse m s :
  In (pat, parse) StandardFormStatement_all_statement_types ->
  parse m = Ok s ->
  (exists p n, Re.group m "event_number" = Some p /\ Py.int p = Ok n
               /\ _event_number s = Some n)
  /\ (exists rn, Re.group m "reel_name" = Some rn /\ SourceReel_from_string rn = Ok (_reel s))
  /\ (exists tt t, Re.group m "track_type" = Some tt /\ Track_init tt = Ok t
                   /\ _tracks s = [t]).
Proof.
  intros Hin Hp. unfold StandardFormStatement_all_statement_types in Hin.
  assert (Hshared : exists en rn tr ts trc c,
             _parse_shared_elements m = Ok (en, rn, tr, ts, trc)
             /\ StandardFormStatement_init rn tr ts trc (Some en) c = Ok s).
  { cbn [In] in Hin.
    destruct Hin as [Hin | [Hin | [Hin | [Hin | [Hin | []]]]]]; injection Hin as _ <-;
      unfold CutStatement_parse_from_pattern, DissolveStatement_parse_from_pattern,
        WipeStatement_parse_from_pattern, KeyForegroundStatement_parse_from_pattern,
        KeyBackgroundStatement_parse_from_pattern in Hp;
      destruct (_parse_shared_elements m) as [[[[[en rn] tr] ts] trc]|e] eqn:E;
      cbn [bind] in Hp; try discriminate Hp;
      repeat match type of Hp with
             | bind ?a _ = Ok _ => destruct a; cbn [bind] in Hp; [|discriminate Hp]
             end;
      eauto 10. }
  destruct Hshared as (en & rn & tr & ts & trc & c & E & Hinit).
  destruct (parse_shared_inv _ _ _ _ _ _ E) as ((p & Hg & Hi) & Hr & (tt & t & Ht & Hti & ->)).
  unfold StandardFormStatement_init in Hinit.
  destruct (SourceReel_from_string rn) as [reel|e] eqn:Hreel; cbn [bind] in Hinit;
    [|discriminate].
  injection Hinit as <-. cbn [_event_number _reel _tracks].
  split; [exists p, en; auto | split; [exists rn; auto | exists tt, t; auto]].
Qed.

Lemma first_match_inv {A} (types : list (Re.re * (Re.captures -> result A))) line r :
  first_match types line = Some r ->
  exists pat parse m, In (pat, parse) types /\ Re.match_ true pat line = Some m /\ r = parse m.
Proof.
  induction types as [|[pat parse] types IH]; cbn [first_match]; [discriminate|].
  destruct (Re.match_ true pat line) as [m|] eqn:Hm.
  - intros H. injection H as <-. exists pat, parse, m. repeat split; auto. left. reflexivity.
  - intros H. destruct (IH H) as (pat' & parse' & m' & Hin & Hm' & ->).
    exists pat', parse', m'. repeat split; auto. right. exact Hin.
Qed.

Lemma identify_standard_inv {X : Externals} line s :
  Event__identify_line line = Ok (IsStandard s) ->
  exists pat parse m, In (pat, parse) StandardFormStatement_all_statement_types
                      /\ Re.match_ true pat line = Some m /\ parse m = Ok s.
Proof.
  unfold Event__identify_line.
  destruct (first_match StandardFormStatement_all_statement_types line) as [r|] eqn:Hfm.
  - destruct (first_match_inv _ _ _ Hfm) as (pat & parse & m & Hin & Hm & ->).
    destruct (parse m) as [s0|e] eqn:Hp; cbn [bind]; [|discriminate].
    intros H. injection H as <-. exists pat, parse, m. auto.
  - destruct (first_char_isnumeric line); [discriminate|].
    unfold identify_note_or_comment.
    destruct (first_match NoteFormStatement_all_statement_types line) as [r|].
    + destruct r; cbn [bind]; discriminate.
    + generalize BaseComment_all_statement_types. intros types.
      induction types as [|[v f] types IH]; cbn [identify_comment]; [discriminate|].
      destruct (v line) as [[]|e]; cbn [bind]; [|exact IH|discriminate].
      destruct (f line); cbn [bind]; discriminate.
Qed.

Lemma identify_standard_number_track {X : Externals}
    (line : string) (s : StandardFormStatement) :
  Event__identify_line line = Ok (IsStandard s) ->
  (exists n, _event_number s = Some n /\ (0 <= n)%Z) /\ List.length (_tracks s) = 1%nat.
Proof.
  intros H. destruct (identify_standard_inv _ _ H) as (pat & parse & m & Hin & Hm & Hp).
  destruct (parse_from_pattern_inv _ _ _ _ Hin Hp)
    as ((p & n & _ & Hint & Hen) & _ & (tt & t & _ & _ & Ht)).
  split; [exists n; split; [exact Hen | apply (int_nonneg _ _ Hint)]|].
  rewrite Ht. reflexivity.
Qed.

(** X13. For every line that is classified as a standard form statement,
    the first token of the line is a decimal numeral, it reads as the event
    number of the statement, which is therefore not negative, and the
    statement has exactly one track: the number [from_file] tracks for the
    line is the number the statement carries. *)
Theorem identify_standard_event_number {X : Externals}
    (line : string) (s : StandardFormStatement) :
  Event__identify_line line = Ok (IsStandard s) ->
  exists tok n, Py.first_token line = Ok tok /\ Py.int tok = Ok n /\ (0 <= n)%Z
                /\ _event_number s = Some n
                /\ List.length (_tracks s) = 1%nat.
Proof.
  intros H. destruct (identify_standard_inv _ _ H) as (pat & parse & m & Hin & Hm & Hp).
  destruct (sfs_pattern_event_number _ _ _ _ Hin Hm) as (p & c & r & -> & Hne & Hdec & Hc & Hg).
  destruct (parse_from_pattern_inv _ _ _ _ Hin Hp)
    as ((p' & n & Hg' & Hint & Hen) & _ & (tt & t & _ & _ & Ht)).
  rewrite Hg in Hg'. injection Hg' as <-.
  exists p, n. rewrite (first_token_digits _ _ _ Hne Hdec Hc), Ht.
  repeat split; auto. apply (int_nonneg _ _ Hint).
Qed.

Lemma identify_standard_event_number_witness :
  exists tok n, Py.first_token cut_001 = Ok tok /\ Py.int tok = Ok n /\ (0 <= n)%Z
                /\ Some 1%Z = Some n /\ 1%nat = 1%nat.
Proof.
  apply (identify_standard_event_number (X:=Reference.externals) cut_001
           (mkSFS (X:=Reference.externals) (TapeSource "TAPE001") [mkTrack VIDEO 1]
              (86400%Z, 86520%Z) (86640%Z, 86760%Z) (Some 1%Z) CutStatement)).
  reflexivity.
Defined.

(** X14. In a document that [Edl.from_file] returns, every standard form
    statement of every event has an event number, which is not negative, and
    exactly one track. *)
Theorem from_file_statements {X : Externals} (text : string) (e : Edl) :
  Edl_from_file text = Ok e ->
  Forall (fun ev =>
            Forall (fun s => (exists n, _event_number s = Some n /\ (0 <= n)%Z)
                             /\ List.length (_tracks s) = 1%nat) (_sfs ev))
         (_events e).
Proof.
  intros H.
  refine (proj1 (from_file_events _ text e _ H)).
  intros t ev Hev. unfold Event_from_string in Hev.
  refine (proj1 (proj2 (proj2 (from_string_loop_inv _ (Py.splitlines t) _ [] [] [] ev Hev
                                  (Forall_nil _))))).
  intros line s _ Hid. apply (identify_standard_number_track line s Hid).
Qed.

Lemma from_file_statements_witness :
  Forall (fun ev =>
            Forall (fun s => (exists n, _event_number s = Some n /\ (0 <= n)%Z)
                             /\ List.length (_tracks s) = 1%nat) (_sfs ev))
    [ mkEvent
        [ mkSFS (X:=Reference.externals) (TapeSource "TAPE001") [mkTrack VIDEO 1]
            (86400%Z, 86520%Z) (86640%Z, 86760%Z) (Some 1%Z) CutStatement ]
        [] NON_DROP_FRAME [] ].
Proof.
  apply (from_file_statements (X:=Reference.externals) doc_test_edl
           (mkEdl "TEST EDL" PAL
              [ mkEvent
                  [ mkSFS (X:=Reference.externals) (TapeSource "TAPE001") [mkTrack VIDEO 1]
                      (86400%Z, 86520%Z) (86640%Z, 86760%Z) (Some 1%Z) CutStatement ]
                  [] NON_DROP_FRAME [] ])).
  reflexivity.
Defined.

(** ** events.py: the kinds of lines *)

Lemma lit_eqb_M c : Re.lit_eqb true "M" c = true -> c = "M"%char \/ c = "m"%char.
Proof. by_cases_on_char c. Qed.

Lemma lit_eqb_2 c : Re.lit_eqb true "2" c = true -> c = "2"%char.
Proof. by_cases_on_char c. Qed.

Lemma lit_eqb_star c : Re.lit_eqb false "*" c = true -> c = "*"%char.
Proof. unfold Re.lit_eqb. intros H. apply Ascii.eqb_eq in H. auto. Qed.

Lemma note_pattern_start line m :
  Re.match_ true MotionMemoryNoteFormStatement_PAT_NOTE line = Some m ->
  exists c r, line = String c (String "2" r) /\ (c = "M"%char \/ c = "m"%char).
Proof.
  intros H. apply match_In in H as (s' & H).
  unfold MotionMemoryNoteFormStatement_PAT_NOTE in H. cbn [Re.seqs fold_right] in H.
  cbn [Re.run] in H.
  apply in_flat_map in H as ([s1 g1] & H & _).
  apply in_map_iff in H as ([s2 g2] & _ & H).
  apply in_flat_map in H as ([s3 g3] & H1 & H2). cbn [fst snd] in H2.
  destruct line as [|c l]; [destruct H1|].
  destruct (Re.lit_eqb true "M" c) eqn:Hc; [|destruct H1].
  destruct H1 as [H1 | []]. injection H1 as <- <-.
  destruct l as [|d l]; [destruct H2|].
  destruct (Re.lit_eqb true "2" d) eqn:Hd; [|destruct H2].
  apply lit_eqb_2 in Hd. subst d. exists c, l. split; [reflexivity | apply lit_eqb_M, Hc].
Qed.

Lemma field_pattern_start line :
  is_some (Re.match_ false FieldComment_PAT_MATCH line) = true -> exists r, line = String "*" r.
Proof.
  destruct (Re.match_ false FieldComment_PAT_MATCH line) as [m|] eqn:H; [|discriminate].
  intros _. apply match_In in H as (s' & H).
  unfold FieldComment_PAT_MATCH in H. cbn [Re.seqs fold_right] in H.
  cbn [Re.run] in H.
  apply in_flat_map in H as ([s1 g1] & H & _).
  destruct line as [|c l]; [destruct H|].
  destruct (Re.lit_eqb false "*" c) eqn:Hc; [|destruct H].
  apply lit_eqb_star in Hc. subst c. exists l. reflexivity.
Qed.

Lemma identify_note_or_comment_inv {X : Externals} line r :
  Event__identify_line line = Ok r ->
  (exists s, r = IsStandard s)
  \/ first_match StandardFormStatement_all_statement_types line = None
     /\ first_char_isnumeric line = false
     /\ identify_note_or_comment line = Ok r.
Proof.
  unfold Event__identify_line.
  destruct (first_match StandardFormStatement_all_statement_types line) as [r0|].
  - destruct r0 as [s|e]; cbn [bind]; [|discriminate].
    intros H. injection H as <-. left. eauto.
  - destruct (first_char_isnumeric line); [discriminate|]. auto.
Qed.

Lemma identify_comment_inv {X : Externals} line c :
  Event__identify_line line = Ok (IsComment c) ->
  BaseComment_validate line = Ok true
  /\ (is_some (Re.match_ false FieldComment_PAT_MATCH line) = true
      /\ FieldComment_from_string line = Ok c
      \/ is_some (Re.match_ false FieldComment_PAT_MATCH line) = false
         /\ c = StandardComment line).
Proof.
  intros H. apply identify_note_or_comment_inv in H as [(s & Hs) | (_ & _ & H)];
    [discriminate|].
  unfold identify_note_or_comment in H.
  destruct (first_match NoteFormStatement_all_statement_types line) as [r|].
  { destruct r; cbn [bind] in H; discriminate. }
  unfold BaseComment_all_statement_types, identify_comment, FieldComment_validate,
    StandardComment_validate, StandardComment_from_string, StandardComment_init,
    StandardComment_validate in H.
  destruct (BaseComment_validate line) as [[]|e] eqn:Hb; cbn [bind andb negb] in H;
    try discriminate.
  split; [reflexivity|].
  destruct (is_some (Re.match_ false FieldComment_PAT_MATCH line)) eqn:Hm.
  - left. split; [reflexivity|].
    destruct (FieldComment_from_string line) as [c0|e]; cbn [bind] in H; [|discriminate].
    injection H as <-. reflexivity.
  - right. split; [reflexivity|]. injection H as <-. reflexivity.
Qed.

(** X15. What the kind of a classified line says about the line.  A note
    starts with M2 in either letter case.  A field comment starts with an
    asterisk, and its field has no colon.  Every comment passes the generic
    validator, and a standard comment is the line itself, so it prints back
    to the line it was read from. *)
Theorem identify_line_kinds {X : Externals} (line : string) :
  (forall n, Event__identify_line line = Ok (IsNote n) ->
     exists c r, line = String c (String "2" r) /\ (c = "M"%char \/ c = "m"%char))
  /\ (forall f v, Event__identify_line line = Ok (IsComment (FieldComment f v)) ->
        (exists r, line = String "*" r) /\ Py.existsb_s (is_ch ":") f = false)
  /\ (forall c, Event__identify_line line = Ok (IsComment c) ->
        BaseComment_validate line = Ok true)
  /\ (forall c, Event__identify_line line = Ok (IsComment (StandardComment c)) ->
        c = line /\ BaseComment_str (StandardComment c) = line).
Proof.
  split; [|split; [|split]].
  - intros n H. apply identify_note_or_comment_inv in H as [(s & Hs) | (_ & _ & H)];
      [discriminate|].
    unfold identify_note_or_comment in H.
    destruct (first_match NoteFormStatement_all_statement_types line) as [r|] eqn:Hfm.
    + destruct (first_match_inv _ _ _ Hfm) as (pat & parse & m & Hin & Hm & _).
      destruct Hin as [Hin | []]. injection Hin as <- _.
      apply (note_pattern_start _ _ Hm).
    + exfalso. revert H. generalize BaseComment_all_statement_types. intros types.
      induction types as [|[v f] types IH]; cbn [identify_comment]; [discriminate|].
      destruct (v line) as [[]|e]; cbn [bind]; [|exact IH|discriminate].
      destruct (f line); cbn [bind]; discriminate.
  - intros f v H. destruct (identify_comment_inv _ _ H) as (_ & [(Hm & Hf) | (_ & Hc)]);
      [|discriminate].
    split; [apply field_pattern_start, Hm|].
    unfold FieldComment_from_string in Hf.
    destruct (Py.split1 ":" (Py.drop 1 line)) as [|p0 [|p1 rest]] eqn:E; try discriminate.
    injection Hf as <- <-. destruct (split1_inv _ _ _ _ _ E) as (_ & Hp0 & _).
    apply existsb_s_strip, Hp0.
  - intros c H. apply (identify_comment_inv _ _ H).
  - intros c H. destruct (identify_comment_inv _ _ H) as (_ & [(_ & Hf) | (_ & Hc)]).
    + unfold FieldComment_from_string in Hf.
      destruct (Py.split1 ":" (Py.drop 1 line)) as [|p0 [|p1 rest]]; discriminate.
    + injection Hc as ->. auto.
Qed.

Lemma identify_line_kinds_witness :
  BaseComment_validate "SECOND PASS NOTES" = Ok true.
Proof.
  apply (proj1 (proj2 (proj2 (identify_line_kinds (X:=Reference.externals) "SECOND PASS NOTES")))
           (StandardComment "SECOND PASS NOTES")).
  reflexivity.
Defined.

(** ** sfm.py: the first column of a printed statement *)

Lemma digits_val_zeros k : Py.digits_val 0 (Py.replicate k "0") = 0%Z.
Proof. induction k as [|k IH]; [reflexivity | exact IH]. Qed.

Lemma forallb_replicate_zero k : Py.forallb_s Py.isdecimal (Py.replicate k "0") = true.
Proof. induction k as [|k IH]; [reflexivity | exact IH]. Qed.

Lemma isdecimal_not_sign c :
  Py.isdecimal c = true -> Ascii.eqb c "+" || Ascii.eqb c "-" = false.
Proof. by_cases_on_char c. Qed.

(** [zfill] on a decimal numeral: zeros in front, the same number. *)
Lemma zfill_decimal w s :
  s <> "" -> Py.forallb_s Py.isdecimal s = true ->
  Py.zfill w s <> "" /\ Py.forallb_s Py.isdecimal (Py.zfill w s) = true
  /\ Py.digits_val 0 (Py.zfill w s) = Py.digits_val 0 s.
Proof.
  intros Hne Hall. destruct s as [|c s]; [congruence|]. unfold Py.zfill.
  assert (Hc : Py.isdecimal c = true).
  { cbn [Py.forallb_s] in Hall. apply andb_true_iff in Hall as [Hc _]. exact Hc. }
  rewrite (isdecimal_not_sign _ Hc).
  split; [|split].
  - destruct (Py.replicate _ _); discriminate.
  - rewrite forallb_s_app, forallb_replicate_zero, Hall. reflexivity.
  - rewrite digits_val_app, digits_val_zeros. reflexivity.
Qed.

Lemma StandardFormStatement_str_head {X : Externals} (s : StandardFormStatement) :
  exists rest,
    StandardFormStatement_str s
    = (Py.zfill 3 (Py.str_int (match _event_number s with Some n => n | None => 1%Z end))
       ++ String " " rest)%string.
Proof.
  unfold StandardFormStatement_str, str_head.
  destruct (_class s); rewrite !string_app_assoc; cbn [String.append]; eexists; reflexivity.
Qed.

(** X16. The line a statement prints to starts with the event number as a
    token of its own: for a statement whose numbers [str] prints and whose
    event number is not negative (a statement without one prints 1), the
    first token of the line is a decimal numeral that reads as that number.
    This is the number [from_file] tracks when it reads the line back. *)
Theorem StandardFormStatement_str_first_token {X : Externals}
    (s : StandardFormStatement) (n : Z) :
  n = match _event_number s with Some k => k | None => 1%Z end ->
  (0 <= n)%Z ->
  StandardFormStatement_printable s = true ->
  exists tok, Py.first_token (StandardFormStatement_str s) = Ok tok
              /\ Py.forallb_s Py.isdecimal tok = true
              /\ Py.int tok = Ok n.
Proof.
  intros Hn Hpos _. destruct (StandardFormStatement_str_head s) as (rest & ->).
  rewrite <- Hn.
  destruct (str_int_spec n Hpos) as (Hne & Hall & Hval).
  destruct (zfill_decimal 3 _ Hne Hall) as (Hz1 & Hz2 & Hz3).
  exists (Py.zfill 3 (Py.str_int n)).
  rewrite (first_token_digits _ _ _ Hz1 Hz2) by reflexivity.
  rewrite (int_of_decimal _ Hz1 Hz2), Hz3, Hval. auto.
Qed.

Lemma StandardFormStatement_str_first_token_witness :
  exists tok,
    Py.first_token
      (StandardFormStatement_str
         (mkSFS (X:=Reference.externals) (TapeSource "TAPE001") [mkTrack VIDEO 1]
            (86400%Z, 86520%Z) (86640%Z, 86760%Z) (Some 7%Z) CutStatement)) = Ok tok
    /\ Py.forallb_s Py.isdecimal tok = true /\ Py.int tok = Ok 7%Z.
Proof.
  apply (StandardFormStatement_str_first_token (X:=Reference.externals)
           (mkSFS (X:=Reference.externals) (TapeSource "TAPE001") [mkTrack VIDEO 1]
              (86400%Z, 86520%Z) (86640%Z, 86760%Z) (Some 7%Z) CutStatement) 7%Z);
    [reflexivity | lia | reflexivity].
Defined.

(** ** Sets of tracks and of sources *)

Section SetOf.
Context {A : Type} (f : A -> string).

Let eqb (a b : A) : bool := String.eqb (f a) (f b).

Lemma existsb_eqb_In x s : existsb (eqb x) s = true <-> In (f x) (map f s).
Proof.
  unfold eqb. rewrite existsb_exists, in_map_iff. split.
  - intros (y & Hy & E). apply String.eqb_eq in E. exists y. auto.
  - intros (y & E & Hy). exists y. split; [exact Hy|]. apply String.eqb_eq. auto.
Qed.

Lemma set_fold_spec l : forall acc,
  NoDup (map f acc) ->
  NoDup (map f (fold_left (fun s x => set_add eqb x s) l acc))
  /\ (forall k, In k (map f (fold_left (fun s x => set_add eqb x s) l acc))
                <-> In k (map f acc) \/ In k (map f l))
  /\ incl (fold_left (fun s x => set_add eqb x s) l acc) (acc ++ l).
Proof.
  induction l as [|x l IH]; intros acc Hacc; cbn [fold_left map].
  - split; [exact Hacc|]. split; [intros k; cbn; tauto|]. rewrite app_nil_r. apply incl_refl.
  - unfold set_add at 2 4 6. destruct (existsb (eqb x) acc) eqn:Hx.
    + destruct (IH acc Hacc) as (H1 & H2 & H3). split; [exact H1|]. split.
      * intros k. rewrite H2. apply existsb_eqb_In in Hx. cbn [In].
        split; [tauto|]. intros [H | [<- | H]]; auto.
      * intros y Hy. apply H3 in Hy. apply in_app_or in Hy as [Hy | Hy];
          apply in_or_app; [left | right; right]; exact Hy.
    + assert (Hnew : NoDup (map f (acc ++ [x]))).
      { rewrite map_app. cbn [map]. apply NoDup_app; [exact Hacc | repeat constructor; auto |].
        intros k Hk [<- | []]. apply existsb_eqb_In in Hk. congruence. }
      destruct (IH _ Hnew) as (H1 & H2 & H3). split; [exact H1|]. split.
      * intros k. rewrite H2, map_app, in_app_iff. cbn [map In]. tauto.
      * intros y Hy. apply H3 in Hy. rewrite <- app_assoc in Hy. exact Hy.
Qed.

(** The set of a list, members compared by [f]: no two members agree on
    [f], the members are taken from the list, and every value of [f] on the
    list is the value on a member. *)
Lemma set_of_spec l :
  NoDup (map f (set_of eqb l))
  /\ (forall k, In k (map f (set_of eqb l)) <-> In k (map f l))
  /\ incl (set_of eqb l) l.
Proof.
  destruct (set_fold_spec l [] (NoDup_nil _)) as (H1 & H2 & H3).
  split; [exact H1|]. split; [|exact H3].
  intros k. rewrite (H2 k). cbn. tauto.
Qed.

End SetOf.

(** X17. The tracks and the sources of an event are sets by name: no name
    occurs twice, the names of the tracks are exactly the names of the tracks
    of the statements, the names of the sources are exactly the names of the
    reels of the statements, and [uses_source] holds exactly for the sources
    whose name is the name of the reel of a statement. *)
Theorem Event_tracks_sources {X : Externals} (ev : Event) :
  NoDup (map Track_name (Event_tracks ev))
  /\ (forall name, In name (map Track_name (Event_tracks ev))
                   <-> exists s t, In s (_sfs ev) /\ In t (_tracks s) /\ Track_name t = name)
  /\ NoDup (map SourceReel_name (Event_sources ev))
  /\ (forall name, In name (map SourceReel_name (Event_sources ev))
                   <-> exists s, In s (_sfs ev) /\ reel_name s = name)
  /\ (forall src, Event_uses_source ev src = true
                  <-> exists s, In s (_sfs ev) /\ reel_name s = SourceReel_name src).
Proof.
  destruct (set_of_spec Track_name (flat_map _tracks (_sfs ev))) as (T1 & T2 & _).
  destruct (set_of_spec SourceReel_name (map _reel (_sfs ev))) as (S1 & S2 & _).
  assert (Hsrc : forall name, In name (map SourceReel_name (Event_sources ev))
                              <-> exists s, In s (_sfs ev) /\ reel_name s = name).
  { intros name. unfold Event_sources. rewrite (S2 name), map_map, in_map_iff.
    unfold reel_name. split; intros (s & H1 & H2); exists s; auto. }
  split; [exact T1|]. split; [|split; [exact S1|split; [exact Hsrc|]]].
  - intros name. unfold Event_tracks. rewrite (T2 name), in_map_iff. split.
    + intros (t & <- & Ht). apply in_flat_map in Ht as (s & Hs & Ht). eauto.
    + intros (s & t & Hs & Ht & <-). exists t. split; [reflexivity|].
      apply in_flat_map. eauto.
  - intros src. unfold Event_uses_source.
    rewrite (existsb_eqb_In SourceReel_name src (Event_sources ev)). apply Hsrc.
Qed.

(** X18. The tracks and the sources of an Edl are the unions, by name, of
    those of its events, and no name occurs twice. *)
Theorem Edl_tracks_sources {X : Externals} (e : Edl) :
  NoDup (map Track_name (Edl_tracks e))
  /\ (forall name, In name (map Track_name (Edl_tracks e))
                   <-> exists ev, In ev (_events e)
                                  /\ In name (map Track_name (Event_tracks ev)))
  /\ NoDup (map SourceReel_name (Edl_sources e))
  /\ (forall name, In name (map SourceReel_name (Edl_sources e))
                   <-> exists ev, In ev (_events e)
                                  /\ In name (map SourceReel_name (Event_sources ev))).
Proof.
  destruct (set_of_spec Track_name (flat_map Event_tracks (_events e))) as (T1 & T2 & _).
  destruct (set_of_spec SourceReel_name (flat_map Event_sources (_events e))) as (S1 & S2 & _).
  split; [exact T1|]. split; [|split; [exact S1|]].
  - intros name. unfold Edl_tracks. rewrite (T2 name), in_map_iff. split.
    + intros (t & <- & Ht). apply in_flat_map in Ht as (ev & Hev & Ht).
      exists ev. split; [exact Hev|]. apply in_map, Ht.
    + intros (ev & Hev & Hn). apply in_map_iff in Hn as (t & <- & Ht).
      exists t. split; [reflexivity|]. apply in_flat_map. eauto.
  - intros name. unfold Edl_sources. rewrite (S2 name), in_map_iff. split.
    + intros (t & <- & Ht). apply in_flat_map in Ht as (ev & Hev & Ht).
      exists ev. split; [exact Hev|]. apply in_map, Ht.
    + intros (ev & Hev & Hn). apply in_map_iff in Hn as (t & <- & Ht).
      exists t. split; [reflexivity|]. apply in_flat_map. eauto.
Qed.

(** ** events.py: the extents of an event *)

Section Extents.
Context {X : Externals}.
Hypothesis ltb_irrefl : forall a, Timecode_ltb a a = false.
Hypothesis ltb_trans :
  forall a b c, Timecode_ltb a b = true -> Timecode_ltb b c = true -> Timecode_ltb a c = true.

Lemma fold_min_spec l : forall best seen,
  (forall x, In x seen -> Timecode_ltb x best = false) ->
  let r := fold_left (fun best item => if Timecode_ltb item best then item else best) l best in
  In r (best :: l) /\ forall x, In x (seen ++ l) -> Timecode_ltb x r = false.
Proof.
  induction l as [|item l IH]; intros best seen Hseen; cbn [fold_left].
  - split; [left; reflexivity|]. intros x Hx. rewrite app_nil_r in Hx. auto.
  - destruct (Timecode_ltb item best) eqn:Hlt.
    + destruct (IH item (seen ++ [item])) as (H1 & H2).
      { intros x Hx. apply in_app_or in Hx as [Hx | [<- | []]]; [|apply ltb_irrefl].
        destruct (Timecode_ltb x item) eqn:Hxi; [|reflexivity].
        rewrite <- (Hseen x Hx). symmetry. apply (ltb_trans _ _ _ Hxi Hlt). }
      split; [right; exact H1|]. intros x Hx. apply H2. rewrite <- app_assoc. exact Hx.
    + destruct (IH best (seen ++ [item])) as (H1 & H2).
      { intros x Hx. apply in_app_or in Hx as [Hx | [<- | []]]; auto. }
      split; [destruct H1 as [H1 | H1]; [left | right; right]; exact H1|].
      intros x Hx. apply H2. rewrite <- app_assoc. exact Hx.
Qed.

Lemma fold_max_spec l : forall best seen,
  (forall x, In x seen -> Timecode_ltb best x = false) ->
  let r := fold_left (fun best item => if Timecode_ltb best item then item else best) l best in
  In r (best :: l) /\ forall x, In x (seen ++ l) -> Timecode_ltb r x = false.
Proof.
  induction l as [|item l IH]; intros best seen Hseen; cbn [fold_left].
  - split; [left; reflexivity|]. intros x Hx. rewrite app_nil_r in Hx. auto.
  - destruct (Timecode_ltb best item) eqn:Hlt.
    + destruct (IH item (seen ++ [item])) as (H1 & H2).
      { intros x Hx. apply in_app_or in Hx as [Hx | [<- | []]]; [|apply ltb_irrefl].
        destruct (Timecode_ltb item x) eqn:Hxi; [|reflexivity].
        rewrite <- (Hseen x Hx). symmetry. apply (ltb_trans _ _ _ Hlt Hxi). }
      split; [right; exact H1|]. intros x Hx. apply H2. rewrite <- app_assoc. exact Hx.
    + destruct (IH best (seen ++ [item])) as (H1 & H2).
      { intros x Hx. apply in_app_or in Hx as [Hx | [<- | []]]; auto. }
      split; [destruct H1 as [H1 | H1]; [left | right; right]; exact H1|].
      intros x Hx. apply H2. rewrite <- app_assoc. exact Hx.
Qed.

(** X19. When the order of timecodes is irreflexive and transitive, the
    extents of an event with at least one statement are the range from a
    record start that no record start is before to a record end that no
    record end is after, and the duration is the duration of that range. *)
Theorem Event_timecode_extents_spec (ev : Event) :
  _sfs ev <> [] ->
  exists a b,
    Event_timecode_extents ev = TimecodeRange_init a b
    /\ Event_duration ev = (r <- TimecodeRange_init a b ;; Ok (TimecodeRange_duration r))
    /\ (exists s, In s (_sfs ev) /\ TimecodeRange_start (_timecode_record s) = a)
    /\ (exists s, In s (_sfs ev) /\ TimecodeRange_end (_timecode_record s) = b)
    /\ (forall s, In s (_sfs ev) ->
          Timecode_ltb (TimecodeRange_start (_timecode_record s)) a = false)
    /\ (forall s, In s (_sfs ev) ->
          Timecode_ltb b (TimecodeRange_end (_timecode_record s)) = false).
Proof.
  intros Hne. unfold Event_duration, Event_timecode_extents.
  destruct (_sfs ev) as [|s0 sfs]; [congruence|]. cbn [map py_min py_max bind].
  set (starts := map (fun s => TimecodeRange_start (_timecode_record s)) sfs).
  set (ends := map (fun s => TimecodeRange_end (_timecode_record s)) sfs).
  destruct (fold_min_spec starts (TimecodeRange_start (_timecode_record s0))
              [TimecodeRange_start (_timecode_record s0)]) as (A1 & A2).
  { intros x [<- | []]. apply ltb_irrefl. }
  destruct (fold_max_spec ends (TimecodeRange_end (_timecode_record s0))
              [TimecodeRange_end (_timecode_record s0)]) as (B1 & B2).
  { intros x [<- | []]. apply ltb_irrefl. }
  cbv zeta in A1, A2, B1, B2.
  eexists. eexists. split; [reflexivity|]. split; [reflexivity|].
  split; [|split; [|split]].
  - change (In (fold_left (fun best item => if Timecode_ltb item best then item else best)
                  starts (TimecodeRange_start (_timecode_record s0)))
               (map (fun s => TimecodeRange_start (_timecode_record s)) (s0 :: sfs))) in A1.
    apply in_map_iff in A1 as (s & Hs & Hin). eauto.
  - change (In (fold_left (fun best item => if Timecode_ltb best item then item else best)
                  ends (TimecodeRange_end (_timecode_record s0)))
               (map (fun s => TimecodeRange_end (_timecode_record s)) (s0 :: sfs))) in B1.
    apply in_map_iff in B1 as (s & Hs & Hin). eauto.
  - intros s Hs. apply A2.
    change (In (TimecodeRange_start (_timecode_record s))
               (map (fun s => TimecodeRange_start (_timecode_record s)) (s0 :: sfs))).
    apply (in_map (fun s => TimecodeRange_start (_timecode_record s))), Hs.
  - intros s Hs. apply B2.
    change (In (TimecodeRange_end (_timecode_record s))
               (map (fun s => TimecodeRange_end (_timecode_record s)) (s0 :: sfs))).
    apply (in_map (fun s => TimecodeRange_end (_timecode_record s))), Hs.
Qed.

End Extents.

Lemma Event_timecode_extents_spec_witness :
  exists a b : Z,
    Event_timecode_extents (X:=Reference.externals)
      (mkEvent
         [ mkSFS (X:=Reference.externals) (TapeSource "TAPE001") [mkTrack VIDEO 1]
             (86400%Z, 86520%Z) (86640%Z, 86760%Z) (Some 1%Z) CutStatement ]
         [] NON_DROP_FRAME [])
    = Reference.range_init a b.
Proof.
  destruct (Event_timecode_extents_spec (X:=Reference.externals)
              Z.ltb_irrefl
              (fun a b c H1 H2 =>
                 proj2 (Z.ltb_lt a c)
                   (Z.lt_trans a b c (proj1 (Z.ltb_lt a b) H1) (proj1 (Z.ltb_lt b c) H2)))
              (mkEvent
                 [ mkSFS (X:=Reference.externals) (TapeSource "TAPE001") [mkTrack VIDEO 1]
                     (86400%Z, 86520%Z) (86640%Z, 86760%Z) (Some 1%Z) CutStatement ]
                 [] NON_DROP_FRAME [])
              ltac:(discriminate)) as (a & b & H & _).
  exists a, b. exact H.
Defined.

(** ** edl.py: the header decides the title and the mode *)

(** What [from_file] returns has the title of the first line and the mode of
    the second line when that is an FCM line, PAL otherwise, whatever the
    body holds. *)
Lemma from_file_header_inv {X : Externals} text e :
  Edl_from_file text = Ok e ->
  exists title,
    Edl__parse_title_from_line (nth 0 (readlines text) "") = Ok title
    /\ _title e = Py.strip title
    /\ (if Py.startswith (Py.upper (nth 1 (readlines text) "")) "FCM:"
        then Edl__parse_fcm_from_line (nth 1 (readlines text) "") = Ok (edl_fcm e)
        else edl_fcm e = PAL).
Proof.
  unfold Edl_from_file. intros H.
  destruct (Edl__parse_title_from_line _) as [title|err]; [|discriminate].
  cbn [bind] in H. exists title. split; [reflexivity|].
  destruct (Py.startswith _ "FCM:").
  - destruct (Edl__parse_fcm_from_line _) as [fcm|err]; [|discriminate]. cbn [bind] in H.
    repeat match type of H with
           | bind ?a _ = Ok _ => destruct a; [|discriminate]; cbn [bind] in H
           end.
    destruct (Edl_init_inv _ _ _ _ H) as (-> & _). auto.
  - cbn [bind] in H.
    repeat match type of H with
           | bind ?a _ = Ok _ => destruct a; [|discriminate]; cbn [bind] in H
           end.
    destruct (Edl_init_inv _ _ _ _ H) as (-> & _). auto.
Qed.

Lemma readlines_go_starts s : forall c cur,
  exists r ls, readlines_go (String c cur) s = String c r :: ls.
Proof.
  induction s as [|d s IH]; intros c cur; cbn [readlines_go].
  - eauto.
  - destruct (Ascii.eqb d Py.LF); cbn [String.append]; [eauto | apply IH].
Qed.

Lemma readlines_first_char c r :
  Ascii.eqb c Py.LF = false -> exists r' ls, readlines (String c r) = String c r' :: ls.
Proof.
  intros H. unfold readlines. cbn [readlines_go]. rewrite H. cbn [String.append].
  apply readlines_go_starts.
Qed.

Lemma decimal_not_LF c : Py.isdecimal c = true -> Ascii.eqb c Py.LF = false.
Proof. by_cases_on_char c. Qed.

Lemma decimal_not_FCM c r :
  Py.isdecimal c = true -> Py.startswith (Py.upper (String c r)) "FCM:" = false.
Proof.
  intros H. cbn [Py.upper Py.smap Py.startswith].
  replace (Ascii.eqb "F" (Py.upper_ch c)) with false; [reflexivity|].
  revert H. by_cases_on_char c.
Qed.

Lemma join_starts sep c r l : exists r', Py.join sep (String c r :: l) = String c r'.
Proof. destruct l; cbn [Py.join String.append]; eauto. Qed.

Lemma StandardFormStatement_str_starts {X : Externals} (s : StandardFormStatement) :
  (forall n, _event_number s = Some n -> (0 <= n)%Z) ->
  exists c r, StandardFormStatement_str s = String c r /\ Py.isdecimal c = true.
Proof.
  intros Hn. destruct (StandardFormStatement_str_head s) as (rest & ->).
  assert (Hpos : (0 <= match _event_number s with Some n => n | None => 1 end)%Z).
  { destruct (_event_number s) as [n|]; [apply Hn; reflexivity | lia]. }
  destruct (str_int_spec _ Hpos) as (Hne & Hall & _).
  destruct (zfill_decimal 3 _ Hne Hall) as (Hz1 & Hz2 & _).
  destruct (Py.zfill 3 _) as [|c z]; [congruence|].
  cbn [Py.forallb_s] in Hz2. apply andb_true_iff in Hz2 as [Hc _].
  cbn [String.append]. eauto.
Qed.

Lemma Event_str_starts {X : Externals} (ev : Event) :
  _sfs ev <> [] ->
  Forall (fun s => forall n, _event_number s = Some n -> (0 <= n)%Z) (_sfs ev) ->
  exists c r, Event_str ev = String c r /\ Py.isdecimal c = true.
Proof.
  intros Hne Hall. unfold Event_str.
  destruct (_sfs ev) as [|s sfs]; [congruence|]. cbn [map].
  apply Forall_inv in Hall.
  destruct (StandardFormStatement_str_starts s Hall) as (c & r & -> & Hc).
  destruct (join_starts (String Py.LF "") c r (map StandardFormStatement_str sfs)) as (r' & ->).
  destruct (join_starts (String Py.LF "") c r'
              [Py.join (String Py.LF "") (map NoteFormStatement_str (_nfs ev));
               Py.join (String Py.LF "") (map BaseComment_str (_comments ev))]) as (r'' & ->).
  eauto.
Qed.

(** The text of an Edl: the title line, the FCM line unless the mode is PAL,
    and the events, each followed by a newline. *)
Lemma Edl_str_shape {X : Externals} (e : Edl) :
  Edl_str e
  = (("TITLE: " ++ _title e)
     ++ String Py.LF
          (match edl_fcm e with
           | PAL => ""
           | f => ("FCM: " ++ Fcm_value f) ++ String Py.LF ""
           end
           ++ String.concat "" (map (fun ev => Event_str ev ++ String Py.LF "") (_events e))))%string.
Proof.
  unfold Edl_str, Edl_header.
  destruct (edl_fcm e); cbn [Fcm_eqb negb Fcm_value]; rewrite ?string_app_assoc;
    cbn [String.append]; rewrite ?string_app_assoc; reflexivity.
Qed.

Lemma concat_starts c r l :
  exists r', String.concat "" (String c r :: l) = String c r'.
Proof. destruct l; cbn [String.concat String.append]; eauto. Qed.

Lemma from_file_first_statement {X : Externals} (text : string) (e : Edl) :
  Edl_from_file text = Ok e ->
  Forall (fun ev => _sfs ev <> []
                    /\ Forall (fun s => forall n, _event_number s = Some n -> (0 <= n)%Z)
                         (_sfs ev)) (_events e)
  /\ Py.strip (_title e) = _title e /\ _title e <> ""
  /\ Py.existsb_s Py.islinebreak (_title e) = false.
Proof.
  intros H. apply (from_file_events _ text e); [|exact H].
  intros t ev Hev. split; [apply (Event_from_string_nonempty t ev Hev)|].
  unfold Event_from_string in Hev.
  refine (proj1 (proj2 (proj2 (from_string_loop_inv _ (Py.splitlines t) _ [] [] [] ev Hev
                                  (Forall_nil _))))).
  intros line s _ Hid k Hk.
  destruct (identify_standard_number_track line s Hid) as ((n & Hn & Hpos) & _).
  rewrite Hn in Hk. injection Hk as <-. exact Hpos.
Qed.

(** X20. Writing a parsed document and reading the text back, when it
    succeeds, gives a document with the same title and the same frame
    counting mode: the title line reads back as the title, the FCM line as
    the mode, and in PAL mode the line after the title is the first
    statement of the first event, which starts with a digit and is not taken
    for an FCM line. *)
Theorem from_file_str_title_fcm {X : Externals} (text : string) (D D' : Edl) :
  Edl_from_file text = Ok D ->
  Edl_from_file (Edl_str D) = Ok D' ->
  _title D' = _title D /\ edl_fcm D' = edl_fcm D.
Proof.
  intros HD HD'.
  destruct (from_file_first_statement _ _ HD) as (Hev & Hs & Hne & Hbr).
  destruct (from_file_header_inv _ _ HD') as (title & Ht & Htitle & Hfcm).
  rewrite Edl_str_shape in Ht, Hfcm.
  rewrite readlines_title_line in Ht, Hfcm by exact Hbr.
  cbn [nth] in Ht, Hfcm.
  rewrite parse_title_of_header in Ht by assumption. injection Ht as <-.
  split; [rewrite Htitle; exact Hs|].
  destruct (edl_fcm D) eqn:Hmode.
  - lazy iota beta in Hfcm. rewrite string_app_assoc in Hfcm. unfold readlines in Hfcm.
    change (String Py.LF "" ++ String.concat "" ?l)%string
      with (String Py.LF (String.concat "" l)) in Hfcm.
    rewrite readlines_go_line in Hfcm by reflexivity.
    cbn [nth] in Hfcm.
    replace (Py.startswith _ "FCM:") with true in Hfcm by (vm_compute; reflexivity).
    replace (Edl__parse_fcm_from_line _) with (Ok NON_DROP_FRAME) in Hfcm
      by (vm_compute; reflexivity).
    injection Hfcm as <-. reflexivity.
  - lazy iota beta in Hfcm. rewrite string_app_assoc in Hfcm. unfold readlines in Hfcm.
    change (String Py.LF "" ++ String.concat "" ?l)%string
      with (String Py.LF (String.concat "" l)) in Hfcm.
    rewrite readlines_go_line in Hfcm by reflexivity.
    cbn [nth] in Hfcm.
    replace (Py.startswith _ "FCM:") with true in Hfcm by (vm_compute; reflexivity).
    replace (Edl__parse_fcm_from_line _) with (Ok DROP_FRAME) in Hfcm
      by (vm_compute; reflexivity).
    injection Hfcm as <-. reflexivity.
  - lazy iota beta in Hfcm. cbn [String.append] in Hfcm.
    destruct (_events D) as [|ev evs]; cbn [map] in Hfcm.
    + cbn in Hfcm. exact Hfcm.
    + apply Forall_inv in Hev. destruct Hev as [Hsfs Hst].
      destruct (Event_str_starts ev Hsfs Hst) as (c & r & Estr & Hc).
      rewrite Estr in Hfcm. cbn [String.append] in Hfcm.
      destruct (concat_starts c (r ++ String Py.LF "")
                  (map (fun ev0 => (Event_str ev0 ++ String Py.LF "")%string) evs)) as (r' & E).
      rewrite E in Hfcm.
      destruct (readlines_first_char c r' (decimal_not_LF _ Hc)) as (r'' & ls & E').
      rewrite E' in Hfcm. cbn [nth] in Hfcm.
      rewrite (decimal_not_FCM _ _ Hc) in Hfcm. exact Hfcm.
Qed.

Lemma from_file_str_title_fcm_witness :
  _title (mkEdl (X:=Reference.externals) "TEST EDL" PAL
            [ mkEvent
                [ mkSFS (X:=Reference.externals) (TapeSource "TAPE001") [mkTrack VIDEO 1]
                    (86400%Z, 86520%Z) (86640%Z, 86760%Z) (Some 1%Z) CutStatement ]
                [] NON_DROP_FRAME [] ]) = "TEST EDL"
  /\ PAL = PAL.
Proof.
  apply (from_file_str_title_fcm (X:=Reference.externals) doc_test_edl
           (mkEdl "TEST EDL" PAL
              [ mkEvent
                  [ mkSFS (X:=Reference.externals) (TapeSource "TAPE001") [mkTrack VIDEO 1]
                      (86400%Z, 86520%Z) (86640%Z, 86760%Z) (Some 1%Z) CutStatement ]
                  [] NON_DROP_FRAME [] ])
           (mkEdl "TEST EDL" PAL
              [ mkEvent
                  [ mkSFS (X:=Reference.externals) (TapeSource "TAPE001") [mkTrack VIDEO 1]
                      (86400%Z, 86520%Z) (86640%Z, 86760%Z) (Some 1%Z) CutStatement ]
                  [] NON_DROP_FRAME [] ])); reflexivity.
Defined.

(** ** sources.py: the name of a parsed source *)

Lemma SourceReel_from_string_inv (tok : string) (r : SourceReel) :
  SourceReel_from_string tok = Ok r ->
  SourceReel_name r <> ""
  /\ Py.existsb_s Py.isspace (SourceReel_name r) = false
  /\ (SourceReel_name r = tok \/ SourceReel_name r = Py.upper tok).
Proof.
  intros H. unfold SourceReel_from_string in H.
  destruct (BlackSource_validate tok) eqn:HB.
  { injection H as <-. apply String.eqb_eq in HB. rewrite HB.
    repeat split; auto. discriminate. }
  destruct (AuxSource_validate tok) eqn:HA.
  { injection H as <-. apply String.eqb_eq in HA. rewrite HA.
    repeat split; auto. discriminate. }
  destruct (TapeSource_validate tok) eqn:HT; [|discriminate].
  unfold TapeSource_init in H. rewrite HT in H. injection H as <-.
  apply validate_Tape_iff in HT as [Hne Hsp]. cbn [SourceReel_name].
  repeat split; auto.
Qed.

(** X21. The source that [SourceReel.from_string] returns has a name that is
    not empty and holds no whitespace; the name is the given text, or its
    upper case for the black and the auxiliary source; and the name reads
    back as the same source. *)
Theorem SourceReel_from_string_name (tok : string) (r : SourceReel) :
  SourceReel_from_string tok = Ok r ->
  SourceReel_name r <> ""
  /\ Py.existsb_s Py.isspace (SourceReel_name r) = false
  /\ (SourceReel_name r = tok \/ SourceReel_name r = Py.upper tok)
  /\ SourceReel_from_string (SourceReel_name r) = Ok r.
Proof.
  intros H. pose proof H as H0. unfold SourceReel_from_string in H.
  destruct (BlackSource_validate tok) eqn:HB.
  { injection H as <-. apply String.eqb_eq in HB. rewrite HB.
    repeat split; auto. discriminate. }
  destruct (AuxSource_validate tok) eqn:HA.
  { injection H as <-. apply String.eqb_eq in HA. rewrite HA.
    repeat split; auto. discriminate. }
  destruct (TapeSource_validate tok) eqn:HT; [|discriminate].
  unfold TapeSource_init in H. rewrite HT in H. injection H as <-.
  apply validate_Tape_iff in HT as [Hne Hsp]. cbn [SourceReel_name].
  repeat split; auto.
Qed.

Lemma SourceReel_from_string_name_witness :
  SourceReel_from_string (SourceReel_name BlackSource) = Ok BlackSource.
Proof.
  apply (SourceReel_from_string_name "bl" BlackSource). reflexivity.
Defined.

(** X22. The reel names of an event are a set, and they are exactly the
    names of its sources. *)
Theorem Event_reel_names_sources {X : Externals} (ev : Event) :
  NoDup (Event_reel_names ev)
  /\ forall name, In name (Event_reel_names ev)
                  <-> In name (map SourceReel_name (Event_sources ev)).
Proof.
  destruct (set_of_spec (fun n : string => n) (map reel_name (_sfs ev))) as (N1 & N2 & _).
  destruct (set_of_spec SourceReel_name (map _reel (_sfs ev))) as (_ & S2 & _).
  rewrite map_id in N1. split; [exact N1|].
  intros name. specialize (N2 name). rewrite !map_id in N2.
  unfold Event_reel_names, Event_sources. rewrite N2, (S2 name), map_map. reflexivity.
Qed.

(** ** The first match of a pattern *)

Lemma hd_app {A} (l l' : list A) x : hd_error l = Some x -> hd_error (l ++ l') = Some x.
Proof. destruct l; [discriminate | intros H; exact H]. Qed.

Lemma first_seq i a b s g x y :
  hd_error (Re.run i a s g) = Some x ->
  hd_error (Re.run i b (fst x) (snd x)) = Some y ->
  hd_error (Re.run i (Re.Seq a b) s g) = Some y.
Proof.
  intros Ha Hb. cbn [Re.run]. destruct (Re.run i a s g) as [|x' xs]; [discriminate|].
  injection Ha as ->. cbn [flat_map]. apply hd_app, Hb.
Qed.

Lemma first_lit i c d s g :
  Re.lit_eqb i c d = true -> hd_error (Re.run i (Re.Lit c) (String d s) g) = Some (s, g).
Proof. intros H. cbn [Re.run]. rewrite H. reflexivity. Qed.

Lemma first_cls i p d s g :
  p d = true -> hd_error (Re.run i (Re.Cls p) (String d s) g) = Some (s, g).
Proof. intros H. cbn [Re.run]. rewrite H. reflexivity. Qed.

Lemma star_rests_greedy p pre rest :
  Py.forallb_s p pre = true -> starts_not p rest ->
  hd_error (Re.star_rests p (pre ++ rest)) = Some rest.
Proof.
  induction pre as [|c pre IH]; intros Hall Hrest.
  - cbn [String.append]. destruct rest as [|c r]; [reflexivity|].
    cbn [Re.star_rests]. cbn [starts_not] in Hrest. rewrite Hrest. reflexivity.
  - cbn [Py.forallb_s] in Hall. apply andb_true_iff in Hall as [Hc Hall].
    cbn [String.append Re.star_rests]. rewrite Hc. apply hd_app, IH; assumption.
Qed.

Lemma first_star i p pre rest g :
  Py.forallb_s p pre = true -> starts_not p rest ->
  hd_error (Re.run i (Re.Star p) (pre ++ rest) g) = Some (rest, g).
Proof.
  intros Hall Hrest. cbn [Re.run].
  pose proof (star_rests_greedy p pre rest Hall Hrest) as H.
  destruct (Re.star_rests p (pre ++ rest)) as [|x xs]; [discriminate|].
  injection H as ->. reflexivity.
Qed.

Lemma first_plus i p pre rest g :
  pre <> "" -> Py.forallb_s p pre = true -> starts_not p rest ->
  hd_error (Re.run i (Re.Plus p) (pre ++ rest) g) = Some (rest, g).
Proof.
  intros Hne Hall Hrest. destruct pre as [|c pre]; [congruence|].
  cbn [Py.forallb_s] in Hall. apply andb_true_iff in Hall as [Hc Hall].
  unfold Re.Plus. cbn [String.append].
  apply (first_seq i _ _ _ _ (pre ++ rest, g)%string); [apply first_cls, Hc|].
  cbn [fst snd]. apply first_star; assumption.
Qed.

Lemma first_grp i name a pre rest g g' :
  hd_error (Re.run i a (pre ++ rest) g) = Some (rest, g') ->
  hd_error (Re.run i (Re.Grp name a) (pre ++ rest) g) = Some (rest, (name, pre) :: g').
Proof.
  intros H. cbn [Re.run]. destruct (Re.run i a (pre ++ rest) g) as [|x xs]; [discriminate|].
  injection H as ->. cbn [map hd_error fst snd]. rewrite consumed_app. reflexivity.
Qed.

Lemma first_match_ i r s rest m :
  hd_error (Re.run i r s []) = Some (rest, m) -> Re.match_ i r s = Some m.
Proof. intros H. unfold Re.match_. rewrite H. reflexivity. Qed.

Lemma starts_not_app (p q : ascii -> bool) a b :
  (forall c, q c = true -> p c = false) ->
  a <> "" -> Py.forallb_s q a = true -> starts_not p (a ++ b).
Proof.
  intros Hpq Hne Hall. destruct a as [|c a]; [congruence|].
  cbn [Py.forallb_s] in Hall. apply andb_true_iff in Hall as [Hc _].
  cbn [String.append starts_not]. apply Hpq, Hc.
Qed.

Lemma isspace_not_decimal c : Py.isspace c = true -> Py.isdecimal c = false.
Proof.
  intros H. destruct (Py.isdecimal c) eqn:E; [|reflexivity].
  apply isdecimal_notspace in E. congruence.
Qed.

Lemma isspace_not_notspace c : Py.isspace c = true -> Re.notspace c = false.
Proof. intros H. unfold Re.notspace. rewrite H. reflexivity. Qed.

Lemma notspace_not_space c : Re.notspace c = true -> Py.isspace c = false.
Proof. unfold Re.notspace. destruct (Py.isspace c); [discriminate | reflexivity]. Qed.

Lemma no_space_notspace s :
  Py.existsb_s Py.isspace s = false -> Py.forallb_s Re.notspace s = true.
Proof.
  induction s as [|c s IH]; [reflexivity|]. cbn [Py.existsb_s Py.forallb_s].
  intros H. apply orb_false_iff in H as [Hc Hs]. unfold Re.notspace at 1.
  rewrite Hc, (IH Hs). reflexivity.
Qed.

(** The shape of a timecode, character by character. *)
Lemma timecode_shaped_inv t :
  timecode_shaped t = true ->
  exists a b c d e f g h,
    t = String a (String b (String ":" (String c (String d (String ":"
          (String e (String f (String ":" (String g (String h "")))))))))) 
    /\ Forall (fun x => Py.isdecimal x = true) [a; b; c; d; e; f; g; h].
Proof.
  unfold timecode_shaped.
  destruct t as [|a [|b [|p [|c [|d [|q [|e [|f [|r [|g [|h [|z t]]]]]]]]]]]];
    try discriminate.
  intros H. apply andb_true_iff in H as [Hd Hc].
  cbn [forallb] in Hd, Hc.
  repeat (apply andb_true_iff in Hd as [? Hd]).
  repeat (apply andb_true_iff in Hc as [? Hc]).
  repeat match goal with
         | H : Ascii.eqb ":" _ = true |- _ => apply Ascii.eqb_eq in H; subst
         end.
  exists a, b, c, d, e, f, g, h. split; [reflexivity|].
  repeat constructor; assumption.
Qed.

Lemma timecode_shaped_no_space t rest :
  timecode_shaped t = true -> starts_not Py.isspace (t ++ rest).
Proof.
  intros H. destruct (timecode_shaped_inv t H) as (a & b & c & d & e & f & g & h & -> & Hd).
  apply Forall_inv in Hd. cbn [String.append starts_not]. apply isdecimal_notspace, Hd.
Qed.

Lemma first_TC i t rest g :
  timecode_shaped t = true -> hd_error (Re.run i TC (t ++ rest) g) = Some (rest, g).
Proof.
  intros H. destruct (timecode_shaped_inv t H) as (a & b & c & d & e & f & g0 & h & -> & Hd).
  repeat match goal with
         | H : Forall _ (_ :: _) |- _ =>
             let H1 := fresh "D" in
             pose proof (Forall_inv H) as H1; apply Forall_inv_tail in H
         end.
  unfold TC, Re.seqs, Re.d. cbn [fold_right String.append].
  assert (Hcolon : Re.lit_eqb i ":" ":" = true) by (destruct i; reflexivity).
  repeat first
    [ eapply first_seq; [apply first_cls; assumption | cbn [fst snd]]
    | eapply first_seq; [apply first_lit; exact Hcolon | cbn [fst snd]] ].
  reflexivity.
Qed.

Lemma first_alt_l i a b s g x :
  hd_error (Re.run i a s g) = Some x -> hd_error (Re.run i (Re.Alt a b) s g) = Some x.
Proof. intros H. cbn [Re.run]. apply hd_app, H. Qed.

Lemma first_star_end i p s g :
  Py.forallb_s p s = true -> hd_error (Re.run i (Re.Star p) s g) = Some (EmptyString, g).
Proof.
  intros H. pose proof (first_star i p s "" g H I) as H1.
  rewrite string_app_nil_r in H1. exact H1.
Qed.

(** What [A\d*|B|V] takes from the name of a track. *)
Lemma first_track_type T rest g :
  T = "V" \/ (exists ds, T = String "A" ds /\ Py.forallb_s Py.isdecimal ds = true) ->
  starts_not Py.isdecimal rest ->
  hd_error (Re.run true
              (Re.Alt (Re.Seq (Re.Lit "A") (Re.Star Py.isdecimal))
                      (Re.Alt (Re.Lit "B") (Re.Lit "V")))
              (T ++ rest) g) = Some (rest, g).
Proof.
  intros [-> | (ds & -> & Hds)] Hrest.
  - reflexivity.
  - apply first_alt_l. cbn [String.append].
    apply (first_seq true _ _ _ _ (ds ++ rest, g)%string); [apply first_lit; reflexivity|].
    cbn [fst snd]. apply first_star; assumption.
Qed.

Lemma track_type_no_space T rest :
  T = "V" \/ (exists ds, T = String "A" ds /\ Py.forallb_s Py.isdecimal ds = true) ->
  starts_not Py.isspace (T ++ rest).
Proof. intros [-> | (ds & -> & _)]; reflexivity. Qed.

(** [CutStatement.PAT_EVENT] matches a line made of an event number, a reel
    name, a track, the letter C and four timecodes, with any whitespace
    between them and after them, and its groups are these fields. *)
Lemma CutStatement_PAT_EVENT_fields N w1 R w2 T w3 w4 t1 w5 t2 w6 t3 w7 t4 w8 :
  N <> "" -> Py.forallb_s Py.isdecimal N = true ->
  R <> "" -> Py.existsb_s Py.isspace R = false ->
  T = "V" \/ (exists ds, T = String "A" ds /\ Py.forallb_s Py.isdecimal ds = true) ->
  Forall (fun w => w <> "" /\ Py.forallb_s Py.isspace w = true) [w1; w2; w3; w4; w5; w6; w7] ->
  Forall (fun t => timecode_shaped t = true) [t1; t2; t3; t4] ->
  Py.forallb_s Py.isspace w8 = true ->
  Re.match_ true CutStatement_PAT_EVENT
    (N ++ w1 ++ R ++ w2 ++ T ++ w3 ++ "C" ++ w4
       ++ t1 ++ w5 ++ t2 ++ w6 ++ t3 ++ w7 ++ t4 ++ w8)
  = Some [ ("tc_rec_out", t4); ("tc_rec_in", t3); ("tc_src_out", t2); ("tc_src_in", t1);
           ("event_type", "C"); ("track_type", T); ("reel_name", R); ("event_number", N) ].
Proof.
  intros HN1 HN2 HR1 HR2 HT Hw Ht Hw8.
  repeat match goal with
         | H : Forall _ (_ :: _) |- _ =>
             let H1 := fresh "F" in
             pose proof (Forall_inv H) as H1; cbv beta in H1; apply Forall_inv_tail in H
         end.
  repeat match goal with
         | H : _ <> "" /\ _ |- _ => destruct H
         end.
  apply no_space_notspace in HR2.
  unfold CutStatement_PAT_EVENT, pat_head, pat_tail, Re.seqs, Re.ws1.
  cbn [app fold_right].
  eapply first_match_.
  eapply first_seq;
    [apply first_grp, first_plus; [assumption | assumption |];
     apply (starts_not_app _ Py.isspace); [exact isspace_not_decimal | assumption..]
    | cbn [fst snd]].
  eapply first_seq;
    [apply first_plus; [assumption | assumption |];
     apply (starts_not_app _ Re.notspace); [exact notspace_not_space | assumption..]
    | cbn [fst snd]].
  eapply first_seq;
    [apply first_grp, first_plus; [assumption | assumption |];
     apply (starts_not_app _ Py.isspace); [exact isspace_not_notspace | assumption..]
    | cbn [fst snd]].
  eapply first_seq;
    [apply first_plus; [assumption | assumption |]; apply track_type_no_space, HT
    | cbn [fst snd]].
  eapply first_seq;
    [apply first_grp, first_track_type; [exact HT |];
     apply (starts_not_app _ Py.isspace); [exact isspace_not_decimal | assumption..]
    | cbn [fst snd]].
  eapply first_seq; [apply first_plus; [assumption | assumption | reflexivity] | cbn [fst snd]].
  eapply first_seq; [apply first_grp, first_lit; reflexivity | cbn [fst snd]].
  eapply first_seq;
    [apply first_plus; [assumption | assumption |]; apply timecode_shaped_no_space; assumption
    | cbn [fst snd]].
  eapply first_seq; [apply first_grp, first_TC; assumption | cbn [fst snd]].
  eapply first_seq;
    [apply first_plus; [assumption | assumption |]; apply timecode_shaped_no_space; assumption
    | cbn [fst snd]].
  eapply first_seq; [apply first_grp, first_TC; assumption | cbn [fst snd]].
  eapply first_seq;
    [apply first_plus; [assumption | assumption |]; apply timecode_shaped_no_space; assumption
    | cbn [fst snd]].
  eapply first_seq; [apply first_grp, first_TC; assumption | cbn [fst snd]].
  eapply first_seq;
    [apply first_plus; [assumption | assumption |]; apply timecode_shaped_no_space; assumption
    | cbn [fst snd]].
  eapply first_seq; [apply first_grp, first_TC; assumption | cbn [fst snd]].
  eapply first_seq; [apply first_star_end; assumption | cbn [fst snd]].
  reflexivity.
Qed.

(** ** sfm.py: a cut statement reads back *)

Lemma app_nonempty_r (a b : string) : b <> "" -> (a ++ b)%string <> "".
Proof. intros Hb. destruct a; [exact Hb | discriminate]. Qed.

Lemma replicate_spaces k : Py.forallb_s Py.isspace (Py.replicate k " ") = true.
Proof. induction k as [|k IH]; [reflexivity | exact IH]. Qed.

Lemma Track_name_shape (t : Track) :
  (_type t = VIDEO -> (_index t <= 1)%Z) ->
  Track_name t = "V"
  \/ (exists ds, Track_name t = String "A" ds /\ Py.forallb_s Py.isdecimal ds = true).
Proof.
  destruct t as [ty idx]. unfold Track_name. cbn [_type _index]. intros Hv.
  destruct (1 <? idx)%Z eqn:Hidx.
  - apply Z.ltb_lt in Hidx. destruct ty; [specialize (Hv eq_refl); lia|].
    right. destruct (str_int_spec idx) as (_ & Hall & _); [lia|].
    exists (Py.str_int idx). split; [reflexivity | exact Hall].
  - destruct ty; [left; reflexivity | right; exists ""; split; reflexivity].
Qed.

Lemma cut_fields_groups (a b c d e f g h : string) :
  let m := [ ("tc_rec_out", a); ("tc_rec_in", b); ("tc_src_out", c); ("tc_src_in", d);
             ("event_type", e); ("track_type", f); ("reel_name", g); ("event_number", h) ] in
  Re.group m "event_number" = Some h /\ Re.group m "reel_name" = Some g
  /\ Re.group m "track_type" = Some f /\ Re.group m "tc_src_in" = Some d
  /\ Re.group m "tc_src_out" = Some c /\ Re.group m "tc_rec_in" = Some b
  /\ Re.group m "tc_rec_out" = Some a.
Proof. repeat split; reflexivity. Qed.

Lemma int_zfill w n : (0 <= n)%Z -> Py.int (Py.zfill w (Py.str_int n)) = Ok n.
Proof.
  intros Hpos. destruct (str_int_spec n Hpos) as (Hne & Hall & Hval).
  destruct (zfill_decimal w _ Hne Hall) as (Hz1 & Hz2 & Hz3).
  rewrite (int_of_decimal _ Hz1 Hz2), Hz3, Hval. reflexivity.
Qed.

(** A plain cut prints to a line that reads back as the cut. *)
Lemma plain_cut_identify {X : Externals} (n : Z) (s : StandardFormStatement) :
  plain_cut n s ->
  CutStatement_parse_from_string (StandardFormStatement_str s) = Ok s
  /\ Event__identify_line (StandardFormStatement_str s) = Ok (IsStandard s).
Proof.
  intros (Hc & Hen & Hpos & _ & Hreel & (t & Htr & Hidx & Hvid) & Hsrc & Hrec).
  destruct s as [reel tracks tsrc trec en cls].
  cbn [_class _event_number _tracks _timecode_source _timecode_record _reel] in *.
  unfold reel_name in Hreel. cbn [_reel] in Hreel. subst cls en tracks.
  destruct Hsrc as ((S1 & I1) & (S2 & I2) & R1).
  destruct Hrec as ((S3 & I3) & (S4 & I4) & R2).
  destruct (SourceReel_from_string_inv _ _ Hreel) as (HR1 & HR2 & _).
  destruct (str_int_spec n Hpos) as (Hne & Hall & _).
  destruct (zfill_decimal 3 _ Hne Hall) as (HN1 & HN2 & _).
  pose proof (int_zfill 3 n Hpos) as HintN.
  assert (HT : Track_name t = "V"
               \/ (exists ds, Track_name t = String "A" ds
                              /\ Py.forallb_s Py.isdecimal ds = true)).
  { apply Track_name_shape. intros Hv. rewrite (Hvid Hv). lia. }
  assert (Htrack : Track_init (Track_name t) = Ok t).
  { rewrite Track_init_of_name. destruct t as [ty idx]. cbn [_type _index] in *.
    destruct (1 <? idx)%Z eqn:E; [reflexivity|]. apply Z.ltb_ge in E.
    replace idx with 1%Z by lia. reflexivity. }
  remember (Py.zfill 3 (Py.str_int n)) as N eqn:EN.
  remember (SourceReel_name reel) as R eqn:ER.
  remember (Track_name t) as T eqn:ET.
  remember (Timecode_str (TimecodeRange_start tsrc)) as t1 eqn:E1.
  remember (Timecode_str (TimecodeRange_end tsrc)) as t2 eqn:E2.
  remember (Timecode_str (TimecodeRange_start trec)) as t3 eqn:E3.
  remember (Timecode_str (TimecodeRange_end trec)) as t4 eqn:E4.
  pose proof (CutStatement_PAT_EVENT_fields N "  " R
                (Py.replicate (128 - String.length R) " " ++ "  ") T
                (Py.replicate (3 - String.length T) " " ++ "  ") "       "
                t1 " " t2 " " t3 " " t4 "" HN1 HN2 HR1 HR2 HT) as Hm.
  match type of Hm with
  | ?A -> ?B -> ?C -> _ =>
      assert (HA : A); [|assert (HB : B); [|assert (HC : C) by reflexivity]]
  end.
  { repeat (apply Forall_cons; [split|]); try apply Forall_nil;
      first [ discriminate | reflexivity
            | rewrite forallb_s_app, replicate_spaces; reflexivity
            | apply app_nonempty_r; discriminate ]. }
  { repeat constructor; assumption. }
  specialize (Hm HA HB HC). clear HA HB HC.
  rewrite string_app_nil_r in Hm. rewrite !string_app_assoc in Hm.
  match type of Hm with
  | Re.match_ _ _ ?l = _ =>
      assert (Hline : StandardFormStatement_str
                        (mkSFS reel [t] tsrc trec (Some n) CutStatement) = l)
  end.
  { unfold StandardFormStatement_str, str_head, str_tail, reel_name, Py.ljust.
    cbn [_class _event_number _tracks _timecode_source _timecode_record _reel map Py.join].
    rewrite <- EN, <- ER, <- ET, <- E1, <- E2, <- E3, <- E4.
    rewrite !string_app_assoc. reflexivity. }
  assert (Hparse : CutStatement_parse_from_pattern
                     [ ("tc_rec_out", t4); ("tc_rec_in", t3); ("tc_src_out", t2);
                       ("tc_src_in", t1); ("event_type", "C"); ("track_type", T);
                       ("reel_name", R); ("event_number", N) ]
                   = Ok (mkSFS reel [t] tsrc trec (Some n) CutStatement)).
  { destruct (cut_fields_groups t4 t3 t2 t1 "C" T R N) as (G1 & G2 & G3 & G4 & G5 & G6 & G7).
    cbv zeta in G1, G2, G3, G4, G5, G6, G7.
    unfold CutStatement_parse_from_pattern, _parse_shared_elements, group.
    rewrite G1, G2, G3, G4, G5, G6, G7. cbn [bind].
    rewrite HintN. cbn [bind]. rewrite Htrack. cbn [bind].
    rewrite I1, I2. cbn [bind]. rewrite R1. cbn [bind].
    rewrite I3, I4. cbn [bind]. rewrite R2. cbn [bind].
    unfold StandardFormStatement_init. rewrite Hreel. reflexivity. }
  rewrite Hline. split.
  - unfold CutStatement_parse_from_string, parse_from_string. rewrite Hm. exact Hparse.
  - unfold Event__identify_line, StandardFormStatement_all_statement_types.
    cbn [first_match]. rewrite Hm, Hparse. reflexivity.
Qed.

(** X23. A cut statement prints to a line that reads back as the statement
    itself, through [CutStatement.parse_from_string] and through
    [Event._identify_line] alike.  This holds for a statement with an event
    number that is not negative, numbers that [str] prints (at most 4300
    digits), a reel that its own name stands for, one track with an index of
    at least 1 (exactly 1 for a video track, whose name with a number no
    pattern takes) and timecodes that print in the form of the patterns and
    read back. *)
Theorem CutStatement_str_reads_back {X : Externals}
    (s : StandardFormStatement) (n : Z) (t : Track) :
  _class s = CutStatement ->
  _event_number s = Some n -> (0 <= n)%Z ->
  StandardFormStatement_printable s = true ->
  SourceReel_from_string (reel_name s) = Ok (_reel s) ->
  _tracks s = [t] -> (1 <= _index t)%Z -> (_type t = VIDEO -> _index t = 1%Z) ->
  TimecodeRange_reads_back (_timecode_source s) ->
  TimecodeRange_reads_back (_timecode_record s) ->
  CutStatement_parse_from_string (StandardFormStatement_str s) = Ok s
  /\ Event__identify_line (StandardFormStatement_str s) = Ok (IsStandard s).
Proof.
  intros Hc Hen Hpos Hpr Hreel Htr Hidx Hvid Hsrc Hrec.
  apply (plain_cut_identify n s).
  split; [exact Hc|]. split; [exact Hen|]. split; [exact Hpos|]. split; [exact Hpr|].
  split; [exact Hreel|]. split; [exists t; auto|]. split; assumption.
Qed.

Lemma CutStatement_str_reads_back_witness :
  CutStatement_parse_from_string (X:=Reference.externals)
    (StandardFormStatement_str (X:=Reference.externals)
       (mkSFS (X:=Reference.externals) (TapeSource "TAPE001") [mkTrack AUDIO 2]
          (86400%Z, 86520%Z) (86640%Z, 86760%Z) (Some 7%Z) CutStatement))
  = Ok (mkSFS (X:=Reference.externals) (TapeSource "TAPE001") [mkTrack AUDIO 2]
          (86400%Z, 86520%Z) (86640%Z, 86760%Z) (Some 7%Z) CutStatement)
  /\ Event__identify_line (X:=Reference.externals)
       (StandardFormStatement_str (X:=Reference.externals)
          (mkSFS (X:=Reference.externals) (TapeSource "TAPE001") [mkTrack AUDIO 2]
             (86400%Z, 86520%Z) (86640%Z, 86760%Z) (Some 7%Z) CutStatement))
     = Ok (IsStandard
             (mkSFS (X:=Reference.externals) (TapeSource "TAPE001") [mkTrack AUDIO 2]
                (86400%Z, 86520%Z) (86640%Z, 86760%Z) (Some 7%Z) CutStatement)).
Proof.
  apply (CutStatement_str_reads_back (X:=Reference.externals)
           (mkSFS (X:=Reference.externals) (TapeSource "TAPE001") [mkTrack AUDIO 2]
              (86400%Z, 86520%Z) (86640%Z, 86760%Z) (Some 7%Z) CutStatement)
           7%Z (mkTrack AUDIO 2));
    try reflexivity; try discriminate; try (cbn [_index]; lia);
    repeat split; reflexivity.
Defined.

(** ** events.py: an event of cuts reads back *)

Lemma no_space_no_linebreak s :
  Py.existsb_s Py.isspace s = false -> Py.existsb_s Py.islinebreak s = false.
Proof. apply existsb_s_impl. exact islinebreak_isspace. Qed.

Lemma decimal_no_linebreak s :
  Py.forallb_s Py.isdecimal s = true -> Py.existsb_s Py.islinebreak s = false.
Proof. intros H. apply no_space_no_linebreak, decimal_no_space, H. Qed.

Lemma replicate_no_linebreak k : Py.existsb_s Py.islinebreak (Py.replicate k " ") = false.
Proof. induction k as [|k IH]; [reflexivity | exact IH]. Qed.

Lemma isdecimal_not_linebreak c : Py.isdecimal c = true -> Py.islinebreak c = false.
Proof.
  intros H. destruct (Py.islinebreak c) eqn:E; [|reflexivity].
  apply islinebreak_isspace in E. apply isdecimal_notspace in H. congruence.
Qed.

Lemma timecode_no_linebreak t :
  timecode_shaped t = true -> Py.existsb_s Py.islinebreak t = false.
Proof.
  intros H. destruct (timecode_shaped_inv t H) as (a & b & c & d & e & f & g & h & -> & Hd).
  repeat match goal with
         | H : Forall _ (_ :: _) |- _ =>
             let H1 := fresh "D" in
             pose proof (Forall_inv H) as H1; cbv beta in H1;
             apply isdecimal_not_linebreak in H1; apply Forall_inv_tail in H
         end.
  cbn [Py.existsb_s].
  repeat match goal with
         | H : Py.islinebreak _ = false |- _ => rewrite H; clear H
         end.
  reflexivity.
Qed.

Lemma track_name_no_linebreak T :
  T = "V" \/ (exists ds, T = String "A" ds /\ Py.forallb_s Py.isdecimal ds = true) ->
  Py.existsb_s Py.islinebreak T = false.
Proof.
  intros [-> | (ds & -> & Hds)]; [reflexivity|].
  cbn [Py.existsb_s]. rewrite (decimal_no_linebreak _ Hds). reflexivity.
Qed.

(** The line of a plain cut holds no line break of any kind. *)
Lemma plain_cut_no_linebreak {X : Externals} (n : Z) (s : StandardFormStatement) :
  plain_cut n s ->
  Py.existsb_s Py.islinebreak (StandardFormStatement_str s) = false.
Proof.
  intros (Hc & Hen & Hpos & _ & Hreel & (t & Htr & Hidx & Hvid) & Hsrc & Hrec).
  destruct Hsrc as ((S1 & _) & (S2 & _) & _). destruct Hrec as ((S3 & _) & (S4 & _) & _).
  destruct (SourceReel_from_string_inv _ _ Hreel) as (_ & HR & _).
  destruct (str_int_spec n Hpos) as (Hne & Hall & _).
  destruct (zfill_decimal 3 _ Hne Hall) as (_ & HN & _).
  assert (HT : Py.existsb_s Py.islinebreak (Track_name t) = false).
  { apply track_name_no_linebreak, Track_name_shape. intros Hv. rewrite (Hvid Hv). lia. }
  unfold StandardFormStatement_str, str_head, str_tail, Py.ljust, reel_name.
  rewrite Hc, Hen, Htr. cbn [map Py.join].
  rewrite !existsb_s_app.
  rewrite (decimal_no_linebreak _ HN), (no_space_no_linebreak _ HR), HT,
    !replicate_no_linebreak, (timecode_no_linebreak _ S1), (timecode_no_linebreak _ S2),
    (timecode_no_linebreak _ S3), (timecode_no_linebreak _ S4).
  reflexivity.
Qed.

(** The first token of the line of a plain cut is its number. *)
Lemma plain_cut_first_token {X : Externals} (n : Z) (s : StandardFormStatement) :
  plain_cut n s ->
  exists tok, Py.first_token (StandardFormStatement_str s) = Ok tok /\ Py.int tok = Ok n.
Proof.
  intros (_ & Hen & Hpos & _).
  destruct (StandardFormStatement_str_head s) as (rest & ->). rewrite Hen.
  destruct (str_int_spec n Hpos) as (Hne & Hall & _).
  destruct (zfill_decimal 3 _ Hne Hall) as (Hz1 & Hz2 & _).
  exists (Py.zfill 3 (Py.str_int n)). split.
  - apply first_token_digits; [assumption | assumption | reflexivity].
  - apply int_zfill, Hpos.
Qed.

Lemma first_token_nonblank line tok : Py.first_token line = Ok tok -> nonblank line = true.
Proof.
  unfold Py.first_token, nonblank, Py.strip. intros H.
  pose proof (lstrip_starts_nonspace line) as Hs.
  destruct (Py.lstrip line) as [|c r]; [discriminate|].
  cbn [starts_nonspace] in Hs. apply nonempty_true_iff, rstrip_nonempty, Hs.
Qed.

(** [splitlines] on a line, a newline and more text. *)
Lemma splitlines_go_line l rest : forall cur,
  Py.existsb_s Py.islinebreak l = false -> rest <> "" ->
  Py.splitlines_go cur (l ++ String Py.LF rest) = (cur ++ l)%string :: Py.splitlines_go "" rest.
Proof.
  induction l as [|c l IH]; intros cur Hl Hrest; cbn [String.append Py.splitlines_go].
  - change (Py.islinebreak Py.LF) with true. cbv iota.
    destruct rest as [|d r]; [congruence|].
    change (Ascii.eqb Py.LF Py.CR) with false. cbn [andb]. rewrite string_app_nil_r.
    reflexivity.
  - cbn [Py.existsb_s] in Hl. apply orb_false_iff in Hl as [Hc Hl]. rewrite Hc.
    rewrite (IH _ Hl Hrest), string_app_assoc. reflexivity.
Qed.

Lemma join_cons sep x y l : Py.join sep (x :: y :: l) = (x ++ sep ++ Py.join sep (y :: l))%string.
Proof. reflexivity. Qed.

Lemma join_nonempty sep y l : y <> "" -> Py.join sep (y :: l) <> "".
Proof.
  intros Hy. destruct y as [|c r]; [congruence|].
  destruct (join_starts sep c r l) as (r' & ->). discriminate.
Qed.

(** Lines without line breaks, none of them empty, are the lines of their
    join. *)
Lemma splitlines_join lines :
  Forall (fun l => l <> "" /\ Py.existsb_s Py.islinebreak l = false) lines ->
  Py.splitlines (Py.join (String Py.LF "") lines) = lines.
Proof.
  unfold Py.splitlines. induction lines as [|x lines IH]; intros H; [reflexivity|].
  pose proof (Forall_inv H) as [Hx Hb]. apply Forall_inv_tail in H.
  destruct lines as [|y lines].
  - cbn [Py.join]. rewrite (splitlines_go_no_break _ _ Hb). cbn [String.append].
    destruct x; [congruence | reflexivity].
  - rewrite join_cons. cbn [String.append].
    rewrite splitlines_go_line;
      [| exact Hb | apply join_nonempty; apply (proj1 (Forall_inv H))].
    rewrite (IH H). reflexivity.
Qed.

(** The loop of [Event.from_string] over the lines of plain cuts, whatever
    their numbers. *)
Lemma from_string_loop_plain {X : Externals} (rest : list string) :
  forall sfs acc, Forall (fun s => exists n, plain_cut n s) sfs ->
  from_string_loop (map StandardFormStatement_str sfs ++ rest) acc [] []
  = from_string_loop rest (acc ++ sfs) [] [].
Proof.
  induction sfs as [|s sfs IH]; intros acc H.
  - rewrite app_nil_r. reflexivity.
  - pose proof (Forall_inv H) as (n & Hs). apply Forall_inv_tail in H.
    cbn [map app from_string_loop].
    destruct (plain_cut_first_token n s Hs) as (tok & Htok & _).
    pose proof (first_token_nonblank _ _ Htok) as Hnb. unfold nonblank in Hnb.
    rewrite Hnb. cbn [negb].
    rewrite (proj2 (plain_cut_identify n s Hs)). cbn [bind].
    rewrite (IH _ H), <- app_assoc. reflexivity.
Qed.

Lemma Event_eta {X : Externals} (ev : Event) :
  _nfs ev = [] -> _comments ev = [] -> _fcm ev = NON_DROP_FRAME ->
  ev = mkEvent (_sfs ev) [] NON_DROP_FRAME [].
Proof.
  intros Hn Hc Hf. destruct ev as [sfs nfs fcm comments].
  cbn [_sfs _nfs _comments _fcm] in *. subst. reflexivity.
Qed.

Lemma plain_event_eta {X : Externals} (n : Z) (ev : Event) :
  plain_event n ev -> ev = mkEvent (_sfs ev) [] NON_DROP_FRAME [].
Proof. intros (_ & _ & Hn & Hc & Hf). apply Event_eta; assumption. Qed.

Lemma plain_cuts_any {X : Externals} (n : Z) (sfs : list StandardFormStatement) :
  Forall (plain_cut n) sfs -> Forall (fun s => exists k, plain_cut k s) sfs.
Proof. apply Forall_impl. intros s Hs. exists n. exact Hs. Qed.

Lemma plain_cut_lines {X : Externals} (sfs : list StandardFormStatement) :
  Forall (fun s => exists n, plain_cut n s) sfs ->
  Forall (fun l => l <> "" /\ Py.existsb_s Py.islinebreak l = false)
    (map StandardFormStatement_str sfs).
Proof.
  intros H. induction H as [|s sfs (n & Hs) H IH]; cbn [map]; constructor; [|exact IH].
  split; [|apply (plain_cut_no_linebreak n s Hs)].
  destruct (plain_cut_first_token n s Hs) as (tok & Htok & _).
  apply nonempty_true_iff, (first_token_line_nonempty _ _ Htok).
Qed.

(** The lines [from_file] collects for an event of plain cuts are read as
    that event. *)
Lemma Event_from_string_plain {X : Externals} (n : Z) (ev : Event) :
  plain_event n ev ->
  Event_from_string (Py.join (String Py.LF "") (map StandardFormStatement_str (_sfs ev)))
  = Ok ev.
Proof.
  intros Hev. pose proof (plain_event_eta n ev Hev) as Heta.
  destruct Hev as (Hne & Hall & _). apply plain_cuts_any in Hall.
  unfold Event_from_string. rewrite (splitlines_join _ (plain_cut_lines _ Hall)).
  rewrite <- (app_nil_r (map _ _)). rewrite (from_string_loop_plain [] _ [] Hall).
  cbn [app from_string_loop].
  destruct (_sfs ev) as [|s sfs] eqn:E; [congruence|].
  rewrite Event_init_cons, Heta. reflexivity.
Qed.

Lemma join_app sep (l m : list string) :
  l <> [] -> m <> [] -> Py.join sep (l ++ m) = (Py.join sep l ++ sep ++ Py.join sep m)%string.
Proof.
  intros Hl Hm. induction l as [|x l IH]; [congruence|].
  destruct l as [|y l].
  - cbn [app]. destruct m as [|z m]; [congruence | reflexivity].
  - change ((x :: y :: l) ++ m) with (x :: y :: (l ++ m)).
    rewrite !join_cons. change (y :: l ++ m) with ((y :: l) ++ m).
    rewrite IH by discriminate. rewrite !string_app_assoc. reflexivity.
Qed.

(** Lines without line breaks, with two empty lines after them. *)
Lemma splitlines_join_blank lines :
  Forall (fun l => Py.existsb_s Py.islinebreak l = false) lines ->
  Py.splitlines (Py.join (String Py.LF "") (lines ++ [""; ""])) = lines ++ [""].
Proof.
  unfold Py.splitlines. induction lines as [|x lines IH]; intros H; [reflexivity|].
  pose proof (Forall_inv H) as Hb. apply Forall_inv_tail in H.
  change ((x :: lines) ++ [""; ""]) with (x :: (lines ++ [""; ""])).
  destruct (lines ++ [""; ""]) as [|y more] eqn:E.
  { destruct lines; discriminate. }
  rewrite join_cons. cbn [String.append].
  rewrite splitlines_go_line; [| exact Hb |].
  - rewrite (IH H). reflexivity.
  - destruct lines as [|z lines]; cbn [app] in E.
    + injection E as <- <-. discriminate.
    + injection E as <- <-. destruct (lines ++ [""; ""]) eqn:E'.
      { destruct lines; discriminate. }
      rewrite join_cons. destruct z; discriminate.
Qed.

(** X24. An event of plain cuts, whatever their numbers, without notes and
    comments, is written and read back as itself: every statement line reads
    back as its statement and the empty lines that stand for the notes and
    the comments are skipped. *)
Theorem Event_from_string_str {X : Externals} (ev : Event) :
  _sfs ev <> [] -> Forall (fun s => exists n, plain_cut n s) (_sfs ev) ->
  _nfs ev = [] -> _comments ev = [] -> _fcm ev = NON_DROP_FRAME ->
  Event_from_string (Event_str ev) = Ok ev.
Proof.
  intros Hne Hall Hn Hc Hf. pose proof (Event_eta ev Hn Hc Hf) as Heta.
  unfold Event_from_string, Event_str. rewrite Hn, Hc. cbn [map].
  change (Py.join (String Py.LF "") [])%string with "".
  assert (Hj : Py.join (String Py.LF "")
                 [Py.join (String Py.LF "") (map StandardFormStatement_str (_sfs ev)); ""; ""]
               = Py.join (String Py.LF "")
                   (map StandardFormStatement_str (_sfs ev) ++ [""; ""])).
  { rewrite join_app; [reflexivity | | discriminate].
    destruct (_sfs ev); [congruence | discriminate]. }
  rewrite Hj, splitlines_join_blank.
  - rewrite (from_string_loop_plain [""] _ [] Hall).
    cbn [app from_string_loop]. change (negb (Py.nonempty (Py.strip ""))) with true. cbv iota.
    destruct (_sfs ev) as [|s sfs] eqn:E; [congruence|].
    rewrite Event_init_cons, Heta. reflexivity.
  - eapply Forall_impl; [|exact (plain_cut_lines _ Hall)].
    intros l [_ H]. exact H.
Qed.

Ltac plain_by_evaluation :=
  repeat first
    [ exact I
    | reflexivity
    | discriminate
    | lia
    | split
    | apply Forall_cons
    | apply Forall_nil
    | eexists
    | intros _ ].

Lemma Event_from_string_str_witness :
  Event_from_string (X:=Reference.externals)
    (Event_str (X:=Reference.externals)
       (mkEvent
          [ mkSFS (X:=Reference.externals) (TapeSource "TAPE001") [mkTrack VIDEO 1]
              (86400%Z, 86520%Z) (86640%Z, 86760%Z) (Some 1%Z) CutStatement;
            mkSFS (X:=Reference.externals) AuxSource [mkTrack AUDIO 2]
              (86400%Z, 86520%Z) (86640%Z, 86760%Z) (Some 2%Z) CutStatement ]
          [] NON_DROP_FRAME []))
  = Ok (mkEvent
          [ mkSFS (X:=Reference.externals) (TapeSource "TAPE001") [mkTrack VIDEO 1]
              (86400%Z, 86520%Z) (86640%Z, 86760%Z) (Some 1%Z) CutStatement;
            mkSFS (X:=Reference.externals) AuxSource [mkTrack AUDIO 2]
              (86400%Z, 86520%Z) (86640%Z, 86760%Z) (Some 2%Z) CutStatement ]
          [] NON_DROP_FRAME []).
Proof.
  apply (Event_from_string_str (X:=Reference.externals)
           (mkEvent
          [ mkSFS (X:=Reference.externals) (TapeSource "TAPE001") [mkTrack VIDEO 1]
              (86400%Z, 86520%Z) (86640%Z, 86760%Z) (Some 1%Z) CutStatement;
            mkSFS (X:=Reference.externals) AuxSource [mkTrack AUDIO 2]
              (86400%Z, 86520%Z) (86640%Z, 86760%Z) (Some 2%Z) CutStatement ]
          [] NON_DROP_FRAME []));
    [discriminate | | reflexivity | reflexivity | reflexivity].
  cbn [_sfs].
  apply Forall_cons; [exists 1%Z | apply Forall_cons; [exists 2%Z | apply Forall_nil]];
    unfold plain_cut, TimecodeRange_reads_back, Timecode_reads_back;
    cbn [_class _event_number _tracks _index _type];
    plain_by_evaluation.
Defined.

(** ** edl.py: a document of cuts reads back *)

Lemma rstrip_nl_line l :
  Py.existsb_s (is_ch Py.LF) l = false -> Py.rstrip_nl (l ++ String Py.LF "") = l.
Proof.
  induction l as [|c l IH]; intros H; [reflexivity|].
  cbn [Py.existsb_s] in H. apply orb_false_iff in H as [Hc Hl].
  cbn [String.append Py.rstrip_nl]. rewrite (IH Hl). unfold is_ch in Hc. rewrite Hc.
  destruct l; reflexivity.
Qed.

(** The body of the loop for a line that starts with the number [k]. *)
Lemma try_body_numbered {X : Externals} st line tok k :
  Py.first_token line = Ok tok -> Py.int tok = Ok k ->
  try_body st line
  = (st1 <- match event_buffer st with
            | [] => Ok st
            | _ :: _ =>
                if negb (current_index st =? 0)%Z && negb (k =? current_index st)%Z
                then ev <- Event_from_string
                             (Py.join (String Py.LF "") (event_buffer st)) ;;
                     Ok (mkState (events st ++ [ev]) [] 0%Z)
                else Ok st
            end ;;
     Ok (mkState (events st1) (event_buffer st1 ++ [line]) k)).
Proof.
  intros Htok Hint. unfold try_body.
  rewrite (is_begin_new_event_numbered _ (current_index st) _ _ Htok Hint), Htok.
  pose proof (int_ok_isnumeric _ _ Hint) as Hnum.
  destruct (event_buffer st) as [|b bs].
  - cbn [bind]. rewrite Hnum, Hint. reflexivity.
  - cbn [bind]. destruct (negb _ && negb _); cbn [bind].
    + destruct (Event_from_string _); cbn [bind]; [|reflexivity].
      rewrite Hnum, Hint. reflexivity.
    + rewrite Hnum, Hint. reflexivity.
Qed.

Lemma loop_step_ok {X : Externals} st ln line tok st' :
  Py.first_token line = Ok tok -> try_body st line = Ok st' -> loop_step st ln line = Ok st'.
Proof.
  intros Htok H. unfold loop_step.
  rewrite (first_token_line_nonempty _ _ Htok), H. reflexivity.
Qed.

(** The lines of the cuts that follow the first cut of an event join the
    buffer. *)
Lemma loop_more_cuts {X : Externals} (n : Z) (rest : list string) :
  forall ss E buf ln, buf <> [] -> Forall (plain_cut n) ss ->
  exists ln',
    loop (mkState E buf n) ln
      (map (fun s => StandardFormStatement_str s ++ String Py.LF "")%string ss ++ rest)
    = loop (mkState E (buf ++ map StandardFormStatement_str ss) n) ln' rest.
Proof.
  induction ss as [|s ss IH]; intros E buf ln Hbuf H.
  - exists ln. cbn [map app]. rewrite app_nil_r. reflexivity.
  - pose proof (Forall_inv H) as Hs. apply Forall_inv_tail in H.
    destruct (plain_cut_first_token n s Hs) as (tok & Htok & Hint).
    cbn [map app loop].
    rewrite rstrip_nl_line
      by apply no_linebreak_no_LF, (plain_cut_no_linebreak n s Hs).
    assert (Hbody : try_body (mkState E buf n) (StandardFormStatement_str s)
                    = Ok (mkState E (buf ++ [StandardFormStatement_str s]) n)).
    { rewrite (try_body_numbered _ _ _ _ Htok Hint). cbn [event_buffer current_index events].
      destruct buf as [|b bs]; [congruence|].
      rewrite Z.eqb_refl, andb_false_r. reflexivity. }
    rewrite (loop_step_ok _ _ _ _ _ Htok Hbody). cbn [bind].
    destruct (IH E (buf ++ [StandardFormStatement_str s]) (ln + 1)%Z) as (ln' & ->);
      [destruct buf; discriminate | exact H |].
    exists ln'. rewrite <- app_assoc. reflexivity.
Qed.

(** The line of the first cut of an event closes the event before it, if
    there is one, and opens the buffer of its own. *)
Lemma loop_first_cut {X : Externals} (n : Z) (s : StandardFormStatement)
    (E : list Event) (pend : option (Z * Event)) (ln : Z) (rest : list string) :
  (0 < n)%Z -> plain_cut n s ->
  match pend with
  | Some (m, p) => (0 < m)%Z /\ m <> n /\ plain_event m p
  | None => True
  end ->
  loop (between E pend) ln ((StandardFormStatement_str s ++ String Py.LF "")%string :: rest)
  = loop (mkState (E ++ match pend with Some (_, p) => [p] | None => [] end)
            [StandardFormStatement_str s] n) (ln + 1) rest.
Proof.
  intros Hn Hs Hpend.
  destruct (plain_cut_first_token n s Hs) as (tok & Htok & Hint).
  cbn [loop].
  rewrite rstrip_nl_line by apply no_linebreak_no_LF, (plain_cut_no_linebreak n s Hs).
  assert (Hbody : try_body (between E pend) (StandardFormStatement_str s)
                  = Ok (mkState (E ++ match pend with Some (_, p) => [p] | None => [] end)
                          [StandardFormStatement_str s] n)).
  { rewrite (try_body_numbered _ _ _ _ Htok Hint).
    destruct pend as [[m p]|]; cbn [between event_buffer current_index events].
    - destruct Hpend as (Hm & Hmn & Hp).
      assert (Hm0 : (0 <= m)%Z) by lia.
      rewrite (Event_from_string_plain m p Hp).
      destruct Hp as (Hne & _).
      destruct (_sfs p) as [|s0 ss0]; [congruence|]. cbn [map].
      replace (m =? 0)%Z with false by (symmetry; apply Z.eqb_neq; lia).
      replace (n =? m)%Z with false by (symmetry; apply Z.eqb_neq; congruence).
      reflexivity.
    - cbn [bind events event_buffer app]. rewrite app_nil_r. reflexivity. }
  rewrite (loop_step_ok _ _ _ _ _ Htok Hbody). reflexivity.
Qed.

(** The lines of an event of plain cuts leave that event in the buffer. *)
Lemma loop_event {X : Externals} (n : Z) (ev : Event)
    (E : list Event) (pend : option (Z * Event)) (ln : Z) (rest : list string) :
  (0 < n)%Z -> plain_event n ev ->
  match pend with
  | Some (m, p) => (0 < m)%Z /\ m <> n /\ plain_event m p
  | None => True
  end ->
  exists ln',
    loop (between E pend) ln (event_lines ev ++ rest)
    = loop (between (E ++ match pend with Some (_, p) => [p] | None => [] end)
              (Some (n, ev))) ln' rest.
Proof.
  intros Hn (Hne & Hall & _) Hpend. unfold event_lines. cbn [between].
  destruct (_sfs ev) as [|s ss]; [congruence|].
  pose proof (Forall_inv Hall) as Hs. apply Forall_inv_tail in Hall.
  cbn [map app]. rewrite (loop_first_cut n s E pend ln _ Hn Hs Hpend).
  rewrite <- app_assoc.
  destruct (loop_more_cuts n ([String Py.LF ""; String Py.LF ""] ++ rest) ss
              (E ++ match pend with Some (_, p) => [p] | None => [] end)
              [StandardFormStatement_str s] (ln + 1)%Z ltac:(discriminate) Hall) as (ln' & ->).
  exists (ln' + 1 + 1)%Z. reflexivity.
Qed.

(** The loop over the lines of events of plain cuts, and the events that
    the statement after the loop then holds. *)
Lemma loop_plain_events {X : Externals} :
  forall evs ns E pend ln,
  plain_events ns evs ->
  match pend with
  | Some (m, p) =>
      (0 < m)%Z /\ plain_event m p /\ match ns with n :: _ => m <> n | [] => True end
  | None => True
  end ->
  exists st,
    loop (between E pend) ln (flat_map event_lines evs) = Ok st
    /\ match event_buffer st with
       | [] => Ok (events st)
       | _ :: _ =>
           ev <- Event_from_string (Py.join (String Py.LF "") (event_buffer st)) ;;
           Ok (events st ++ [ev])
       end
       = Ok (E ++ match pend with Some (_, p) => [p] | None => [] end ++ evs).
Proof.
  induction evs as [|ev evs IH]; intros ns E pend ln Hevs Hpend.
  - exists (between E pend). split; [reflexivity|].
    destruct pend as [[m p]|]; cbn [between event_buffer events].
    + destruct Hpend as (Hm & Hp & _).
      rewrite (Event_from_string_plain m p Hp).
      destruct Hp as (Hne & _). destruct (_sfs p); [congruence|]. reflexivity.
    + rewrite app_nil_r. reflexivity.
  - destruct ns as [|n ns]; [contradiction|].
    cbn [plain_events] in Hevs. destruct Hevs as (Hn & Hev & Hnext & Hevs).
    cbn [flat_map].
    destruct (loop_event n ev E pend ln (flat_map event_lines evs) Hn Hev) as (ln' & ->).
    { destruct pend as [[m p]|]; [|exact I]. destruct Hpend as (Hm & Hp & Hmn). auto. }
    destruct (IH ns (E ++ match pend with Some (_, p) => [p] | None => [] end)
                (Some (n, ev)) ln' Hevs) as (st & Hloop & Hflush).
    { split; [exact Hn|]. split; [exact Hev|]. exact Hnext. }
    exists st. split; [exact Hloop|]. rewrite Hflush, <- !app_assoc. reflexivity.
Qed.

Lemma Event_str_plain {X : Externals} (n : Z) (ev : Event) :
  plain_event n ev ->
  Event_str ev
  = Py.join (String Py.LF "") (map StandardFormStatement_str (_sfs ev) ++ [""; ""]).
Proof.
  intros (Hne & _ & Hn & Hc & _). unfold Event_str. rewrite Hn, Hc. cbn [map].
  change (Py.join (String Py.LF "") [])%string with "".
  rewrite join_app; [reflexivity | | discriminate].
  destruct (_sfs ev); [congruence | discriminate].
Qed.

(** [readlines] on lines without a newline inside, written with two empty
    lines after them. *)
Lemma readlines_join lines tail :
  Forall (fun l => Py.existsb_s (is_ch Py.LF) l = false) lines ->
  readlines_go "" (Py.join (String Py.LF "") (lines ++ [""; ""]) ++ String Py.LF tail)
  = map (fun l => l ++ String Py.LF "")%string lines
    ++ [String Py.LF ""; String Py.LF ""] ++ readlines_go "" tail.
Proof.
  induction lines as [|x lines IH]; intros H.
  - cbn [app map Py.join String.append readlines_go].
    change (Ascii.eqb Py.LF Py.LF) with true. cbv iota. reflexivity.
  - pose proof (Forall_inv H) as Hx. apply Forall_inv_tail in H.
    change ((x :: lines) ++ [""; ""]) with (x :: (lines ++ [""; ""])).
    destruct (lines ++ [""; ""]) as [|y more] eqn:E.
    { destruct lines; discriminate. }
    rewrite join_cons, !string_app_assoc. cbn [String.append].
    rewrite (readlines_go_line _ _ _ Hx). cbn [String.append map app].
    rewrite <- E in *. rewrite (IH H). reflexivity.
Qed.

Lemma concat_cons (x : string) (l : list string) :
  String.concat "" (x :: l) = (x ++ String.concat "" l)%string.
Proof.
  destruct l as [|y l]; cbn [String.concat]; [rewrite string_app_nil_r|]; reflexivity.
Qed.

(** The lines of the body of a written document of plain cuts. *)
Lemma readlines_body {X : Externals} :
  forall evs ns,
  plain_events ns evs ->
  readlines (String.concat "" (map (fun ev => Event_str ev ++ String Py.LF "")%string evs))
  = flat_map event_lines evs.
Proof.
  unfold readlines. induction evs as [|ev evs IH]; intros ns H; [reflexivity|].
  destruct ns as [|n ns]; [contradiction|].
  cbn [plain_events] in H. destruct H as (Hn & Hev & _ & Hevs).
  cbn [map flat_map]. rewrite concat_cons, (Event_str_plain n ev Hev), string_app_assoc.
  cbn [String.append]. rewrite readlines_join.
  - rewrite map_map, (IH ns Hevs). unfold event_lines at 2.
    rewrite <- app_assoc. reflexivity.
  - destruct Hev as (_ & Hall & _).
    eapply Forall_impl; [|exact (plain_cut_lines _ (plain_cuts_any n _ Hall))].
    intros l [_ Hl]. apply no_linebreak_no_LF, Hl.
Qed.

(** The first line of the body of a document of plain cuts, when there is
    one, is no FCM line. *)
Lemma body_not_FCM {X : Externals} evs ns :
  plain_events ns evs ->
  Py.startswith (Py.upper (nth 0 (flat_map event_lines evs) "")) "FCM:" = false.
Proof.
  intros H. destruct evs as [|ev evs]; [reflexivity|].
  destruct ns as [|n ns]; [contradiction|].
  cbn [plain_events] in H. destruct H as (Hn & (Hne & Hall & _) & _).
  cbn [flat_map]. unfold event_lines.
  destruct (_sfs ev) as [|s ss]; [congruence|]. cbn [map app nth].
  apply Forall_inv in Hall.
  destruct (StandardFormStatement_str_starts s) as (c & r & -> & Hc).
  { intros k Hk. destruct Hall as (_ & Hen & _). rewrite Hen in Hk. injection Hk as <-. lia. }
  cbn [String.append]. apply decimal_not_FCM, Hc.
Qed.

(** X25. A document whose title [Edl.__init__] accepts unchanged and whose
    events are events of plain cuts, numbered with positive numbers that
    [str] prints and that differ from one event to the next, is written and
    read back as itself, in each of the three frame counting modes. *)
Theorem from_file_str_plain_cuts {X : Externals} (ns : list Z) (D : Edl) :
  Py.strip (_title D) = _title D -> _title D <> "" ->
  Py.existsb_s Py.islinebreak (_title D) = false ->
  plain_events ns (_events D) ->
  Edl_from_file (Edl_str D) = Ok D.
Proof.
  destruct D as [T f evs]. cbn [_title _events]. intros Hs Hne Hbr Hevs.
  assert (Hinit : Edl_init T f evs = Ok (mkEdl T f evs)).
  { rewrite <- Hs at 2. apply Edl_init_clean; rewrite Hs; assumption. }
  destruct (loop_plain_events evs ns [] None 0%Z Hevs I) as (st & Hloop & Hflush).
  cbn [between app] in Hloop, Hflush.
  unfold Edl_from_file. rewrite Edl_str_shape. cbn [_title edl_fcm _events].
  rewrite readlines_title_line by exact Hbr.
  cbn [nth]. rewrite parse_title_of_header by assumption. cbn [bind].
  destruct f.
  - lazy iota beta. rewrite string_app_assoc. unfold readlines at 1 2 3.
    change (String Py.LF "" ++ String.concat "" ?l)%string
      with (String Py.LF (String.concat "" l)).
    rewrite readlines_go_line by reflexivity.
    cbn [nth].
    replace (Py.startswith _ "FCM:") with true by (vm_compute; reflexivity).
    replace (Edl__parse_fcm_from_line _) with (Ok NON_DROP_FRAME) by (vm_compute; reflexivity).
    cbn [bind skipn]. fold (readlines (String.concat ""
      (map (fun ev => (Event_str ev ++ String Py.LF "")%string) evs))).
    rewrite (readlines_body evs ns Hevs), Hloop. cbn [bind]. rewrite Hflush. cbn [bind].
    exact Hinit.
  - lazy iota beta. rewrite string_app_assoc. unfold readlines at 1 2 3.
    change (String Py.LF "" ++ String.concat "" ?l)%string
      with (String Py.LF (String.concat "" l)).
    rewrite readlines_go_line by reflexivity.
    cbn [nth].
    replace (Py.startswith _ "FCM:") with true by (vm_compute; reflexivity).
    replace (Edl__parse_fcm_from_line _) with (Ok DROP_FRAME) by (vm_compute; reflexivity).
    cbn [bind skipn]. fold (readlines (String.concat ""
      (map (fun ev => (Event_str ev ++ String Py.LF "")%string) evs))).
    rewrite (readlines_body evs ns Hevs), Hloop. cbn [bind]. rewrite Hflush. cbn [bind].
    exact Hinit.
  - lazy iota beta. cbn [String.append].
    rewrite (readlines_body evs ns Hevs), (body_not_FCM evs ns Hevs).
    cbn [bind skipn]. rewrite Hloop. cbn [bind]. rewrite Hflush. cbn [bind].
    exact Hinit.
Qed.

Lemma from_file_str_plain_cuts_witness :
  Edl_from_file (X:=Reference.externals)
    (Edl_str (X:=Reference.externals)
       (mkEdl "TEST EDL" DROP_FRAME
          [ (mkEvent
           [ mkSFS (X:=Reference.externals) (TapeSource "TAPE001") [mkTrack VIDEO 1]
               (86400%Z, 86520%Z) (86640%Z, 86760%Z) (Some 1%Z) CutStatement;
             mkSFS (X:=Reference.externals) AuxSource [mkTrack AUDIO 2]
               (86400%Z, 86520%Z) (86640%Z, 86760%Z) (Some 1%Z) CutStatement ]
           [] NON_DROP_FRAME []);
            (mkEvent
           [ mkSFS (X:=Reference.externals) BlackSource [mkTrack AUDIO 1]
               (86520%Z, 86640%Z) (86760%Z, 86880%Z) (Some 2%Z) CutStatement ]
           [] NON_DROP_FRAME []) ]))
  = Ok (mkEdl "TEST EDL" DROP_FRAME
          [ (mkEvent
           [ mkSFS (X:=Reference.externals) (TapeSource "TAPE001") [mkTrack VIDEO 1]
               (86400%Z, 86520%Z) (86640%Z, 86760%Z) (Some 1%Z) CutStatement;
             mkSFS (X:=Reference.externals) AuxSource [mkTrack AUDIO 2]
               (86400%Z, 86520%Z) (86640%Z, 86760%Z) (Some 1%Z) CutStatement ]
           [] NON_DROP_FRAME []);
            (mkEvent
           [ mkSFS (X:=Reference.externals) BlackSource [mkTrack AUDIO 1]
               (86520%Z, 86640%Z) (86760%Z, 86880%Z) (Some 2%Z) CutStatement ]
           [] NON_DROP_FRAME []) ]).
Proof.
  apply (from_file_str_plain_cuts (X:=Reference.externals) [1%Z; 2%Z]
           (mkEdl "TEST EDL" DROP_FRAME
              [ (mkEvent
           [ mkSFS (X:=Reference.externals) (TapeSource "TAPE001") [mkTrack VIDEO 1]
               (86400%Z, 86520%Z) (86640%Z, 86760%Z) (Some 1%Z) CutStatement;
             mkSFS (X:=Reference.externals) AuxSource [mkTrack AUDIO 2]
               (86400%Z, 86520%Z) (86640%Z, 86760%Z) (Some 1%Z) CutStatement ]
           [] NON_DROP_FRAME []);
                (mkEvent
           [ mkSFS (X:=Reference.externals) BlackSource [mkTrack AUDIO 1]
               (86520%Z, 86640%Z) (86760%Z, 86880%Z) (Some 2%Z) CutStatement ]
           [] NON_DROP_FRAME []) ]));
    [reflexivity | discriminate | reflexivity |].
  cbn [_events plain_events].
  unfold plain_event, plain_cut, TimecodeRange_reads_back, Timecode_reads_back.
  cbn [_sfs _nfs _comments _fcm _class _event_number _tracks _index _type].
  plain_by_evaluation.
Defined.

(** * The leading token of a line, and the number 0 *)

(** ** events.py: a numeric leading token *)

Lemma isspace_not_M c : Py.isspace c = true -> Re.lit_eqb true "M" c = false.
Proof. by_cases_on_char c. Qed.

(** A line whose first token starts with a numeric character passes the
    validator of no comment. *)
Lemma validate_numeric_token line c r :
  Py.first_token line = Ok (String c r) -> Py.isnumeric_ch c = true ->
  BaseComment_validate line = Ok false.
Proof.
  intros Htok Hc. unfold BaseComment_validate. cbv zeta. rewrite Htok. cbn [bind].
  rewrite Hc. cbn [negb bind]. rewrite andb_false_r. reflexivity.
Qed.

(** When the first token starts with a numeric character and the line does
    not, whitespace comes before the token. *)
Lemma first_token_behind_space line c r :
  Py.first_token line = Ok (String c r) -> Py.isnumeric_ch c = true ->
  first_char_isnumeric line = false ->
  match line with String w _ => Py.isspace w = true | EmptyString => False end.
Proof.
  destruct line as [|w l]; [discriminate|]. cbn [first_char_isnumeric]. intros Htok Hc Hw.
  destruct (Py.isspace w) eqn:Hs; [reflexivity|].
  rewrite (first_token_cons w l Hs) in Htok. injection Htok as <- _. congruence.
Qed.

(** Such a line is neither a note nor a comment. *)
Lemma numeric_token_behind_space {X : Externals} line c r :
  Py.first_token line = Ok (String c r) -> Py.isnumeric_ch c = true ->
  first_char_isnumeric line = false ->
  identify_note_or_comment line = Raise (ValueError "Unrecognized line").
Proof.
  intros Htok Hc Hw.
  pose proof (first_token_behind_space _ _ _ Htok Hc Hw) as Hsp.
  pose proof (validate_numeric_token _ _ _ Htok Hc) as Hv.
  unfold identify_note_or_comment. rewrite no_note_without_M.
  - unfold BaseComment_all_statement_types. cbn [identify_comment].
    unfold FieldComment_validate, StandardComment_validate. rewrite Hv. reflexivity.
  - destruct line as [|w l]; [exact I | apply isspace_not_M, Hsp].
Qed.

Lemma isnumeric_first_char tok :
  Py.isnumeric tok = true -> exists c r, tok = String c r /\ Py.isnumeric_ch c = true.
Proof.
  unfold Py.isnumeric. destruct tok as [|c r]; [discriminate|].
  cbn [Py.nonempty Py.forallb_s andb]. intros H. apply andb_true_iff in H as [Hc _]. eauto.
Qed.

(** C5.  A line whose first token is numeric and which matches no pattern of
    a standard form statement is never a note or a comment: classification
    raises, at once and as an unrecognized standard form statement when the
    line starts with the token, and as an unrecognized line, after the notes
    and the comments, when whitespace comes before the token.  The test that
    fails at once is on the first character of the line, not on the first
    token: a line that starts with a numeric character and matches no
    pattern fails as an unrecognized standard form statement whatever its
    first token is, and a line that does not start with a numeric character
    matches no pattern and goes on to the notes and the comments. *)
Theorem identify_line_tests_first_character {X : Externals} (line : string) :
  (forall tok, Py.first_token line = Ok tok -> Py.isnumeric tok = true ->
     first_match StandardFormStatement_all_statement_types line = None ->
     Event__identify_line line
     = Raise (ValueError (if first_char_isnumeric line
                          then "Unrecognized standard form statement"
                          else "Unrecognized line")))
  /\ (first_char_isnumeric line = true ->
      first_match StandardFormStatement_all_statement_types line = None ->
      Event__identify_line line = Raise (ValueError "Unrecognized standard form statement"))
  /\ (first_char_isnumeric line = false ->
      first_match StandardFormStatement_all_statement_types line = None
      /\ Event__identify_line line = identify_note_or_comment line).
Proof.
  split; [|split].
  - intros tok Htok Hnum Hm. unfold Event__identify_line. rewrite Hm.
    destruct (first_char_isnumeric line) eqn:Hc; [reflexivity|].
    destruct (isnumeric_first_char tok Hnum) as (c & r & -> & Hch).
    apply (numeric_token_behind_space line c r Htok Hch Hc).
  - intros Hc Hm. unfold Event__identify_line. rewrite Hm, Hc. reflexivity.
  - intros Hc.
    assert (Hm : first_match StandardFormStatement_all_statement_types line = None).
    { apply no_standard_form_without_digit. destruct line as [|c l]; [exact I|].
      apply isnumeric_ch_false_isdecimal, Hc. }
    unfold Event__identify_line. rewrite Hm, Hc. auto.
Qed.

Lemma no_standard_form_behind_space (X : Externals) :
  first_match StandardFormStatement_all_statement_types " 123 foo" = None.
Proof. apply no_standard_form_without_digit. reflexivity. Qed.

Lemma identify_line_behind_space (X : Externals) :
  Event__identify_line " 123 foo" = Raise (ValueError "Unrecognized line").
Proof. vm_compute. reflexivity. Qed.

Lemma identify_line_tests_first_character_witness :
  Event__identify_line (X:=Reference.externals) " 123 foo"
  = Raise (ValueError "Unrecognized line")
  /\ Event__identify_line (X:=Reference.externals) "001 garbage"
     = Raise (ValueError "Unrecognized standard form statement")
  /\ Event__identify_line (X:=Reference.externals) "SECOND PASS NOTES"
     = identify_note_or_comment "SECOND PASS NOTES".
Proof.
  split; [|split].
  - apply (proj1 (identify_line_tests_first_character (X:=Reference.externals) " 123 foo")
             "123").
    + reflexivity.
    + reflexivity.
    + exact (no_standard_form_behind_space Reference.externals).
  - apply (proj1 (proj2 (identify_line_tests_first_character
                           (X:=Reference.externals) "001 garbage"))).
    + reflexivity.
    + exact (no_standard_form_001_garbage Reference.externals).
  - apply (proj2 (proj2 (identify_line_tests_first_character
                           (X:=Reference.externals) "SECOND PASS NOTES"))).
    reflexivity.
Defined.

(** C5, as the claim has it, fails in both halves.  The first token of
    "1abc" is not numeric, yet the line fails as an unrecognized standard
    form statement instead of going on to the notes and the comments.  The
    first token of " 123 foo" is numeric and no pattern matches the line,
    yet it does not fail at once as an unrecognized standard form statement:
    it goes through the notes and the comments and fails as an unrecognized
    line. *)
Lemma identify_line_first_token_claim_fails :
  (Py.first_token "1abc" = Ok "1abc"
   /\ Py.isnumeric "1abc" = false
   /\ Event__identify_line (X:=Reference.externals) "1abc"
      = Raise (ValueError "Unrecognized standard form statement")
   /\ Event__identify_line (X:=Reference.externals) "1abc"
      <> identify_note_or_comment (X:=Reference.externals) "1abc")
  /\ (Py.first_token " 123 foo" = Ok "123"
      /\ Py.isnumeric "123" = true
      /\ first_match (StandardFormStatement_all_statement_types (X:=Reference.externals))
           " 123 foo" = None
      /\ Event__identify_line (X:=Reference.externals) " 123 foo"
         = Raise (ValueError "Unrecognized line")
      /\ Event__identify_line (X:=Reference.externals) " 123 foo"
         <> Raise (ValueError "Unrecognized standard form statement")).
Proof.
  destruct (identify_line_1abc Reference.externals) as [H1 H2].
  pose proof (identify_line_behind_space Reference.externals) as H3.
  split.
  - split; [vm_compute; reflexivity|]. split; [vm_compute; reflexivity|].
    split; [exact H1|]. rewrite H1, H2. intros H. inversion H.
  - split; [vm_compute; reflexivity|]. split; [vm_compute; reflexivity|].
    split; [exact (no_standard_form_behind_space Reference.externals)|].
    split; [exact H3|]. rewrite H3. intros H. inversion H.
Qed.

(** ** edl.py: the number 0 through [from_file] *)



